(** * TickTock: rollup aggregator, page manager and configuration store

    A shallow embedding of three translation units of the TickTock
    time-series database:

    - [src/agg/rollup.cpp]   (module [Rollup]),
    - [src/core/page.cpp]    (module [Page]),
    - [src/utils/config.cpp] (module [Config]).

    Integers of a fixed width are modelled as [Z] with the wrap-around
    written out, [double] as Rocq's primitive IEEE-754 binary64 [float],
    [std::map] as [gmap], pointers into the mapped page-info table as
    indices into a list.  What the three files use from other headers and
    translation units (sentinels, [sizeof]s, helper functions, the
    compressor) is a Section variable; where a record stands for a class
    declared elsewhere, its comment says so. *)

From Stdlib Require Import ZArith Floats Lia Ascii String.
From Stdlib Require Uint63.
From stdpp Require Import gmap strings list.

Local Open Scope Z_scope.

(** Unsigned wrap-around of the fixed-width integer types. *)
Definition wrap16 (z : Z) : Z := z mod 2 ^ 16.
Definition wrap32 (z : Z) : Z := z mod 2 ^ 32.
Definition wrap64 (z : Z) : Z := z mod 2 ^ 64.

(** Modelled from the spec: [Timestamp] is declared in another header; the
    spec makes it a 64-bit integer, taken as unsigned here. *)
Abbreviation Timestamp := Z (only parsing).

(* ===================================================================== *)
(** * src/agg/rollup.cpp *)
(* ===================================================================== *)

Module Rollup.

(** [std::min(a, b)] returns [b] when [b < a] and [a] otherwise;
    [std::max(a, b)] returns [b] when [a < b] and [a] otherwise. *)
Definition std_min (a b : float) : float := if PrimFloat.ltb b a then b else a.
Definition std_max (a b : float) : float := if PrimFloat.ltb a b then b else a.

(** What the aggregator reads from a [Tsdb] (declared in tsdb.h):
    [get_rollup_interval()], [get_time_range().get_from_sec()] and
    [get_time_range().get_to_sec()].  [tsdb_id] stands for the identity of
    the object behind the pointer. *)
Record Tsdb : Type := mkTsdb {
  tsdb_id : Z;
  get_rollup_interval : Timestamp;
  get_from_sec : Timestamp;
  get_to_sec : Timestamp
}.

(** A [DataPoint], read through [get_timestamp()] and [get_value()]. *)
Record DataPoint : Type := mkDataPoint {
  get_timestamp : Timestamp;
  get_value : float
}.

(** One call [m_tsdb->add_rollup_point(mid, tid, m_cnt, m_min, m_max, m_sum)].
    The call itself carries no timestamp; [rp_tstamp] records the value of
    [m_tstamp] at the time of the call, so that statements can say which
    bucket an aggregate belongs to. *)
Record rollup_point : Type := mkRollupPoint {
  rp_tsdb : Tsdb;
  rp_mid : Z;
  rp_tid : Z;
  rp_tstamp : Timestamp;
  rp_cnt : Z;
  rp_min : float;
  rp_max : float;
  rp_sum : float
}.

(** Modelled from the spec: the data members of [RollupManager] are
    declared in rollup.h; the constructor and [flush] name them, and the
    spec gives [cnt] 32 bits and makes [min], [max] and [sum] doubles. *)
Record RollupManager : Type := mkRollupManager {
  m_cnt : Z;
  m_min : float;
  m_max : float;
  m_sum : float;
  m_tsdb : option Tsdb;
  m_tstamp : Timestamp
}.

Definition set_tsdb (r : RollupManager) (t : option Tsdb) : RollupManager :=
  mkRollupManager (m_cnt r) (m_min r) (m_max r) (m_sum r) t (m_tstamp r).

Definition set_tstamp (r : RollupManager) (t : Timestamp) : RollupManager :=
  mkRollupManager (m_cnt r) (m_min r) (m_max r) (m_sum r) (m_tsdb r) t.

(** Lines 81-84 of [add_data_point]:
    [m_cnt++; m_min = std::min(m_min, value);
     m_max = std::max(m_min, value); m_sum += value;]
    The third statement reads [m_min], which the second one has just
    updated. *)
Definition accumulate (value : float) (r : RollupManager) : RollupManager :=
  let cnt := wrap32 (m_cnt r + 1) in
  let mn := std_min (m_min r) value in
  let mx := std_max mn value in
  let sm := PrimFloat.add (m_sum r) value in
  mkRollupManager cnt mn mx sm (m_tsdb r) (m_tstamp r).

(** The reset at the end of [flush]: [m_cnt = 0; m_min = m_max = m_sum = 0.0]. *)
Definition reset (r : RollupManager) : RollupManager :=
  mkRollupManager 0 0%float 0%float 0%float (m_tsdb r) (m_tstamp r).

(** [enum class RollupType] is declared in rollup.h; [query] tells the
    five aggregates below from every other enumerator ([RU_NONE] here). *)
Inductive RollupType : Type :=
| RU_AVG | RU_CNT | RU_MAX | RU_MIN | RU_SUM | RU_NONE.

(** The conversion [(double)m_cnt] of the 32-bit counter. *)
Definition double_of_cnt (cnt : Z) : float := PrimFloat.of_uint63 (Uint63.of_Z cnt).

(** [RollupManager::query]: [None] for [return false], and the pair
    written to [dp] otherwise. *)
Definition query (type : RollupType) (r : RollupManager)
  : option (Timestamp * float) :=
  if m_cnt r =? 0 then None
  else
    match type with
    | RU_AVG => Some (m_tstamp r, PrimFloat.div (m_sum r) (double_of_cnt (m_cnt r)))
    | RU_CNT => Some (m_tstamp r, double_of_cnt (m_cnt r))
    | RU_MAX => Some (m_tstamp r, m_max r)
    | RU_MIN => Some (m_tstamp r, m_min r)
    | RU_SUM => Some (m_tstamp r, m_sum r)
    | RU_NONE => None
    end.

(** The bucket starts [t], [t + i], ..., [t + (n-1) * i]. *)
Definition bucket_starts (t i : Timestamp) (n : nat) : list Timestamp :=
  map (fun k => t + Z.of_nat k * i) (seq 0 n).

(** Instances for the scenarios: timestamps given in seconds, an all-ones
    sentinel, and two files of 100 seconds with a rollup interval of 10. *)
Definition seconds (t : Timestamp) : Timestamp := t.
Definition all_ones : Timestamp := 2 ^ 64 - 1.
Definition fileA : Tsdb := mkTsdb 1 10 0 100.
Definition fileB : Tsdb := mkTsdb 2 10 100 200.

Section WithConstants.

(** [TT_INVALID_TIMESTAMP] and [to_sec] are declared outside of
    rollup.cpp. *)
Variable TT_INVALID_TIMESTAMP : Timestamp.
Variable to_sec : Timestamp -> Timestamp.

(** [RollupManager::RollupManager()] *)
Definition RollupManager_new : RollupManager :=
  mkRollupManager 0 0%float 0%float 0%float None TT_INVALID_TIMESTAMP.

(** [RollupManager::flush].  The result is [None] when [m_tsdb] is a null
    pointer at the call of [add_rollup_point]. *)
Definition flush (mid tid : Z) (r : RollupManager)
  : option (RollupManager * list rollup_point) :=
  if m_tstamp r =? TT_INVALID_TIMESTAMP then Some (r, [])
  else
    match m_tsdb r with
    | None => None
    | Some db =>
        Some (reset r,
              [mkRollupPoint db mid tid (m_tstamp r)
                 (m_cnt r) (m_min r) (m_max r) (m_sum r)])
    end.

(** The two [for] loops of [add_data_point] have the shape
    [for (...; cond; m_tstamp += interval) flush(mid, tid);]
    and are entered after their initialisation statement.  The loop need
    not terminate on all inputs (an interval of 0, or wrap-around of
    [m_tstamp]); [None] is returned when [fuel] iterations were not
    enough. *)
Fixpoint flush_while (fuel : nat) (cond : RollupManager -> bool)
    (interval : Timestamp) (mid tid : Z) (r : RollupManager)
  : option (RollupManager * list rollup_point) :=
  if cond r then
    match fuel with
    | O => None
    | S fuel' =>
        match flush mid tid r with
        | None => None
        | Some (r1, out1) =>
            match flush_while fuel' cond interval mid tid
                    (set_tstamp r1 (wrap64 (m_tstamp r1 + interval))) with
            | None => None
            | Some (r2, out2) => Some (r2, out1 ++ out2)
            end
        end
    end
  else Some (r, []).

(** Lines 62-79: what happens when the point's bucket differs from
    [m_tstamp].  [cur] is the object [m_tsdb] points to on entry. *)
Definition change_bucket (fuel : nat) (cur tsdb : Tsdb) (mid tid : Z)
    (interval tstamp : Timestamp) (r : RollupManager)
  : option (RollupManager * list rollup_point) :=
  match flush mid tid r with
  | None => None
  | Some (r1, out1) =>
      let end_ := get_to_sec cur in
      match flush_while fuel
              (fun s => (m_tstamp s <? end_) && (m_tstamp s <? tstamp))
              interval mid tid
              (set_tstamp r1 (wrap64 (m_tstamp r1 + interval))) with
      | None => None
      | Some (r2, out2) =>
          if end_ <=? m_tstamp r2 then
            let r3 := set_tsdb r2 (Some tsdb) in
            let interval' := get_rollup_interval tsdb in
            match flush_while fuel (fun s => m_tstamp s <? tstamp)
                    interval' mid tid (set_tstamp r3 (get_from_sec tsdb)) with
            | None => None
            | Some (r4, out3) => Some (r4, out1 ++ out2 ++ out3)
            end
          else Some (r2, out1 ++ out2)
      end
  end.

(** [RollupManager::add_data_point].  [tsdb] is never null
    ([ASSERT(tsdb != nullptr)]); [ASSERT(interval > 0)] guards the
    remainder [tstamp % interval], so an interval of 0 gives [None]. *)
Definition add_data_point (fuel : nat) (tsdb : Tsdb) (mid tid : Z)
    (dp : DataPoint) (r : RollupManager)
  : option (RollupManager * list rollup_point) :=
  let r := match m_tsdb r with None => set_tsdb r (Some tsdb) | Some _ => r end in
  match m_tsdb r with
  | None => None
  | Some cur =>
      let tstamp := to_sec (get_timestamp dp) in
      let interval := get_rollup_interval cur in
      let value := get_value dp in
      if interval <=? 0 then None
      else
        let tstamp := tstamp - tstamp mod interval in
        let r := if m_tstamp r =? TT_INVALID_TIMESTAMP
                 then set_tstamp r tstamp else r in
        let res :=
          if negb (tstamp =? m_tstamp r)
          then change_bucket fuel cur tsdb mid tid interval tstamp r
          else Some (r, []) in
        match res with
        | None => None
        | Some (r', out) => Some (accumulate value r', out)
        end
  end.

(** [RollupManager::step_down], with [m_tsdb] bound to [db]. *)
Definition step_down (db : Tsdb) (tstamp : Timestamp) : Timestamp :=
  let t := to_sec tstamp in t - t mod get_rollup_interval db.

(** ** Specification-side vocabulary *)

(** An aggregate with nothing in it, for the bucket starting at [t]. *)
Definition empty_point (db : Tsdb) (mid tid : Z) (t : Timestamp) : rollup_point :=
  mkRollupPoint db mid tid t 0 0%float 0%float 0%float.

(** [n] empty aggregates for the buckets [t], [t + i], ..., [t + (n-1) * i]. *)
Definition empty_run (db : Tsdb) (mid tid : Z) (t i : Timestamp) (n : nat)
  : list rollup_point :=
  map (fun k => empty_point db mid tid (t + Z.of_nat k * i)) (seq 0 n).

(** The number of values [t], [t + i], [t + 2 * i], ... below [lim]. *)
Definition gap_steps (t lim i : Timestamp) : nat :=
  Z.to_nat ((lim - t + i - 1) / i).

(** A manager whose accumulators are clear. *)
Definition cleared (db : Tsdb) (t : Timestamp) : RollupManager :=
  mkRollupManager 0 0%float 0%float 0%float (Some db) t.

(** The operations a client can invoke, and a run of several of them. *)
Inductive op : Type :=
| OpAdd (tsdb : Tsdb) (mid tid : Z) (dp : DataPoint)
| OpFlush (mid tid : Z).

Definition step (fuel : nat) (o : op) (r : RollupManager)
  : option (RollupManager * list rollup_point) :=
  match o with
  | OpAdd tsdb mid tid dp => add_data_point fuel tsdb mid tid dp r
  | OpFlush mid tid => flush mid tid r
  end.

Fixpoint run (fuel : nat) (ops : list op) (r : RollupManager)
  : option (RollupManager * list rollup_point) :=
  match ops with
  | [] => Some (r, [])
  | o :: ops' =>
      match step fuel o r with
      | None => None
      | Some (r1, out1) =>
          match run fuel ops' r1 with
          | None => None
          | Some (r2, out2) => Some (r2, out1 ++ out2)
          end
      end
  end.

(** Points of one file in the order the aggregator expects them: each
    lies in the file, at or after the bucket of its predecessor. *)
Fixpoint in_order (db : Tsdb) (t0 : Timestamp) (dps : list DataPoint) : Prop :=
  match dps with
  | [] => True
  | dp :: rest =>
      0 <= to_sec (get_timestamp dp) < 2 ^ 64 /\
      t0 <= step_down db (get_timestamp dp) < get_to_sec db /\
      in_order db (step_down db (get_timestamp dp)) rest
  end.

(** The invariant behind the minimum never exceeding zero. *)
Definition min_nonpositive (r : RollupManager) : Prop :=
  PrimFloat.leb (m_min r) 0%float = true.

Definition emitted_min_ok (out : list rollup_point) : Prop :=
  Forall (fun p => PrimFloat.leb (rp_min p) 0%float = true) out.

(** The bucket of the last of the points [dps], and [t0] when there is
    none. *)
Fixpoint last_bucket (db : Tsdb) (t0 : Timestamp) (dps : list DataPoint) : Timestamp :=
  match dps with
  | [] => t0
  | dp :: rest => last_bucket db (step_down db (get_timestamp dp)) rest
  end.

(** ** The gap-filling loop *)

Lemma gap_steps_zero t lim i : 0 < i -> lim <= t -> gap_steps t lim i = O.
Proof.
  intros Hi Hle. unfold gap_steps.
  assert ((lim - t + i - 1) / i <= 0); [|lia].
  apply Z.lt_succ_r. apply Z.div_lt_upper_bound; lia.
Qed.

Lemma gap_steps_succ t lim i :
  0 < i -> t < lim -> gap_steps t lim i = S (gap_steps (t + i) lim i).
Proof.
  intros Hi Hlt. unfold gap_steps.
  replace (lim - t + i - 1) with ((lim - (t + i) + i - 1) + 1 * i) by lia.
  rewrite Z.div_add by lia.
  assert (0 <= (lim - (t + i) + i - 1) / i) by (apply Z.div_pos; lia).
  lia.
Qed.

Lemma gap_steps_reach t lim i :
  0 < i -> lim <= t + Z.of_nat (gap_steps t lim i) * i.
Proof.
  intros Hi. unfold gap_steps.
  destruct (Z_lt_le_dec ((lim - t + i - 1) / i) 0) as [Hneg|Hpos].
  - assert (lim - t + i - 1 < 0); [|lia].
    destruct (Z_lt_le_dec (lim - t + i - 1) 0); [done|].
    assert (0 <= (lim - t + i - 1) / i) by (apply Z.div_pos; lia). lia.
  - rewrite Z2Nat.id by done.
    pose proof (Z.mod_pos_bound (lim - t + i - 1) i Hi).
    pose proof (Z.div_mod (lim - t + i - 1) i). lia.
Qed.

Lemma gap_steps_aligned t b i :
  0 < i -> t <= b -> (b - t) mod i = 0 ->
  gap_steps t b i = Z.to_nat ((b - t) / i) /\
  t + Z.of_nat (gap_steps t b i) * i = b.
Proof.
  intros Hi Hle Hmod. unfold gap_steps.
  pose proof (Z.div_mod (b - t) i) as Hdm.
  assert (0 <= (b - t) / i) by (apply Z.div_pos; lia).
  assert ((b - t + i - 1) / i = (b - t) / i) as ->.
  { symmetry. apply Z.div_unique with (r := i - 1); lia. }
  split; [done|]. rewrite Z2Nat.id by done. lia.
Qed.

Lemma empty_run_succ db mid tid t i n :
  empty_run db mid tid t i (S n) =
  empty_point db mid tid t :: empty_run db mid tid (t + i) i n.
Proof.
  unfold empty_run. cbn [seq map]. f_equal.
  - f_equal. lia.
  - rewrite <- seq_shift, map_map. apply map_ext. intros k. f_equal. lia.
Qed.

Lemma empty_run_tstamps db mid tid t i n p :
  0 < i -> p ∈ empty_run db mid tid t i n ->
  rp_tsdb p = db /\ rp_cnt p = 0 /\
  exists k, (k < n)%nat /\ rp_tstamp p = t + Z.of_nat k * i.
Proof.
  intros Hi Hin. unfold empty_run in Hin.
  apply list_elem_of_In, in_map_iff in Hin as (k & <- & Hk).
  apply in_seq in Hk. cbn.
  split; [done|]. split; [done|]. exists k. split; lia.
Qed.

Lemma flush_emits mid tid cnt mn mx sm db t :
  t <> TT_INVALID_TIMESTAMP ->
  flush mid tid (mkRollupManager cnt mn mx sm (Some db) t) =
  Some (cleared db t, [mkRollupPoint db mid tid t cnt mn mx sm]).
Proof.
  intros Hne. unfold flush. cbn [m_tstamp m_tsdb m_cnt m_min m_max m_sum].
  destruct (Z.eqb_spec t TT_INVALID_TIMESTAMP); [done|]. reflexivity.
Qed.

Lemma flush_cleared mid tid db t :
  t <> TT_INVALID_TIMESTAMP ->
  flush mid tid (cleared db t) = Some (cleared db t, [empty_point db mid tid t]).
Proof.
  intros Hne. unfold flush. cbn.
  destruct (Z.eqb_spec t TT_INVALID_TIMESTAMP); [done|]. reflexivity.
Qed.

(** Starting from cleared accumulators at [t], a loop whose condition is
    [m_tstamp < lim] flushes one empty aggregate per visited value and
    stops at the first value that is not below [lim]. *)
Lemma flush_while_cleared n :
  forall fuel cond i mid tid db t lim,
  (forall s, cond s = (m_tstamp s <? lim)) ->
  0 < i -> 0 <= t ->
  gap_steps t lim i = n ->
  t + Z.of_nat n * i < 2 ^ 64 ->
  ~ (t <= TT_INVALID_TIMESTAMP < lim) ->
  (n <= fuel)%nat ->
  flush_while fuel cond i mid tid (cleared db t) =
  Some (cleared db (t + Z.of_nat n * i), empty_run db mid tid t i n).
Proof.
  induction n as [|n IH]; intros fuel cond i mid tid db t lim Hc Hi Ht Hn Hw Hinv Hf.
  - assert (lim <= t) as Hle.
    { destruct (Z_lt_le_dec t lim) as [Hlt|]; [|done].
      rewrite (gap_steps_succ _ _ _ Hi Hlt) in Hn. discriminate. }
    destruct fuel; cbn [flush_while]; rewrite Hc; cbn [m_tstamp cleared];
      destruct (Z.ltb_spec t lim); try lia;
      (replace (t + Z.of_nat 0 * i) with t by lia); reflexivity.
  - assert (t < lim) as Hlt.
    { destruct (Z_lt_le_dec t lim) as [|Hle]; [done|].
      rewrite (gap_steps_zero _ _ _ Hi Hle) in Hn. discriminate. }
    destruct fuel as [|fuel]; [lia|].
    cbn [flush_while]. rewrite Hc. cbn [m_tstamp cleared].
    destruct (Z.ltb_spec t lim); [|lia].
    rewrite flush_cleared by lia.
    change (set_tstamp (cleared db t) ?x) with (cleared db x).
    cbn [m_tstamp cleared].
    rewrite (gap_steps_succ _ _ _ Hi Hlt) in Hn. injection Hn as Hn.
    assert (wrap64 (t + i) = t + i) as ->.
    { unfold wrap64. apply Z.mod_small. nia. }
    rewrite (IH fuel cond i mid tid db (t + i) lim) by (try done; try lia).
    rewrite empty_run_succ. cbn [app]. do 3 f_equal. lia.
Qed.

(** ** [add_data_point], case by case *)

Lemma both_below (a e t : Z) : (a <? e) && (a <? t) = (a <? Z.min e t).
Proof.
  destruct (Z.ltb_spec a e), (Z.ltb_spec a t), (Z.ltb_spec a (Z.min e t));
    cbn; try reflexivity; lia.
Qed.

(** The first point ever: bind the file, open the point's bucket. *)
Lemma add_data_point_first fuel db mid tid dp :
  0 < get_rollup_interval db ->
  add_data_point fuel db mid tid dp RollupManager_new =
  Some (accumulate (get_value dp) (cleared db (step_down db (get_timestamp dp))), []).
Proof.
  intros Hi. unfold add_data_point, RollupManager_new, step_down. cbn.
  destruct (Z.leb_spec (get_rollup_interval db) 0); [lia|].
  rewrite Z.eqb_refl. cbn. rewrite Z.eqb_refl. reflexivity.
Qed.

(** A point of the current bucket is accumulated and nothing is flushed. *)
Lemma add_data_point_same_bucket fuel cur tsdb mid tid dp cnt mn mx sm :
  0 < get_rollup_interval cur ->
  let b := step_down cur (get_timestamp dp) in
  add_data_point fuel tsdb mid tid dp (mkRollupManager cnt mn mx sm (Some cur) b) =
  Some (accumulate (get_value dp) (mkRollupManager cnt mn mx sm (Some cur) b), []).
Proof.
  intros Hi b. unfold add_data_point. cbn.
  destruct (Z.leb_spec (get_rollup_interval cur) 0); [lia|].
  fold (step_down cur (get_timestamp dp)). fold b.
  destruct (Z.eqb_spec b TT_INVALID_TIMESTAMP); cbn; rewrite Z.eqb_refl; reflexivity.
Qed.

(** Entering [add_data_point] with a bucket different from the current
    one leads to [change_bucket]. *)
Lemma add_data_point_other_bucket fuel cur tsdb mid tid dp cnt mn mx sm t0 :
  0 < get_rollup_interval cur ->
  t0 <> TT_INVALID_TIMESTAMP ->
  let b := step_down cur (get_timestamp dp) in
  t0 <> b ->
  add_data_point fuel tsdb mid tid dp (mkRollupManager cnt mn mx sm (Some cur) t0) =
  match change_bucket fuel cur tsdb mid tid (get_rollup_interval cur) b
          (mkRollupManager cnt mn mx sm (Some cur) t0) with
  | None => None
  | Some (r', out) => Some (accumulate (get_value dp) r', out)
  end.
Proof.
  intros Hi Hinv b Hne. unfold add_data_point. cbn.
  destruct (Z.leb_spec (get_rollup_interval cur) 0); [lia|].
  fold (step_down cur (get_timestamp dp)). fold b.
  destruct (Z.eqb_spec t0 TT_INVALID_TIMESTAMP); [done|]. cbn.
  destruct (Z.eqb_spec b t0); [congruence|]. reflexivity.
Qed.

Section ChangeBucket.

Variables (fuel : nat) (cur tsdb : Tsdb) (mid tid : Z).
Variables (interval b t0 : Timestamp) (cnt : Z) (mn mx sm : float).

Let lim1 := Z.min (get_to_sec cur) b.
Let n1 := gap_steps (t0 + interval) lim1 interval.
Let t1 := t0 + interval + Z.of_nat n1 * interval.
Let n2 := gap_steps (get_from_sec tsdb) b (get_rollup_interval tsdb).
Let first := mkRollupPoint cur mid tid t0 cnt mn mx sm.

Hypothesis Hinterval : 0 < interval.
Hypothesis Ht0 : 0 <= t0.
Hypothesis Ht0_valid : t0 <> TT_INVALID_TIMESTAMP.
Hypothesis Ht1 : t1 < 2 ^ 64.
Hypothesis Hinv1 : ~ (t0 + interval <= TT_INVALID_TIMESTAMP < lim1).
Hypothesis Hfuel1 : (n1 <= fuel)%nat.

Lemma change_bucket_first_loop :
  flush mid tid (mkRollupManager cnt mn mx sm (Some cur) t0) =
    Some (cleared cur t0, [first]) /\
  flush_while fuel
    (fun s => (m_tstamp s <? get_to_sec cur) && (m_tstamp s <? b))
    interval mid tid (cleared cur (t0 + interval)) =
    Some (cleared cur t1, empty_run cur mid tid (t0 + interval) interval n1).
Proof.
  split.
  - unfold flush. cbn. destruct (Z.eqb_spec t0 TT_INVALID_TIMESTAMP); done.
  - apply flush_while_cleared with (lim := lim1);
      [intros s; apply both_below | lia | lia | reflexivity | exact Ht1 | exact Hinv1 | exact Hfuel1].
Qed.

(** The loop stopped before the end of the current file: no rebinding. *)
Lemma change_bucket_stay :
  t1 < get_to_sec cur ->
  change_bucket fuel cur tsdb mid tid interval b
    (mkRollupManager cnt mn mx sm (Some cur) t0) =
  Some (cleared cur t1,
        first :: empty_run cur mid tid (t0 + interval) interval n1).
Proof.
  intros Hlt. destruct change_bucket_first_loop as [Hf Hl].
  unfold change_bucket. rewrite Hf.
  change (set_tstamp (cleared cur t0) ?x) with (cleared cur x). cbn [m_tstamp cleared].
  assert (wrap64 (t0 + interval) = t0 + interval) as ->.
  { unfold wrap64. apply Z.mod_small. subst t1. nia. }
  rewrite Hl. cbn [m_tstamp cleared].
  destruct (Z.leb_spec (get_to_sec cur) t1); [lia|]. reflexivity.
Qed.

(** The loop reached the end of the current file: rebind to [tsdb] and
    fill from its start up to, and excluding, the new bucket. *)
Lemma change_bucket_cross :
  get_to_sec cur <= t1 ->
  0 < get_rollup_interval tsdb ->
  0 <= get_from_sec tsdb ->
  get_from_sec tsdb + Z.of_nat n2 * get_rollup_interval tsdb < 2 ^ 64 ->
  ~ (get_from_sec tsdb <= TT_INVALID_TIMESTAMP < b) ->
  (n2 <= fuel)%nat ->
  change_bucket fuel cur tsdb mid tid interval b
    (mkRollupManager cnt mn mx sm (Some cur) t0) =
  Some (cleared tsdb (get_from_sec tsdb + Z.of_nat n2 * get_rollup_interval tsdb),
        first :: empty_run cur mid tid (t0 + interval) interval n1
              ++ empty_run tsdb mid tid (get_from_sec tsdb) (get_rollup_interval tsdb) n2).
Proof.
  intros Hge Hi2 Hfrom Hw2 Hinv2 Hfuel2.
  destruct change_bucket_first_loop as [Hf Hl].
  unfold change_bucket. rewrite Hf.
  change (set_tstamp (cleared cur t0) ?x) with (cleared cur x). cbn [m_tstamp cleared].
  assert (wrap64 (t0 + interval) = t0 + interval) as ->.
  { unfold wrap64. apply Z.mod_small. subst t1. nia. }
  rewrite Hl. cbn [m_tstamp cleared].
  destruct (Z.leb_spec (get_to_sec cur) t1); [|lia].
  change (set_tstamp (set_tsdb (cleared cur t1) (Some tsdb)) ?x) with (cleared tsdb x).
  rewrite (flush_while_cleared n2 fuel _ (get_rollup_interval tsdb) mid tid tsdb
             (get_from_sec tsdb) b); try done.
Qed.

End ChangeBucket.

Lemma gap_steps_below t lim i k :
  0 < i -> (k < gap_steps t lim i)%nat -> t + Z.of_nat k * i < lim.
Proof.
  intros Hi Hk. unfold gap_steps in Hk.
  assert (Z.of_nat k < (lim - t + i - 1) / i) as Hq by lia.
  pose proof (Z.mul_div_le (lim - t + i - 1) i Hi). nia.
Qed.

(** A point of a later bucket of the same file: the current bucket is
    flushed, then one empty aggregate per bucket in between. *)
Lemma add_data_point_gap_fill fuel db mid tid dp cnt mn mx sm t0 :
  let i := get_rollup_interval db in
  let b := step_down db (get_timestamp dp) in
  0 < i -> 0 <= t0 -> t0 mod i = 0 -> t0 < b ->
  b < get_to_sec db ->
  0 <= to_sec (get_timestamp dp) < 2 ^ 64 ->
  ~ (t0 <= TT_INVALID_TIMESTAMP < b) ->
  (Z.to_nat ((b - t0) / i - 1) <= fuel)%nat ->
  add_data_point fuel db mid tid dp (mkRollupManager cnt mn mx sm (Some db) t0) =
  Some (accumulate (get_value dp) (cleared db b),
        mkRollupPoint db mid tid t0 cnt mn mx sm
        :: empty_run db mid tid (t0 + i) i (Z.to_nat ((b - t0) / i - 1))).
Proof.
  intros i b Hi Ht0 Hal Hlt Hend Hts Hinv Hfuel.
  assert (b mod i = 0 /\ 0 <= b <= to_sec (get_timestamp dp)) as [Hb Hbr].
  { subst b. unfold step_down. fold i.
    pose proof (Z.mod_pos_bound (to_sec (get_timestamp dp)) i Hi).
    pose proof (Z.mod_le (to_sec (get_timestamp dp)) i (proj1 Hts) Hi).
    split; [|lia].
    rewrite Zminus_mod, Zmod_mod, Z.sub_diag. apply Zmod_0_l. }
  assert ((b - t0) mod i = 0) as Hd.
  { rewrite Zminus_mod, Hb, Hal. apply Zmod_0_l. }
  assert (t0 + i <= b) as Hstep.
  { pose proof (Z.div_mod (b - t0) i).
    assert (0 < (b - t0) / i); [|nia].
    destruct (Z_lt_le_dec 0 ((b - t0) / i)); [done|].
    assert (0 <= (b - t0) / i) by (apply Z.div_pos; lia). nia. }
  assert ((b - (t0 + i)) mod i = 0) as Hd'.
  { replace (b - (t0 + i)) with (b - t0 + (-1) * i) by lia.
    rewrite Z.mod_add by lia. done. }
  destruct (gap_steps_aligned (t0 + i) b i Hi Hstep Hd') as [Hn Ht1].
  assert ((b - (t0 + i)) / i = (b - t0) / i - 1) as Hq.
  { replace (b - (t0 + i)) with (b - t0 + (-1) * i) by lia.
    rewrite Z.div_add by lia. lia. }
  rewrite Hq in Hn.
  rewrite add_data_point_other_bucket by (fold i; fold b; lia).
  fold i. fold b.
  pose proof (change_bucket_stay fuel db db mid tid i b t0 cnt mn mx sm) as Hcb.
  cbv zeta in Hcb. rewrite Z.min_r, Ht1, Hn in Hcb by lia.
  rewrite Hcb by lia. reflexivity.
Qed.

(** A point whose bucket lies at or beyond the end of the current file. *)
Lemma add_data_point_cross_file fuel cur tsdb mid tid dp cnt mn mx sm t0 :
  let i := get_rollup_interval cur in
  let b := step_down cur (get_timestamp dp) in
  let n1 := gap_steps (t0 + i) (Z.min (get_to_sec cur) b) i in
  let t1 := t0 + i + Z.of_nat n1 * i in
  let i' := get_rollup_interval tsdb in
  let n2 := gap_steps (get_from_sec tsdb) b i' in
  0 < i -> 0 <= t0 -> t0 <> TT_INVALID_TIMESTAMP -> t0 <> b ->
  get_to_sec cur <= t1 ->
  t1 < 2 ^ 64 ->
  0 < i' -> 0 <= get_from_sec tsdb ->
  get_from_sec tsdb + Z.of_nat n2 * i' < 2 ^ 64 ->
  ~ (t0 + i <= TT_INVALID_TIMESTAMP < Z.min (get_to_sec cur) b) ->
  ~ (get_from_sec tsdb <= TT_INVALID_TIMESTAMP < b) ->
  (n1 <= fuel)%nat -> (n2 <= fuel)%nat ->
  add_data_point fuel tsdb mid tid dp (mkRollupManager cnt mn mx sm (Some cur) t0) =
  Some (accumulate (get_value dp) (cleared tsdb (get_from_sec tsdb + Z.of_nat n2 * i')),
        mkRollupPoint cur mid tid t0 cnt mn mx sm
        :: empty_run cur mid tid (t0 + i) i n1
        ++ empty_run tsdb mid tid (get_from_sec tsdb) i' n2).
Proof.
  intros i b n1 t1 i' n2 Hi Ht0 Hv Hne Hend Ht1 Hi' Hfrom Hw Hinv1 Hinv2 Hf1 Hf2.
  rewrite add_data_point_other_bucket by done.
  fold i. fold b.
  rewrite change_bucket_cross by done.
  reflexivity.
Qed.

Lemma step_down_aligned db ts :
  0 < get_rollup_interval db -> 0 <= to_sec ts ->
  step_down db ts mod get_rollup_interval db = 0 /\
  0 <= step_down db ts <= to_sec ts.
Proof.
  intros Hi Hts. unfold step_down.
  pose proof (Z.mod_pos_bound (to_sec ts) _ Hi).
  pose proof (Z.mod_le (to_sec ts) _ Hts Hi).
  split; [|lia].
  rewrite Zminus_mod, Zmod_mod, Z.sub_diag. apply Zmod_0_l.
Qed.

(** In-order points of one file: every call returns, given fuel for the
    longest possible gap. *)
Lemma run_in_order_returns db mid tid fuel dps :
  forall cnt mn mx sm t0,
  0 < get_rollup_interval db ->
  0 <= t0 -> t0 mod get_rollup_interval db = 0 ->
  in_order db t0 dps ->
  ~ (t0 <= TT_INVALID_TIMESTAMP < get_to_sec db) ->
  (Z.to_nat (get_to_sec db / get_rollup_interval db) <= fuel)%nat ->
  exists r out,
    run fuel (map (OpAdd db mid tid) dps) (mkRollupManager cnt mn mx sm (Some db) t0)
    = Some (r, out) /\
    m_tsdb r = Some db.
Proof.
  induction dps as [|dp rest IH]; intros cnt mn mx sm t0 Hi Ht0 Hal Hord Hinv Hfuel.
  - eexists _, _. split; reflexivity.
  - destruct Hord as (Hts & Hb & Hrest).
    destruct (step_down_aligned db (get_timestamp dp) Hi (proj1 Hts)) as [Hbal Hbr].
    cbn [map run step].
    destruct (Z.eq_dec (step_down db (get_timestamp dp)) t0) as [Heq|Hne].
    + rewrite <- Heq. rewrite add_data_point_same_bucket by done.
      destruct (IH (wrap32 (cnt + 1)) (std_min mn (get_value dp))
                  (std_max (std_min mn (get_value dp)) (get_value dp))
                  (PrimFloat.add sm (get_value dp))
                  (step_down db (get_timestamp dp))) as (r & out & Hrun & Hdb);
        [done | lia | done | done | lia | done |].
      unfold accumulate. cbn [m_cnt m_min m_max m_sum m_tsdb m_tstamp].
      rewrite Hrun. eexists _, _. split; [reflexivity|exact Hdb].
    + assert (Z.to_nat ((step_down db (get_timestamp dp) - t0)
                          / get_rollup_interval db - 1) <= fuel)%nat as Hf.
      { assert ((step_down db (get_timestamp dp) - t0) / get_rollup_interval db
                <= get_to_sec db / get_rollup_interval db)
          by (apply Z.div_le_mono; lia).
        lia. }
      rewrite add_data_point_gap_fill by (try done; lia).
      destruct (IH (wrap32 (0 + 1)) (std_min 0%float (get_value dp))
                  (std_max (std_min 0%float (get_value dp)) (get_value dp))
                  (PrimFloat.add 0%float (get_value dp))
                  (step_down db (get_timestamp dp))) as (r & out & Hrun & Hdb);
        [done | lia | done | done | lia | done |].
      unfold accumulate, cleared. cbn [m_cnt m_min m_max m_sum m_tsdb m_tstamp].
      rewrite Hrun. eexists _, _. split; [reflexivity|exact Hdb].
Qed.

Lemma run_app fuel ops1 :
  forall ops2 r r1 out1 r2 out2,
  run fuel ops1 r = Some (r1, out1) ->
  run fuel ops2 r1 = Some (r2, out2) ->
  run fuel (ops1 ++ ops2) r = Some (r2, out1 ++ out2).
Proof.
  induction ops1 as [|o ops1 IH]; intros ops2 r r1 out1 r2 out2 H1 H2; cbn in *.
  - injection H1 as <- <-. rewrite H2. reflexivity.
  - destruct (step fuel o r) as [[ra oa]|]; [|discriminate].
    destruct (run fuel ops1 ra) as [[rb ob]|] eqn:Hb; [|discriminate].
    injection H1 as <- <-.
    rewrite (IH ops2 ra rb ob r2 out2 Hb H2). rewrite app_assoc. reflexivity.
Qed.

Lemma flush_bound_returns mid tid r :
  (m_tsdb r = None -> m_tstamp r = TT_INVALID_TIMESTAMP) ->
  exists r' out, flush mid tid r = Some (r', out).
Proof.
  intros Hb. unfold flush.
  destruct (Z.eqb_spec (m_tstamp r) TT_INVALID_TIMESTAMP); [eauto|].
  destruct (m_tsdb r); [eauto|]. exfalso. auto.
Qed.

(** The same from a new manager, closed by a flush. *)
Lemma run_new_in_order_returns db mid tid fuel dps :
  0 < get_rollup_interval db ->
  in_order db 0 dps ->
  ~ (0 <= TT_INVALID_TIMESTAMP < get_to_sec db) ->
  (Z.to_nat (get_to_sec db / get_rollup_interval db) <= fuel)%nat ->
  exists r out,
    run fuel (map (OpAdd db mid tid) dps ++ [OpFlush mid tid]) RollupManager_new
    = Some (r, out).
Proof.
  intros Hi Hord Hinv Hfuel.
  assert (exists r1 out1,
            run fuel (map (OpAdd db mid tid) dps) RollupManager_new = Some (r1, out1) /\
            (m_tsdb r1 = None -> m_tstamp r1 = TT_INVALID_TIMESTAMP))
    as (r1 & out1 & Hrun & Hbound).
  { destruct dps as [|dp rest].
    - eexists _, _. split; reflexivity.
    - destruct Hord as (Hts & Hb & Hrest).
      destruct (step_down_aligned db (get_timestamp dp) Hi (proj1 Hts)) as [Hbal Hbr].
      cbn [map run step]. rewrite add_data_point_first by done.
      destruct (run_in_order_returns db mid tid fuel rest
                  (wrap32 (0 + 1)) (std_min 0%float (get_value dp))
                  (std_max (std_min 0%float (get_value dp)) (get_value dp))
                  (PrimFloat.add 0%float (get_value dp))
                  (step_down db (get_timestamp dp))) as (r & out & Hrun & Hdb);
        [done | lia | done | done | lia | done |].
      unfold accumulate, cleared. cbn [m_cnt m_min m_max m_sum m_tsdb m_tstamp].
      rewrite Hrun. eexists _, _. split; [reflexivity|].
      rewrite Hdb. discriminate. }
  destruct (flush_bound_returns mid tid r1 Hbound) as (r2 & out2 & Hflush).
  exists r2, (out1 ++ out2 ++ []).
  apply (run_app fuel _ _ _ _ _ _ _ Hrun). cbn [run step]. rewrite Hflush. reflexivity.
Qed.

(** ** The minimum accumulator *)

Lemma zero_le_zero : PrimFloat.leb 0%float 0%float = true.
Proof. reflexivity. Qed.

(** [std::min] against a non-positive accumulator stays non-positive,
    whatever the value is (NaN included: [NaN < m] is false). *)
Lemma std_min_nonpositive (m v : float) :
  PrimFloat.leb m 0%float = true -> PrimFloat.leb (std_min m v) 0%float = true.
Proof.
  unfold std_min. intros Hm.
  destruct (PrimFloat.ltb v m) eqn:Hlt; [|exact Hm].
  rewrite leb_spec in *. rewrite ltb_spec in Hlt.
  change (Prim2SF 0%float) with (S754_zero false) in *.
  destruct (Prim2SF m) as [sm|sm| |sm mm em], (Prim2SF v) as [sv|sv| |sv mv ev];
    try destruct sm; try destruct sv; cbn in *; congruence.
Qed.

(** A strictly positive value never replaces a minimum of zero. *)
Lemma std_min_zero_positive (v : float) :
  PrimFloat.ltb 0%float v = true -> std_min 0%float v = 0%float.
Proof.
  unfold std_min. intros Hv.
  destruct (PrimFloat.ltb v 0%float) eqn:Hlt; [|reflexivity].
  rewrite ltb_spec in *.
  change (Prim2SF 0%float) with (S754_zero false) in *.
  destruct (Prim2SF v) as [sv|sv| |sv mv ev]; try destruct sv; cbn in *; congruence.
Qed.

Lemma flush_min mid tid r r' out :
  min_nonpositive r -> flush mid tid r = Some (r', out) ->
  min_nonpositive r' /\ emitted_min_ok out.
Proof.
  unfold flush, min_nonpositive, emitted_min_ok. intros Hr Hf.
  destruct (m_tstamp r =? TT_INVALID_TIMESTAMP).
  - injection Hf as <- <-. split; [done|constructor].
  - destruct (m_tsdb r); [|discriminate].
    injection Hf as <- <-. split; [reflexivity|].
    constructor; [exact Hr|constructor].
Qed.

Lemma flush_while_min fuel :
  forall cond i mid tid r r' out,
  min_nonpositive r -> flush_while fuel cond i mid tid r = Some (r', out) ->
  min_nonpositive r' /\ emitted_min_ok out.
Proof.
  induction fuel as [|fuel IH]; intros cond i mid tid r r' out Hr Hl; cbn in Hl.
  - destruct (cond r); [discriminate|]. injection Hl as <- <-.
    split; [done|constructor].
  - destruct (cond r).
    + destruct (flush mid tid r) as [[r1 o1]|] eqn:Hf; [|discriminate].
      destruct (flush_min _ _ _ _ _ Hr Hf) as [Hr1 Ho1].
      destruct (flush_while fuel cond i mid tid _) as [[r2 o2]|] eqn:Hw; [|discriminate].
      injection Hl as <- <-.
      destruct (IH _ _ _ _ (set_tstamp r1 _) _ _ Hr1 Hw) as [Hr2 Ho2].
      split; [done|]. apply Forall_app; done.
    + injection Hl as <- <-. split; [done|constructor].
Qed.

Lemma change_bucket_min fuel cur tsdb mid tid i b r r' out :
  min_nonpositive r ->
  change_bucket fuel cur tsdb mid tid i b r = Some (r', out) ->
  min_nonpositive r' /\ emitted_min_ok out.
Proof.
  unfold change_bucket. intros Hr Hc.
  destruct (flush mid tid r) as [[r1 o1]|] eqn:Hf; [|discriminate].
  destruct (flush_min _ _ _ _ _ Hr Hf) as [Hr1 Ho1].
  destruct (flush_while fuel _ i mid tid _) as [[r2 o2]|] eqn:Hw; [|discriminate].
  destruct (flush_while_min _ _ _ _ _ (set_tstamp r1 _) _ _ Hr1 Hw) as [Hr2 Ho2].
  destruct (get_to_sec cur <=? m_tstamp r2).
  - destruct (flush_while fuel _ (get_rollup_interval tsdb) mid tid _)
      as [[r4 o3]|] eqn:Hw2; [|discriminate].
    injection Hc as <- <-.
    destruct (flush_while_min _ _ _ _ _ (set_tstamp (set_tsdb r2 _) _) _ _ Hr2 Hw2)
      as [Hr4 Ho3].
    split; [done|]. repeat (apply Forall_app; split); done.
  - injection Hc as <- <-. split; [done|]. apply Forall_app; done.
Qed.

Lemma add_data_point_min fuel tsdb mid tid dp r r' out :
  min_nonpositive r ->
  add_data_point fuel tsdb mid tid dp r = Some (r', out) ->
  min_nonpositive r' /\ emitted_min_ok out.
Proof.
  unfold add_data_point. intros Hr Ha.
  set (ra := match m_tsdb r with None => set_tsdb r (Some tsdb) | Some _ => r end) in Ha.
  assert (min_nonpositive ra) as Hra by (subst ra; destruct (m_tsdb r); exact Hr).
  destruct (m_tsdb ra) as [cur|]; [|discriminate].
  destruct (get_rollup_interval cur <=? 0); [discriminate|].
  set (b := to_sec (get_timestamp dp) - _) in Ha.
  set (rb := if m_tstamp ra =? TT_INVALID_TIMESTAMP then set_tstamp ra b else ra) in Ha.
  assert (min_nonpositive rb) as Hrb
    by (subst rb; destruct (m_tstamp ra =? TT_INVALID_TIMESTAMP); exact Hra).
  destruct (negb (b =? m_tstamp rb)).
  - destruct (change_bucket fuel cur tsdb mid tid _ b rb) as [[rc o]|] eqn:Hc;
      [|discriminate].
    injection Ha as <- <-.
    destruct (change_bucket_min _ _ _ _ _ _ _ _ _ _ Hrb Hc) as [Hrc Ho].
    split; [|done]. unfold min_nonpositive, accumulate. cbn.
    apply std_min_nonpositive. exact Hrc.
  - injection Ha as <- <-. split; [|constructor].
    unfold min_nonpositive, accumulate. cbn.
    apply std_min_nonpositive. exact Hrb.
Qed.

Lemma run_min fuel ops :
  forall r r' out,
  min_nonpositive r -> run fuel ops r = Some (r', out) ->
  min_nonpositive r' /\ emitted_min_ok out.
Proof.
  induction ops as [|o ops IH]; intros r r' out Hr Hrun; cbn in Hrun.
  - injection Hrun as <- <-. split; [done|constructor].
  - destruct (step fuel o r) as [[r1 o1]|] eqn:Hs; [|discriminate].
    destruct (run fuel ops r1) as [[r2 o2]|] eqn:Hr2; [|discriminate].
    injection Hrun as <- <-.
    assert (min_nonpositive r1 /\ emitted_min_ok o1) as [Hr1 Ho1].
    { destruct o; cbn in Hs.
      - eapply add_data_point_min; eassumption.
      - eapply flush_min; eassumption. }
    destruct (IH _ _ _ Hr1 Hr2) as [Hr2' Ho2].
    split; [done|]. apply Forall_app; done.
Qed.

(** Points of the current bucket with strictly positive values leave a
    minimum of zero untouched. *)
Lemma run_positive_bucket fuel db tsdb mid tid dps :
  forall cnt mx sm,
  0 < get_rollup_interval db ->
  Forall (fun dp => PrimFloat.ltb 0%float (get_value dp) = true) dps ->
  forall t,
  Forall (fun dp => step_down db (get_timestamp dp) = t) dps ->
  exists cnt' mx' sm',
    run fuel (map (OpAdd tsdb mid tid) dps)
      (mkRollupManager cnt 0%float mx sm (Some db) t) =
    Some (mkRollupManager cnt' 0%float mx' sm' (Some db) t, []).
Proof.
  induction dps as [|dp dps IH]; intros cnt mx sm Hi Hpos t Hb.
  - exists cnt, mx, sm. reflexivity.
  - inversion Hpos as [|? ? Hv Hpos']; subst.
    inversion Hb as [|? ? Hdp Hb']; subst.
    cbn [map run step].
    rewrite add_data_point_same_bucket by done.
    unfold accumulate. cbn [m_cnt m_min m_max m_sum m_tsdb m_tstamp].
    rewrite (std_min_zero_positive _ Hv).
    destruct (IH (wrap32 (cnt + 1)) (std_max 0%float (get_value dp))
                (PrimFloat.add sm (get_value dp)) Hi Hpos' _ Hb')
      as (cnt' & mx' & sm' & ->).
    exists cnt', mx', sm'. reflexivity.
Qed.

(** ** Statements about the accumulators and the emitted aggregates *)

(** C1 (the code departs from the claim).  The claim asks for
    [new max = max(old max, v)].  In the code the new maximum is computed
    from the freshly updated minimum and the value, and the old maximum is
    never read: whatever the old maximum was, the result is the same.  On
    a fresh manager with interval 10, adding (0, 5.0) and then (1, 3.0) to
    the same bucket leaves [m_max = 3.0], although max(5.0, 3.0) = 5.0;
    count, minimum and sum are as the claim says. *)
Theorem max_accumulator_ignores_old_max :
  (forall v cnt mn mx mx' sm db t,
     m_max (accumulate v (mkRollupManager cnt mn mx sm db t)) =
     m_max (accumulate v (mkRollupManager cnt mn mx' sm db t)) /\
     m_max (accumulate v (mkRollupManager cnt mn mx sm db t)) =
     std_max (std_min mn v) v)
  /\
  (forall fuel id from to mid tid,
     to_sec 0 = 0 -> to_sec 1 = 1 ->
     let db := mkTsdb id 10 from to in
     let r1 := mkRollupManager 1 0%float 5%float 5%float (Some db) 0 in
     let r2 := mkRollupManager 2 0%float 3%float 8%float (Some db) 0 in
     add_data_point fuel db mid tid (mkDataPoint 0 5%float) RollupManager_new
       = Some (r1, []) /\
     add_data_point fuel db mid tid (mkDataPoint 1 3%float) r1 = Some (r2, []) /\
     std_max (m_max r1) 3%float = 5%float /\
     m_max r2 <> std_max (m_max r1) 3%float).
Proof.
  split.
  - intros. split; reflexivity.
  - intros fuel id from to mid tid H0 H1 db r1 r2.
    assert (step_down db 0 = 0) as Hs0 by (unfold step_down; rewrite H0; reflexivity).
    assert (step_down db 1 = 0) as Hs1 by (unfold step_down; rewrite H1; reflexivity).
    repeat split.
    + rewrite add_data_point_first by (cbn; lia).
      cbn [get_timestamp get_value]. rewrite Hs0. reflexivity.
    + pose proof (add_data_point_same_bucket fuel db db mid tid
                    (mkDataPoint 1 3%float) 1 0%float 5%float 5%float) as Hsame.
      cbn [get_timestamp get_value] in Hsame. rewrite Hs1 in Hsame.
      subst r1. rewrite Hsame by (cbn; lia). reflexivity.
    + intros Heq. vm_compute in Heq. discriminate.
Qed.

(** C4.  Within one file, a point whose bucket [b] lies strictly after the
    current bucket [t0] makes [add_data_point] flush the accumulators of
    [t0] first, and then exactly one empty aggregate (0,0,0,0) for each of
    the buckets [t0 + i], [t0 + 2i], ..., [b - i]; the point itself is
    accumulated into the fresh bucket [b].  With interval 10 and the
    inputs (0, 1.0), (35, 2.0): aggregates for the buckets 0, 10 and 20
    are emitted, those of 10 and 20 are empty, and bucket 30 is held with
    [cnt = 1] and [sum = 2.0]. *)
Theorem gap_filling_within_one_file :
  (forall fuel db mid tid dp cnt mn mx sm t0,
     let i := get_rollup_interval db in
     let b := step_down db (get_timestamp dp) in
     0 < i -> 0 <= t0 -> t0 mod i = 0 -> t0 < b ->
     b < get_to_sec db ->
     0 <= to_sec (get_timestamp dp) < 2 ^ 64 ->
     ~ (t0 <= TT_INVALID_TIMESTAMP < b) ->
     (Z.to_nat ((b - t0) / i - 1) <= fuel)%nat ->
     add_data_point fuel db mid tid dp (mkRollupManager cnt mn mx sm (Some db) t0) =
     Some (accumulate (get_value dp) (cleared db b),
           mkRollupPoint db mid tid t0 cnt mn mx sm
           :: empty_run db mid tid (t0 + i) i (Z.to_nat ((b - t0) / i - 1))))
  /\
  (forall fuel id from to mid tid,
     to_sec 0 = 0 -> to_sec 35 = 35 -> 35 < to ->
     ~ (0 <= TT_INVALID_TIMESTAMP < 30) ->
     (2 <= fuel)%nat ->
     let db := mkTsdb id 10 from to in
     let r1 := mkRollupManager 1 0%float 1%float 1%float (Some db) 0 in
     let r2 := mkRollupManager 1 0%float 2%float 2%float (Some db) 30 in
     add_data_point fuel db mid tid (mkDataPoint 0 1%float) RollupManager_new
       = Some (r1, []) /\
     add_data_point fuel db mid tid (mkDataPoint 35 2%float) r1
       = Some (r2, [mkRollupPoint db mid tid 0 1 0%float 1%float 1%float;
                    empty_point db mid tid 10;
                    empty_point db mid tid 20])).
Proof.
  split.
  - intros. apply add_data_point_gap_fill; assumption.
  - intros fuel id from to mid tid H0 H35 Hto Hinv Hfuel db r1 r2.
    assert (step_down db 0 = 0) as Hs0 by (unfold step_down; rewrite H0; reflexivity).
    assert (step_down db 35 = 30) as Hs35 by (unfold step_down; rewrite H35; reflexivity).
    split.
    + rewrite add_data_point_first by (cbn; lia).
      cbn [get_timestamp get_value]. rewrite Hs0. reflexivity.
    + pose proof (add_data_point_gap_fill fuel db mid tid (mkDataPoint 35 2%float)
                    1 0%float 1%float 1%float 0) as Hgap.
      cbv zeta in Hgap. cbn [get_timestamp get_value] in Hgap.
      rewrite Hs35, H35 in Hgap.
      change (Z.to_nat ((30 - 0) / 10 - 1)) with 2%nat in Hgap.
      subst r1.
      rewrite Hgap;
        [reflexivity | cbn; lia | lia | reflexivity | lia | cbn; lia
        | split; [lia|reflexivity] | exact Hinv | exact Hfuel].
Qed.

(** C5.  When the first gap-filling loop leaves [m_tstamp] at or past the
    end of the current file, [add_data_point] rebinds the manager to the
    [tsdb] of the call and emits empty aggregates against it, from its
    start timestamp up to but excluding the bucket of the new point.  With
    the files [0,100) and [100,200), interval 10, and the points (5,1) for
    the first and (115,2) for the second: the buckets 0..90 are emitted
    against the first file (only bucket 0 holds a point) and the buckets
    100 and 110 against the second file (only 110 holds a point).  Bucket
    110, the bucket of the new point, is the one the manager holds, bound
    to the second file, when the injection returns; as every last bucket
    it is emitted by the flush that closes the run. *)
Theorem gap_filling_across_files :
  (forall fuel cur tsdb mid tid dp cnt mn mx sm t0,
     let i := get_rollup_interval cur in
     let b := step_down cur (get_timestamp dp) in
     let n1 := gap_steps (t0 + i) (Z.min (get_to_sec cur) b) i in
     let t1 := t0 + i + Z.of_nat n1 * i in
     let i' := get_rollup_interval tsdb in
     let n2 := gap_steps (get_from_sec tsdb) b i' in
     0 < i -> 0 <= t0 -> t0 <> TT_INVALID_TIMESTAMP -> t0 <> b ->
     get_to_sec cur <= t1 ->
     t1 < 2 ^ 64 ->
     0 < i' -> 0 <= get_from_sec tsdb ->
     get_from_sec tsdb + Z.of_nat n2 * i' < 2 ^ 64 ->
     ~ (t0 + i <= TT_INVALID_TIMESTAMP < Z.min (get_to_sec cur) b) ->
     ~ (get_from_sec tsdb <= TT_INVALID_TIMESTAMP < b) ->
     (n1 <= fuel)%nat -> (n2 <= fuel)%nat ->
     exists r',
       add_data_point fuel tsdb mid tid dp
         (mkRollupManager cnt mn mx sm (Some cur) t0) =
       Some (r',
             mkRollupPoint cur mid tid t0 cnt mn mx sm
             :: empty_run cur mid tid (t0 + i) i n1
             ++ empty_run tsdb mid tid (get_from_sec tsdb) i' n2) /\
       m_tsdb r' = Some tsdb /\
       b <= m_tstamp r' /\
       Forall (fun p => rp_tsdb p = tsdb /\ get_from_sec tsdb <= rp_tstamp p < b)
         (empty_run tsdb mid tid (get_from_sec tsdb) i' n2))
  /\
  (forall fuel ida idb mid tid,
     to_sec 5 = 5 -> to_sec 115 = 115 ->
     ~ (0 <= TT_INVALID_TIMESTAMP <= 110) ->
     (9 <= fuel)%nat ->
     let A := mkTsdb ida 10 0 100 in
     let B := mkTsdb idb 10 100 200 in
     let r1 := mkRollupManager 1 0%float 1%float 1%float (Some A) 0 in
     let r2 := mkRollupManager 1 0%float 2%float 2%float (Some B) 110 in
     add_data_point fuel A mid tid (mkDataPoint 5 1%float) RollupManager_new
       = Some (r1, []) /\
     add_data_point fuel B mid tid (mkDataPoint 115 2%float) r1
       = Some (r2, [mkRollupPoint A mid tid 0 1 0%float 1%float 1%float;
                    empty_point A mid tid 10; empty_point A mid tid 20;
                    empty_point A mid tid 30; empty_point A mid tid 40;
                    empty_point A mid tid 50; empty_point A mid tid 60;
                    empty_point A mid tid 70; empty_point A mid tid 80;
                    empty_point A mid tid 90;
                    empty_point B mid tid 100]) /\
     flush mid tid r2
       = Some (cleared B 110,
               [mkRollupPoint B mid tid 110 1 0%float 2%float 2%float]) /\
     run fuel [OpAdd A mid tid (mkDataPoint 5 1%float);
               OpAdd B mid tid (mkDataPoint 115 2%float);
               OpFlush mid tid] RollupManager_new
       = Some (cleared B 110,
               [mkRollupPoint A mid tid 0 1 0%float 1%float 1%float;
                empty_point A mid tid 10; empty_point A mid tid 20;
                empty_point A mid tid 30; empty_point A mid tid 40;
                empty_point A mid tid 50; empty_point A mid tid 60;
                empty_point A mid tid 70; empty_point A mid tid 80;
                empty_point A mid tid 90;
                empty_point B mid tid 100;
                mkRollupPoint B mid tid 110 1 0%float 2%float 2%float])).
Proof.
  split.
  - intros fuel cur tsdb mid tid dp cnt mn mx sm t0 i b n1 t1 i' n2
      Hi Ht0 Hv Hne Hend Ht1 Hi' Hfrom Hw Hinv1 Hinv2 Hf1 Hf2.
    eexists. split; [apply add_data_point_cross_file; assumption|].
    split; [reflexivity|]. split.
    + cbn. apply gap_steps_reach. exact Hi'.
    + apply Forall_forall. intros p Hp.
      destruct (empty_run_tstamps _ _ _ _ _ _ _ Hi' Hp) as (Hdb & _ & k & Hk & ->).
      split; [exact Hdb|]. split; [nia|].
      apply gap_steps_below; assumption.
  - intros fuel ida idb mid tid H5 H115 Hinv Hfuel A B r1 r2.
    assert (step_down A 5 = 0) as Hs5 by (unfold step_down; rewrite H5; reflexivity).
    assert (step_down A 115 = 110) as Hs115
      by (unfold step_down; rewrite H115; reflexivity).
    assert (add_data_point fuel A mid tid (mkDataPoint 5 1%float) RollupManager_new
            = Some (r1, [])) as Hfirst.
    { rewrite add_data_point_first by (cbn; lia).
      cbn [get_timestamp get_value]. rewrite Hs5. reflexivity. }
    assert (add_data_point fuel B mid tid (mkDataPoint 115 2%float) r1
            = Some (r2, [mkRollupPoint A mid tid 0 1 0%float 1%float 1%float;
                         empty_point A mid tid 10; empty_point A mid tid 20;
                         empty_point A mid tid 30; empty_point A mid tid 40;
                         empty_point A mid tid 50; empty_point A mid tid 60;
                         empty_point A mid tid 70; empty_point A mid tid 80;
                         empty_point A mid tid 90;
                         empty_point B mid tid 100])) as Hsecond.
    { pose proof (add_data_point_cross_file fuel A B mid tid (mkDataPoint 115 2%float)
                    1 0%float 1%float 1%float 0) as Hcross.
      cbv zeta in Hcross. cbn [get_timestamp get_value] in Hcross.
      rewrite Hs115 in Hcross.
      change (gap_steps (0 + get_rollup_interval A) (Z.min (get_to_sec A) 110)
                (get_rollup_interval A)) with 9%nat in Hcross.
      change (gap_steps (get_from_sec B) 110 (get_rollup_interval B)) with 1%nat in Hcross.
      subst r1.
      rewrite Hcross;
        [reflexivity | cbn; lia | lia | lia | lia | cbn; lia | reflexivity
        | cbn; lia | cbn; lia | reflexivity | cbn; lia | cbn; lia | exact Hfuel | lia]. }
    assert (flush mid tid r2
            = Some (cleared B 110,
                    [mkRollupPoint B mid tid 110 1 0%float 2%float 2%float])) as Hflush
      by (subst r2; apply flush_emits; lia).
    split; [exact Hfirst|]. split; [exact Hsecond|]. split; [exact Hflush|].
    cbn [run step]. rewrite Hfirst, Hsecond, Hflush. reflexivity.
Qed.

(** C9.  The minimum accumulator starts at 0 and is reset to 0 by every
    flush, and [std::min] can only lower it: every aggregate emitted, in
    any run of [add_data_point] and [flush] calls on a new manager, has
    [min <= 0]; for in-order points of one file such a run does return
    its aggregates.  In particular, for a bucket whose accumulated values
    are all strictly positive, the emitted minimum is 0, strictly below
    every accumulated value; e.g. the values 3.0 and 5.0 give the
    aggregate (cnt 2, min 0, max 5, sum 8).

    The reset is what makes this hold inside a run.  Whatever the
    accumulators hold, a flush emits them and leaves [m_min = 0] (fifth
    part).  When a bucket of strictly positive values follows a bucket
    with any minimum at all, the flush inside [add_data_point] emits the
    earlier bucket with its own minimum, and the later bucket is emitted
    with minimum 0 (sixth part); e.g. the value -4.0 in bucket 0 followed
    by 3.0 and 5.0 in bucket 10 gives (cnt 1, min -4, max -4, sum -4) and
    then (cnt 2, min 0, max 5, sum 8) (seventh part). *)
Theorem emitted_min_never_positive :
  (forall fuel ops r out,
     run fuel ops RollupManager_new = Some (r, out) ->
     Forall (fun p => PrimFloat.leb (rp_min p) 0%float = true) out)
  /\
  (forall fuel db mid tid dps,
     0 < get_rollup_interval db ->
     in_order db 0 dps ->
     ~ (0 <= TT_INVALID_TIMESTAMP < get_to_sec db) ->
     (Z.to_nat (get_to_sec db / get_rollup_interval db) <= fuel)%nat ->
     exists r out,
       run fuel (map (OpAdd db mid tid) dps ++ [OpFlush mid tid]) RollupManager_new
       = Some (r, out) /\
       Forall (fun p => PrimFloat.leb (rp_min p) 0%float = true) out)
  /\
  (forall fuel db tsdb mid tid dps cnt mx sm t,
     0 < get_rollup_interval db ->
     t <> TT_INVALID_TIMESTAMP ->
     Forall (fun dp => PrimFloat.ltb 0%float (get_value dp) = true) dps ->
     Forall (fun dp => step_down db (get_timestamp dp) = t) dps ->
     exists r1 p,
       run fuel (map (OpAdd tsdb mid tid) dps)
         (mkRollupManager cnt 0%float mx sm (Some db) t) = Some (r1, []) /\
       flush mid tid r1 = Some (reset r1, [p]) /\
       rp_tstamp p = t /\
       rp_min p = 0%float /\
       Forall (fun dp => PrimFloat.ltb (rp_min p) (get_value dp) = true) dps)
  /\
  (forall fuel id from to mid tid,
     to_sec 1 = 1 -> to_sec 2 = 2 ->
     0 <> TT_INVALID_TIMESTAMP ->
     let db := mkTsdb id 10 from to in
     exists r,
       run fuel [OpAdd db mid tid (mkDataPoint 1 3%float);
                 OpAdd db mid tid (mkDataPoint 2 5%float);
                 OpFlush mid tid] RollupManager_new =
       Some (r, [mkRollupPoint db mid tid 0 2 0%float 5%float 8%float]))
  /\
  (m_min RollupManager_new = 0%float /\
   forall mid tid cnt mn mx sm db t,
     t <> TT_INVALID_TIMESTAMP ->
     exists r p,
       flush mid tid (mkRollupManager cnt mn mx sm (Some db) t) = Some (r, [p]) /\
       rp_min p = mn /\
       m_min r = 0%float /\ m_tstamp r = t)
  /\
  (forall fuel db mid tid dp dps cnt mn mx sm t0,
     let i := get_rollup_interval db in
     let b := step_down db (get_timestamp dp) in
     0 < i -> 0 <= t0 -> t0 mod i = 0 -> t0 < b ->
     b < get_to_sec db ->
     0 <= to_sec (get_timestamp dp) < 2 ^ 64 ->
     ~ (t0 <= TT_INVALID_TIMESTAMP <= b) ->
     (Z.to_nat ((b - t0) / i - 1) <= fuel)%nat ->
     Forall (fun dp' => PrimFloat.ltb 0%float (get_value dp') = true) (dp :: dps) ->
     Forall (fun dp' => step_down db (get_timestamp dp') = b) dps ->
     exists r gap p,
       run fuel (map (OpAdd db mid tid) (dp :: dps) ++ [OpFlush mid tid])
         (mkRollupManager cnt mn mx sm (Some db) t0)
       = Some (r, mkRollupPoint db mid tid t0 cnt mn mx sm :: gap ++ [p]) /\
       Forall (fun q => rp_cnt q = 0 /\ rp_min q = 0%float) gap /\
       rp_tstamp p = b /\
       rp_min p = 0%float /\
       Forall (fun dp' => PrimFloat.ltb (rp_min p) (get_value dp') = true) (dp :: dps) /\
       m_min r = 0%float)
  /\
  (forall fuel id from to mid tid,
     to_sec 1 = 1 -> to_sec 11 = 11 -> to_sec 12 = 12 ->
     10 < to ->
     ~ (0 <= TT_INVALID_TIMESTAMP <= 10) ->
     let db := mkTsdb id 10 from to in
     run fuel [OpAdd db mid tid (mkDataPoint 1 (-4)%float);
               OpAdd db mid tid (mkDataPoint 11 3%float);
               OpAdd db mid tid (mkDataPoint 12 5%float);
               OpFlush mid tid] RollupManager_new =
     Some (cleared db 10,
           [mkRollupPoint db mid tid 0 1 (-4)%float (-4)%float (-4)%float;
            mkRollupPoint db mid tid 10 2 0%float 5%float 8%float])).
Proof.
  split; [|split; [|split; [|split; [|split; [|split]]]]].
  - intros fuel ops r out Hrun.
    apply (run_min fuel ops RollupManager_new r out); [reflexivity|exact Hrun].
  - intros fuel db mid tid dps Hi Hord Hinv Hfuel.
    destruct (run_new_in_order_returns db mid tid fuel dps Hi Hord Hinv Hfuel)
      as (r & out & Hrun).
    exists r, out. split; [exact Hrun|].
    apply (run_min fuel (map (OpAdd db mid tid) dps ++ [OpFlush mid tid])
             RollupManager_new r out); [reflexivity|exact Hrun].
  - intros fuel db tsdb mid tid dps cnt mx sm t Hi Hv Hpos Hb.
    destruct (run_positive_bucket fuel db tsdb mid tid dps cnt mx sm Hi Hpos t Hb)
      as (cnt' & mx' & sm' & Hrun).
    eexists _, _. split; [exact Hrun|].
    rewrite flush_emits by done.
    split; [reflexivity|]. split; [reflexivity|]. split; [reflexivity|].
    cbn. exact Hpos.
  - intros fuel id from to mid tid H1 H2 Hv db.
    assert (step_down db 1 = 0) as Hs1 by (unfold step_down; rewrite H1; reflexivity).
    assert (step_down db 2 = 0) as Hs2 by (unfold step_down; rewrite H2; reflexivity).
    eexists. cbn [run step].
    rewrite add_data_point_first by (cbn; lia).
    cbn [get_timestamp get_value]. rewrite Hs1.
    pose proof (add_data_point_same_bucket fuel db db mid tid
                  (mkDataPoint 2 5%float) 1 0%float 3%float 3%float) as Hsame.
    cbn [get_timestamp get_value] in Hsame. rewrite Hs2 in Hsame.
    change (accumulate 3 (cleared db 0))
      with (mkRollupManager 1 0%float 3%float 3%float (Some db) 0).
    rewrite Hsame by (cbn; lia).
    change (accumulate 5 _)
      with (mkRollupManager 2 0%float 5%float 8%float (Some db) 0).
    rewrite flush_emits by done. reflexivity.
  - split; [reflexivity|].
    intros mid tid cnt mn mx sm db t Hv. eexists _, _.
    rewrite flush_emits by done. repeat split.
  - intros fuel db mid tid dp dps cnt mn mx sm t0 i b
      Hi Ht0 Hal Hlt Hend Hts Hinv Hfuel Hpos Hb.
    inversion Hpos as [|? ? Hv Hpos']; subst.
    pose proof (add_data_point_gap_fill fuel db mid tid dp cnt mn mx sm t0) as Hgap.
    cbv zeta in Hgap. fold i in Hgap. fold b in Hgap.
    specialize (Hgap Hi Ht0 Hal Hlt Hend Hts).
    destruct (run_positive_bucket fuel db db mid tid dps (wrap32 (0 + 1))
                (std_max 0%float (get_value dp)) (PrimFloat.add 0%float (get_value dp))
                Hi Hpos' b Hb) as (cnt' & mx' & sm' & Hrun).
    assert (run fuel [OpFlush mid tid]
              (mkRollupManager cnt' 0%float mx' sm' (Some db) b)
            = Some (cleared db b,
                    [mkRollupPoint db mid tid b cnt' 0%float mx' sm'] ++ [])) as Hlast.
    { cbn [run step]. rewrite flush_emits by lia. reflexivity. }
    pose proof (run_app fuel _ _ _ _ _ _ _ Hrun Hlast) as Hall.
    cbn [app] in Hall.
    exists (cleared db b),
      (empty_run db mid tid (t0 + i) i (Z.to_nat ((b - t0) / i - 1))),
      (mkRollupPoint db mid tid b cnt' 0%float mx' sm').
    split.
    { cbn [map app run step]. rewrite Hgap by (try exact Hfuel; lia).
      unfold accumulate, cleared. cbn [m_cnt m_min m_max m_sum m_tsdb m_tstamp].
      rewrite (std_min_zero_positive _ Hv).
      unfold cleared in Hall. rewrite Hall. reflexivity. }
    split.
    { apply Forall_forall. intros q Hq.
      unfold empty_run in Hq.
      apply list_elem_of_In, in_map_iff in Hq as (k & <- & _). done. }
    split; [reflexivity|]. split; [reflexivity|].
    split; [exact Hpos|reflexivity].
  - intros fuel id from to mid tid H1 H11 H12 Hto Hinv db.
    assert (step_down db 1 = 0) as Hs1 by (unfold step_down; rewrite H1; reflexivity).
    assert (step_down db 11 = 10) as Hs11
      by (unfold step_down; rewrite H11; reflexivity).
    assert (step_down db 12 = 10) as Hs12
      by (unfold step_down; rewrite H12; reflexivity).
    cbn [run step].
    rewrite add_data_point_first by (cbn; lia).
    cbn [get_timestamp get_value]. rewrite Hs1.
    change (accumulate (-4) (cleared db 0))
      with (mkRollupManager 1 (-4)%float (-4)%float (-4)%float (Some db) 0).
    pose proof (add_data_point_gap_fill fuel db mid tid (mkDataPoint 11 3%float)
                  1 (-4)%float (-4)%float (-4)%float 0) as Hgap.
    cbv zeta in Hgap. cbn [get_timestamp get_value] in Hgap.
    rewrite Hs11, H11 in Hgap.
    change (Z.to_nat ((10 - 0) / 10 - 1)) with 0%nat in Hgap.
    rewrite Hgap;
      [| cbn; lia | lia | reflexivity | lia | cbn; lia
       | split; [lia|reflexivity] | lia | change (0 <= fuel)%nat; lia].
    change (empty_run db mid tid (0 + get_rollup_interval db) (get_rollup_interval db)
              (Z.to_nat ((10 - 0) / get_rollup_interval db - 1)))
      with (@nil rollup_point).
    change (accumulate 3 (cleared db 10))
      with (mkRollupManager 1 0%float 3%float 3%float (Some db) 10).
    pose proof (add_data_point_same_bucket fuel db db mid tid
                  (mkDataPoint 12 5%float) 1 0%float 3%float 3%float) as Hsame.
    cbn [get_timestamp get_value] in Hsame. rewrite Hs12 in Hsame.
    rewrite Hsame by (cbn; lia).
    change (accumulate 5 _)
      with (mkRollupManager 2 0%float 5%float 8%float (Some db) 10).
    rewrite flush_emits by lia. reflexivity.
Qed.

(** ** Further properties of the aggregator *)

(** X1.  A point whose bucket lies before the current bucket is not
    refused: the current bucket is flushed, [m_tstamp] moves on by one
    interval, no empty aggregate is emitted, and the point is accumulated
    into that later bucket. *)
Theorem out_of_order_point_opens_next_bucket
    fuel cur tsdb mid tid dp cnt mn mx sm t0 :
  let i := get_rollup_interval cur in
  let b := step_down cur (get_timestamp dp) in
  0 < i -> 0 <= t0 -> t0 <> TT_INVALID_TIMESTAMP ->
  b < t0 ->
  t0 + i < get_to_sec cur -> t0 + i < 2 ^ 64 ->
  add_data_point fuel tsdb mid tid dp (mkRollupManager cnt mn mx sm (Some cur) t0) =
  Some (accumulate (get_value dp) (cleared cur (t0 + i)),
        [mkRollupPoint cur mid tid t0 cnt mn mx sm]).
Proof.
  intros i b Hi Ht0 Hv Hlt Hend Hw.
  assert (gap_steps (t0 + i) (Z.min (get_to_sec cur) b) i = O) as Hn
    by (apply gap_steps_zero; lia).
  rewrite add_data_point_other_bucket by (fold i; fold b; lia).
  fold i. fold b.
  pose proof (change_bucket_stay fuel cur tsdb mid tid i b t0 cnt mn mx sm) as Hcb.
  cbv zeta in Hcb. rewrite Hn in Hcb.
  replace (t0 + i + Z.of_nat 0 * i) with (t0 + i) in Hcb by lia.
  rewrite Hcb by lia. reflexivity.
Qed.

(** X2.  [flush] keeps [m_tstamp]: on a manager that was never used it
    emits nothing and changes nothing, and on a used one it emits exactly
    one aggregate each time it is called, so a second flush in a row emits
    the empty aggregate for the bucket the first one has just emitted. *)
Theorem flush_twice_emits_an_empty_aggregate :
  (forall mid tid,
     flush mid tid RollupManager_new = Some (RollupManager_new, [])) /\
  (forall mid tid mid' tid' cnt mn mx sm db t,
     t <> TT_INVALID_TIMESTAMP ->
     run 0 [OpFlush mid tid; OpFlush mid' tid']
       (mkRollupManager cnt mn mx sm (Some db) t) =
     Some (cleared db t,
           [mkRollupPoint db mid tid t cnt mn mx sm; empty_point db mid' tid' t])).
Proof.
  split.
  - intros mid tid. unfold flush, RollupManager_new. cbn [m_tstamp].
    rewrite Z.eqb_refl. reflexivity.
  - intros mid tid mid' tid' cnt mn mx sm db t Hv.
    cbn [run step]. rewrite flush_emits by done.
    rewrite flush_cleared by done. reflexivity.
Qed.

Lemma wrap32_succ_add c n :
  wrap32 (wrap32 (c + 1) + Z.of_nat n) = wrap32 (c + Z.of_nat (S n)).
Proof.
  unfold wrap32. rewrite Zplus_mod_idemp_l. f_equal. lia.
Qed.

(** X3.  Points of the current bucket are counted and summed in the
    order of arrival: after [n] of them the counter has grown by [n]
    (modulo 2^32), the sum is the left-to-right floating-point sum,
    nothing was emitted, and [query] reports the two unless the counter
    is zero. *)
Theorem bucket_counts_and_sums_its_points fuel db tsdb mid tid dps :
  forall cnt mn mx sm t,
  0 < get_rollup_interval db ->
  Forall (fun dp => step_down db (get_timestamp dp) = t) dps ->
  exists r,
    run fuel (map (OpAdd tsdb mid tid) dps) (mkRollupManager cnt mn mx sm (Some db) t)
    = Some (r, []) /\
    m_cnt r = (if dps is [] then cnt else wrap32 (cnt + Z.of_nat (length dps))) /\
    m_sum r = fold_left (fun s dp => PrimFloat.add s (get_value dp)) dps sm /\
    m_tsdb r = Some db /\ m_tstamp r = t /\
    (m_cnt r <> 0 ->
     query RU_CNT r = Some (t, double_of_cnt (m_cnt r)) /\
     query RU_SUM r = Some (t, m_sum r)).
Proof.
  induction dps as [|dp rest IH]; intros cnt mn mx sm t Hi Hb.
  - eexists. split; [reflexivity|]. cbn [m_cnt m_sum m_tsdb m_tstamp fold_left].
    repeat split; unfold query; cbn [m_cnt m_sum m_tstamp];
      destruct (Z.eqb_spec cnt 0); done.
  - inversion Hb as [|? ? Hdp Hb']; subst.
    cbn [map run step]. rewrite add_data_point_same_bucket by done.
    unfold accumulate. cbn [m_cnt m_min m_max m_sum m_tsdb m_tstamp].
    destruct (IH (wrap32 (cnt + 1)) (std_min mn (get_value dp))
                (std_max (std_min mn (get_value dp)) (get_value dp))
                (PrimFloat.add sm (get_value dp))
                (step_down db (get_timestamp dp)) Hi Hb')
      as (r & Hrun & Hcnt & Hsum & Hdb & Ht & Hq).
    exists r. rewrite Hrun. split; [reflexivity|].
    split.
    { rewrite Hcnt. destruct rest as [|dp' rest'].
      - cbn [length]. reflexivity.
      - cbn [length]. apply wrap32_succ_add. }
    split; [exact Hsum|]. split; [exact Hdb|]. split; [exact Ht|]. exact Hq.
Qed.

Lemma bucket_starts_succ t i n :
  bucket_starts t i (S n) = t :: bucket_starts (t + i) i n.
Proof.
  unfold bucket_starts. cbn [seq map]. f_equal.
  - lia.
  - rewrite <- seq_shift, map_map. apply map_ext. intros k. lia.
Qed.

Lemma bucket_starts_app t i n1 :
  forall t' n2, t' = t + Z.of_nat n1 * i ->
  bucket_starts t i (n1 + n2) = bucket_starts t i n1 ++ bucket_starts t' i n2.
Proof.
  revert t. induction n1 as [|n1 IH]; intros t t' n2 ->.
  - cbn [Nat.add]. replace (t + Z.of_nat 0 * i) with t by lia. reflexivity.
  - cbn [Nat.add]. rewrite !bucket_starts_succ. cbn [app]. f_equal.
    apply IH. lia.
Qed.

Lemma empty_run_starts db mid tid t i n :
  map rp_tstamp (empty_run db mid tid t i n) = bucket_starts t i n.
Proof.
  unfold empty_run, bucket_starts. rewrite map_map. reflexivity.
Qed.

Lemma last_bucket_aligned db dps :
  forall t0,
  0 < get_rollup_interval db ->
  t0 mod get_rollup_interval db = 0 ->
  in_order db t0 dps ->
  t0 <= last_bucket db t0 dps /\
  last_bucket db t0 dps mod get_rollup_interval db = 0.
Proof.
  induction dps as [|dp rest IH]; intros t0 Hi Hal Hord; cbn [last_bucket].
  - split; [lia|done].
  - destruct Hord as (Hts & Hb & Hrest).
    destruct (step_down_aligned db (get_timestamp dp) Hi (proj1 Hts)) as [Hbal _].
    destruct (IH _ Hi Hbal Hrest) as [Hle Hl]. split; [lia|done].
Qed.

Lemma exact_quotient a b i :
  0 < i -> a mod i = 0 -> b mod i = 0 -> a <= b ->
  (b - a) mod i = 0 /\ 0 <= (b - a) / i /\ a + (b - a) / i * i = b.
Proof.
  intros Hi Ha Hb Hle.
  assert ((b - a) mod i = 0) as Hd
    by (rewrite Zminus_mod, Ha, Hb; apply Zmod_0_l).
  pose proof (Z.div_mod (b - a) i).
  assert (0 <= (b - a) / i) by (apply Z.div_pos; lia).
  repeat split; try done. lia.
Qed.

(** X4.  For in-order points of one file the aggregates emitted are one
    per interval, without gap or repetition: their buckets are the bucket
    the manager started in, then every following bucket start, up to but
    excluding the bucket of the last point, which is the one the manager
    holds afterwards; all of them go to that file. *)
Theorem in_order_run_emits_one_aggregate_per_interval db mid tid fuel dps :
  forall cnt mn mx sm t0,
  let i := get_rollup_interval db in
  0 < i -> 0 <= t0 -> t0 mod i = 0 ->
  in_order db t0 dps ->
  ~ (t0 <= TT_INVALID_TIMESTAMP < get_to_sec db) ->
  (Z.to_nat (get_to_sec db / i) <= fuel)%nat ->
  exists r out,
    run fuel (map (OpAdd db mid tid) dps) (mkRollupManager cnt mn mx sm (Some db) t0)
    = Some (r, out) /\
    m_tsdb r = Some db /\
    m_tstamp r = last_bucket db t0 dps /\
    map rp_tstamp out
    = bucket_starts t0 i (Z.to_nat ((last_bucket db t0 dps - t0) / i)) /\
    Forall (fun p => rp_tsdb p = db) out.
Proof.
  induction dps as [|dp rest IH]; intros cnt mn mx sm t0 i Hi Ht0 Hal Hord Hinv Hfuel.
  - eexists _, _. split; [reflexivity|]. cbn [last_bucket m_tsdb m_tstamp map].
    rewrite Z.sub_diag. repeat split. constructor.
  - destruct Hord as (Hts & Hb & Hrest).
    destruct (step_down_aligned db (get_timestamp dp) Hi (proj1 Hts)) as [Hbal Hbr].
    fold i in Hbal.
    destruct (last_bucket_aligned db rest _ Hi Hbal Hrest) as [Hlle Hlal]. fold i in Hlal.
    cbn [map run step last_bucket].
    set (b := step_down db (get_timestamp dp)) in *.
    set (l := last_bucket db b rest) in *.
    destruct (Z.eq_dec b t0) as [Heq|Hne].
    + rewrite <- Heq. subst b. rewrite add_data_point_same_bucket by done.
      destruct (IH (wrap32 (cnt + 1)) (std_min mn (get_value dp))
                  (std_max (std_min mn (get_value dp)) (get_value dp))
                  (PrimFloat.add sm (get_value dp))
                  (step_down db (get_timestamp dp)))
        as (r & out & Hrun & Hdb & Hl & Hout & Hall);
        [done | lia | done | done | lia | done |].
      unfold accumulate. cbn [m_cnt m_min m_max m_sum m_tsdb m_tstamp].
      rewrite Hrun. eexists _, _. split; [reflexivity|]. cbn [app].
      repeat split; done.
    + assert (Z.to_nat ((b - t0) / i - 1) <= fuel)%nat as Hf.
      { assert ((b - t0) / i <= get_to_sec db / i) by (apply Z.div_le_mono; lia).
        lia. }
      subst b. rewrite add_data_point_gap_fill by (try done; lia).
      set (b := step_down db (get_timestamp dp)) in *. fold i.
      destruct (IH (wrap32 (0 + 1)) (std_min 0%float (get_value dp))
                  (std_max (std_min 0%float (get_value dp)) (get_value dp))
                  (PrimFloat.add 0%float (get_value dp)) b)
        as (r & out & Hrun & Hdb & Hl & Hout & Hall);
        [done | lia | done | done | lia | done |].
      unfold accumulate, cleared. cbn [m_cnt m_min m_max m_sum m_tsdb m_tstamp].
      rewrite Hrun. eexists _, _. split; [reflexivity|].
      split; [exact Hdb|]. split; [exact Hl|].
      destruct (exact_quotient t0 b i Hi Hal Hbal) as (Hd1 & Hq1 & He1); [lia|].
      destruct (exact_quotient b l i Hi Hbal Hlal Hlle) as (Hd2 & Hq2 & He2).
      destruct (exact_quotient t0 l i Hi Hal Hlal) as (Hd3 & Hq3 & He3); [lia|].
      assert (1 <= (b - t0) / i) as Hpos by nia.
      split.
      * cbn [map app rp_tstamp]. rewrite map_app, empty_run_starts. fold l in Hout.
        rewrite Hout.
        replace (Z.to_nat ((l - t0) / i))
          with (S (Z.to_nat ((b - t0) / i - 1)) + Z.to_nat ((l - b) / i))%nat by nia.
        rewrite (bucket_starts_app t0 i _ b) by nia.
        rewrite bucket_starts_succ. reflexivity.
      * constructor; [reflexivity|]. apply Forall_app. split; [|exact Hall].
        apply Forall_forall. intros p Hp.
        apply (empty_run_tstamps _ _ _ _ _ _ _ Hi Hp).
Qed.

Lemma SFcompare_not_lt_twice x y :
  x <> S754_nan -> y <> S754_nan ->
  SFltb x y = false -> SFltb y x = false -> SFeqb x y = true.
Proof.
  unfold SFltb, SFeqb. intros Hx Hy.
  destruct x as [sx|sx| |sx mx ex], y as [sy|sy| |sy my ey]; try done;
    try destruct sx; try destruct sy; cbn; try done.
  - rewrite (Z.compare_antisym ex ey).
    change (Pos.compare_cont Eq my mx) with (Pos.compare my mx).
    change (Pos.compare_cont Eq mx my) with (Pos.compare mx my).
    rewrite (Pos.compare_antisym mx my).
    destruct (ex ?= ey); cbn; try done. destruct (mx ?= my)%positive; cbn; done.
  - rewrite (Z.compare_antisym ex ey).
    change (Pos.compare_cont Eq my mx) with (Pos.compare my mx).
    change (Pos.compare_cont Eq mx my) with (Pos.compare mx my).
    rewrite (Pos.compare_antisym mx my).
    destruct (ex ?= ey); cbn; try done. destruct (mx ?= my)%positive; cbn; done.
Qed.

Lemma not_nan_of_eqb x : PrimFloat.eqb x x = true -> Prim2SF x <> S754_nan.
Proof. intros H Hn. rewrite FloatAxioms.eqb_spec, Hn in H. discriminate. Qed.

Lemma not_nan_of_leb x y : PrimFloat.leb x y = true -> Prim2SF x <> S754_nan.
Proof. intros H Hn. rewrite leb_spec, Hn in H. discriminate. Qed.

(** [std::max(std::min(m, v), v)] is numerically [v] when neither is NaN. *)
Lemma std_max_of_min_is_value m v :
  PrimFloat.leb m 0%float = true -> PrimFloat.eqb v v = true ->
  PrimFloat.eqb (std_max (std_min m v) v) v = true.
Proof.
  intros Hm Hv. unfold std_max, std_min.
  destruct (PrimFloat.ltb v m) eqn:Hvm.
  - destruct (PrimFloat.ltb v v); exact Hv.
  - destruct (PrimFloat.ltb m v) eqn:Hmv; [exact Hv|].
    rewrite FloatAxioms.eqb_spec. rewrite ltb_spec in Hvm, Hmv.
    apply SFcompare_not_lt_twice;
      [eapply not_nan_of_leb; exact Hm | apply not_nan_of_eqb; exact Hv | done | done].
Qed.

Lemma add_data_point_accumulates fuel tsdb mid tid dp r r' out :
  add_data_point fuel tsdb mid tid dp r = Some (r', out) ->
  exists r0, r' = accumulate (get_value dp) r0 /\
             (min_nonpositive r -> min_nonpositive r0).
Proof.
  intros Ha.
  assert (exists r0 out0, Some (r', out) = Some (accumulate (get_value dp) r0, out0)
            /\ (min_nonpositive r -> min_nonpositive r0)) as (r0 & out0 & Heq & Hm).
  { unfold add_data_point in Ha.
    set (ra := match m_tsdb r with None => set_tsdb r (Some tsdb) | Some _ => r end) in Ha.
    assert (min_nonpositive r -> min_nonpositive ra) as Hra
      by (intros Hr; subst ra; destruct (m_tsdb r); exact Hr).
    destruct (m_tsdb ra) as [cur|]; [|discriminate].
    destruct (get_rollup_interval cur <=? 0); [discriminate|].
    set (b := to_sec (get_timestamp dp) - _) in Ha.
    set (rb := if m_tstamp ra =? TT_INVALID_TIMESTAMP then set_tstamp ra b else ra) in Ha.
    assert (min_nonpositive r -> min_nonpositive rb) as Hrb
      by (intros Hr; subst rb; destruct (m_tstamp ra =? TT_INVALID_TIMESTAMP);
          apply Hra; exact Hr).
    destruct (negb (b =? m_tstamp rb)).
    - destruct (change_bucket fuel cur tsdb mid tid _ b rb) as [[rc o]|] eqn:Hc;
        [|discriminate].
      exists rc, o. split; [symmetry; exact Ha|].
      intros Hr. apply (change_bucket_min _ _ _ _ _ _ _ _ _ _ (Hrb Hr) Hc).
    - exists rb, []. split; [symmetry; exact Ha|]. exact Hrb. }
  injection Heq as -> _. exists r0. split; [reflexivity|exact Hm].
Qed.

(** X5.  What [query] reports.  On a new manager and right after a flush
    that emitted an aggregate there is nothing to report, for any type.
    After a point with a value that is not NaN was added, in any run that
    started with a new manager, the maximum reported is numerically the
    value of that last point (not the largest value of the bucket), at the
    bucket the manager holds. *)
Theorem query_reports_nothing_after_flush_and_last_value_as_max :
  (forall type, query type RollupManager_new = None)
  /\
  (forall type mid tid r r' out,
     flush mid tid r = Some (r', out) -> out <> [] -> query type r' = None)
  /\
  (forall fuel ops r out tsdb mid tid dp r' out',
     run fuel ops RollupManager_new = Some (r, out) ->
     add_data_point fuel tsdb mid tid dp r = Some (r', out') ->
     PrimFloat.eqb (get_value dp) (get_value dp) = true ->
     m_cnt r' <> 0 ->
     exists x,
       query RU_MAX r' = Some (m_tstamp r', x) /\
       PrimFloat.eqb x (get_value dp) = true).
Proof.
  split; [|split].
  - intros type. reflexivity.
  - intros type mid tid r r' out Hf Hne. unfold flush in Hf.
    destruct (m_tstamp r =? TT_INVALID_TIMESTAMP).
    + injection Hf as <- <-. done.
    + destruct (m_tsdb r); [|discriminate]. injection Hf as <- <-. reflexivity.
  - intros fuel ops r out tsdb mid tid dp r' out' Hrun Ha Hv Hcnt.
    destruct (run_min fuel ops RollupManager_new r out) as [Hr _];
      [reflexivity | exact Hrun |].
    destruct (add_data_point_accumulates _ _ _ _ _ _ _ _ Ha) as (r0 & -> & Hm).
    exists (m_max (accumulate (get_value dp) r0)). split.
    + unfold query. destruct (Z.eqb_spec (m_cnt (accumulate (get_value dp) r0)) 0);
        [done|reflexivity].
    + cbn [accumulate m_max]. apply std_max_of_min_is_value; [exact (Hm Hr)|exact Hv].
Qed.

End WithConstants.

Lemma max_accumulator_ignores_old_max_witness :
  add_data_point all_ones seconds 0 fileA 7 8 (mkDataPoint 1 3%float)
    (mkRollupManager 1 0%float 5%float 5%float (Some fileA) 0) =
  Some (mkRollupManager 2 0%float 3%float 8%float (Some fileA) 0, []).
Proof.
  apply (proj2 (max_accumulator_ignores_old_max all_ones seconds) 0%nat 1 0 100 7 8);
    reflexivity.
Defined.

Lemma gap_filling_within_one_file_witness :
  add_data_point all_ones seconds 2 fileA 7 8 (mkDataPoint 35 2%float)
    (mkRollupManager 1 0%float 1%float 1%float (Some fileA) 0) =
  Some (mkRollupManager 1 0%float 2%float 2%float (Some fileA) 30,
        [mkRollupPoint fileA 7 8 0 1 0%float 1%float 1%float;
         empty_point fileA 7 8 10; empty_point fileA 7 8 20]).
Proof.
  apply (proj1 (gap_filling_within_one_file all_ones seconds)
           2%nat fileA 7 8 (mkDataPoint 35 2%float) 1 0%float 1%float 1%float 0).
  - reflexivity.
  - lia.
  - reflexivity.
  - reflexivity.
  - reflexivity.
  - split; [discriminate|reflexivity].
  - intros [_ H]. vm_compute in H. discriminate.
  - vm_compute. lia.
Defined.

Lemma gap_filling_across_files_witness :
  exists r',
    add_data_point all_ones seconds 9 fileB 7 8 (mkDataPoint 115 2%float)
      (mkRollupManager 1 0%float 1%float 1%float (Some fileA) 0) =
    Some (r',
          mkRollupPoint fileA 7 8 0 1 0%float 1%float 1%float
          :: empty_run fileA 7 8 10 10 9 ++ empty_run fileB 7 8 100 10 1) /\
    m_tsdb r' = Some fileB /\
    110 <= m_tstamp r' /\
    Forall (fun p => rp_tsdb p = fileB /\ 100 <= rp_tstamp p < 110)
      (empty_run fileB 7 8 100 10 1).
Proof.
  apply (proj1 (gap_filling_across_files all_ones seconds)
           9%nat fileA fileB 7 8 (mkDataPoint 115 2%float)
           1 0%float 1%float 1%float 0).
  - reflexivity.
  - lia.
  - discriminate.
  - discriminate.
  - vm_compute. discriminate.
  - reflexivity.
  - reflexivity.
  - discriminate.
  - reflexivity.
  - intros [_ H]. vm_compute in H. discriminate.
  - intros [_ H]. vm_compute in H. discriminate.
  - vm_compute. lia.
  - vm_compute. lia.
Defined.

Lemma emitted_min_never_positive_witness :
  Forall (fun p => PrimFloat.leb (rp_min p) 0%float = true)
    [mkRollupPoint fileA 7 8 0 2 0%float 5%float 8%float;
     empty_point fileA 7 8 10].
Proof.
  apply (proj1 (emitted_min_never_positive all_ones seconds) 3%nat
           [OpAdd fileA 7 8 (mkDataPoint 1 3%float);
            OpAdd fileA 7 8 (mkDataPoint 2 5%float);
            OpAdd fileA 7 8 (mkDataPoint 21 4%float)]
           (mkRollupManager 1 0%float 4%float 4%float (Some fileA) 20)).
  reflexivity.
Defined.

Lemma out_of_order_point_opens_next_bucket_witness :
  add_data_point all_ones seconds 0 fileA 7 8 (mkDataPoint 5 9%float)
    (mkRollupManager 1 0%float 1%float 1%float (Some fileA) 30) =
  Some (mkRollupManager 1 0%float 9%float 9%float (Some fileA) 40,
        [mkRollupPoint fileA 7 8 30 1 0%float 1%float 1%float]).
Proof.
  apply (out_of_order_point_opens_next_bucket all_ones seconds
           0%nat fileA fileA 7 8 (mkDataPoint 5 9%float) 1 0%float 1%float 1%float 30).
  - reflexivity.
  - lia.
  - discriminate.
  - reflexivity.
  - reflexivity.
  - reflexivity.
Defined.

Lemma flush_twice_emits_an_empty_aggregate_witness :
  run all_ones seconds 0 [OpFlush 7 8; OpFlush 7 8]
    (mkRollupManager 2 0%float 5%float 8%float (Some fileA) 20) =
  Some (cleared fileA 20,
        [mkRollupPoint fileA 7 8 20 2 0%float 5%float 8%float;
         empty_point fileA 7 8 20]).
Proof.
  apply (proj2 (flush_twice_emits_an_empty_aggregate all_ones seconds)
           7 8 7 8 2 0%float 5%float 8%float fileA 20).
  discriminate.
Defined.

Lemma bucket_counts_and_sums_its_points_witness :
  exists r,
    run all_ones seconds 0
      (map (OpAdd fileA 7 8) [mkDataPoint 21 3%float; mkDataPoint 29 5%float])
      (mkRollupManager 0 0%float 0%float 0%float (Some fileA) 20)
    = Some (r, []) /\
    m_cnt r = wrap32 (0 + 2) /\
    m_sum r = PrimFloat.add (PrimFloat.add 0%float 3%float) 5%float /\
    m_tsdb r = Some fileA /\ m_tstamp r = 20 /\
    (m_cnt r <> 0 ->
     query RU_CNT r = Some (20, double_of_cnt (m_cnt r)) /\
     query RU_SUM r = Some (20, m_sum r)).
Proof.
  apply (bucket_counts_and_sums_its_points all_ones seconds 0%nat fileA fileA 7 8
           [mkDataPoint 21 3%float; mkDataPoint 29 5%float] 0 0%float 0%float 0%float 20).
  - reflexivity.
  - repeat constructor.
Defined.

Lemma in_order_run_emits_one_aggregate_per_interval_witness :
  exists r out,
    run all_ones seconds 9
      (map (OpAdd fileA 7 8)
         [mkDataPoint 5 1%float; mkDataPoint 35 2%float; mkDataPoint 38 1%float;
          mkDataPoint 61 4%float])
      (mkRollupManager 0 0%float 0%float 0%float (Some fileA) 0)
    = Some (r, out) /\
    m_tsdb r = Some fileA /\
    m_tstamp r = 60 /\
    map rp_tstamp out = [0; 10; 20; 30; 40; 50] /\
    Forall (fun p => rp_tsdb p = fileA) out.
Proof.
  apply (in_order_run_emits_one_aggregate_per_interval all_ones seconds fileA 7 8 10%nat
           [mkDataPoint 5 1%float; mkDataPoint 35 2%float; mkDataPoint 38 1%float;
            mkDataPoint 61 4%float] 0 0%float 0%float 0%float 0).
  - reflexivity.
  - lia.
  - reflexivity.
  - vm_compute. intuition discriminate.
  - intros [_ H]. vm_compute in H. discriminate.
  - vm_compute. lia.
Defined.

Lemma query_reports_nothing_after_flush_and_last_value_as_max_witness :
  exists x,
    query RU_MAX (mkRollupManager 2 0%float 3%float 8%float (Some fileA) 0)
    = Some (0, x) /\
    PrimFloat.eqb x 3%float = true.
Proof.
  apply (proj2 (proj2 (query_reports_nothing_after_flush_and_last_value_as_max
                         all_ones seconds))
           0%nat [OpAdd fileA 7 8 (mkDataPoint 0 5%float)]
           (mkRollupManager 1 0%float 5%float 5%float (Some fileA) 0) []
           fileA 7 8 (mkDataPoint 1 3%float)
           (mkRollupManager 2 0%float 3%float 8%float (Some fileA) 0) []).
  - vm_compute. reflexivity.
  - vm_compute. reflexivity.
  - reflexivity.
  - discriminate.
Defined.

End Rollup.

(* ===================================================================== *)
(** * src/core/page.cpp *)
(* ===================================================================== *)

Module Page.

(** [TimeRange], as far as page.cpp uses it: [init(from, to)],
    [get_from()], [get_to()] and [add_time(ts)]. *)
Record TimeRange : Type := mkTimeRange {
  tr_from : Timestamp;
  tr_to : Timestamp
}.

(** Modelled from the spec: [TimeRange::add_time] is declared outside of
    page.cpp; the spec says that a successful [add_data_point] expands the
    in-memory time range to include the timestamp. *)
Definition add_time (tstamp : Timestamp) (r : TimeRange) : TimeRange :=
  mkTimeRange (Z.min (tr_from r) tstamp) (Z.max (tr_to r) tstamp).

(** [struct page_info_on_disk], one per logical page.  Modelled from the
    spec: the struct is declared in page.h; the field widths are those of
    the on-disk format ([m_page_index], [m_tstamp_from], [m_tstamp_to]:
    32 bits; [m_offset], [m_size], [m_cursor]: 16 bits; [m_start],
    [m_flags]: 8 bits, bit 0 full, bit 1 out of order). *)
Record page_info_on_disk : Type := mkPageInfoOnDisk {
  m_page_index : Z;
  m_offset : Z;
  m_size : Z;
  m_cursor : Z;
  m_start : Z;
  m_flags : Z;
  m_tstamp_from : Z;
  m_tstamp_to : Z
}.

(** The state of a header after [memset(..., 0, ...)]. *)
Definition zero_header : page_info_on_disk := mkPageInfoOnDisk 0 0 0 0 0 0 0 0.

Definition set_out_of_order (ooo : bool) (h : page_info_on_disk) : page_info_on_disk :=
  mkPageInfoOnDisk (m_page_index h) (m_offset h) (m_size h) (m_cursor h) (m_start h)
    (if ooo then Z.lor (m_flags h) 2 else Z.land (m_flags h) 253)
    (m_tstamp_from h) (m_tstamp_to h).

Definition is_out_of_order (h : page_info_on_disk) : bool := Z.testbit (m_flags h) 1.

Definition set_page_index (v : Z) (h : page_info_on_disk) : page_info_on_disk :=
  mkPageInfoOnDisk v (m_offset h) (m_size h) (m_cursor h) (m_start h)
    (m_flags h) (m_tstamp_from h) (m_tstamp_to h).

Definition set_offset (v : Z) (h : page_info_on_disk) : page_info_on_disk :=
  mkPageInfoOnDisk (m_page_index h) v (m_size h) (m_cursor h) (m_start h)
    (m_flags h) (m_tstamp_from h) (m_tstamp_to h).

Definition set_size (v : Z) (h : page_info_on_disk) : page_info_on_disk :=
  mkPageInfoOnDisk (m_page_index h) (m_offset h) v (m_cursor h) (m_start h)
    (m_flags h) (m_tstamp_from h) (m_tstamp_to h).

(** What a data file holds when it is opened: the four counters of
    [struct tsdb_header], its compressor version and its compacted and
    millisecond flags, and the page-info table. *)
Record tsdb_file : Type := mkTsdbFile {
  f_page_count : Z;
  f_page_index : Z;
  f_header_index : Z;
  f_actual_pg_cnt : Z;
  f_compressor_version : Z;
  f_compacted : bool;
  f_millisecond : bool;
  f_page_info : list page_info_on_disk
}.

(** The file found by [open_mmap]: none, one of size 0, or one with
    content. *)
Inductive file_state : Type :=
| Absent
| Empty
| Existing (f : tsdb_file).

(** [PageManager].  [page_count], [page_index], [header_index] and
    [actual_pg_cnt] are the 32-bit counters of the mapped [tsdb_header]
    that [m_page_count], [m_page_index], [m_header_index] and
    [m_actual_pg_cnt] point to; [m_page_info] is the mapped table. *)
Record PageManager : Type := mkPageManager {
  m_id : Z;
  m_time_range : TimeRange;
  m_compressor_version : Z;
  m_compacted : bool;
  page_count : Z;
  page_index : Z;
  header_index : Z;
  actual_pg_cnt : Z;
  m_page_info : list page_info_on_disk
}.

Definition set_counters (pi hi : Z) (pm : PageManager) : PageManager :=
  mkPageManager (m_id pm) (m_time_range pm) (m_compressor_version pm) (m_compacted pm)
    (page_count pm) pi hi (actual_pg_cnt pm) (m_page_info pm).

Definition set_page_info (t : list page_info_on_disk) (pm : PageManager) : PageManager :=
  mkPageManager (m_id pm) (m_time_range pm) (m_compressor_version pm) (m_compacted pm)
    (page_count pm) (page_index pm) (header_index pm) (actual_pg_cnt pm) t.

(** A write through a [page_info_on_disk *] that points to entry [id] of
    the mapped table. *)
Definition update_header (id : Z) (f : page_info_on_disk -> page_info_on_disk)
    (pm : PageManager) : PageManager :=
  set_page_info (alter f (Z.to_nat id) (m_page_info pm)) pm.

(** The result of the recovery scan of the constructor. *)
Inductive scan_result : Type :=
| Stopped (id : Z)
| AssertFailed
| OutOfFuel.

(** ** A concrete environment for the scenarios

    4 KiB pages; a [page_info_on_disk::init] that clears the entry; a
    compressor without content that refuses every point; a file whose
    only header describes 800 bytes at the start of page 1. *)
Definition clear_header (_ : TimeRange) (_ : page_info_on_disk) : page_info_on_disk :=
  zero_header.
Definition unit_compressor_init (_ : Z) (_ : Timestamp) (_ _ : Z) : unit := tt.
Definition unit_compress (c : unit) (_ : Timestamp) (_ : float) : bool * unit :=
  (false, c).
Definition hour : TimeRange := mkTimeRange 0 3600.
Definition header_800 : page_info_on_disk := mkPageInfoOnDisk 1 0 800 800 0 1 0 0.
Definition one_short_page : PageManager :=
  mkPageManager 0 hour 1 false 4 2 1 4
    [header_800; zero_header; zero_header; zero_header].

Section WithEnvironment.

(** Declared outside of page.cpp: the page size, the two [sizeof]s, the
    timestamp resolution of the configuration, [page_info_on_disk::init],
    and the compressor with the two member functions page allocation and
    [PageInfo::add_data_point] call. *)
Variable g_page_size : Z.
Variable sizeof_tsdb_header : Z.
Variable sizeof_page_info_on_disk : Z.
Variable g_tstamp_resolution_ms : bool.
Variable header_init : TimeRange -> page_info_on_disk -> page_info_on_disk.
Variable Compressor : Type.
Variable compressor_init : Z -> Timestamp -> Z -> Z -> Compressor.
Variable compress : Compressor -> Timestamp -> float -> bool * Compressor.

(** [PageInfo]: [m_header] is the index of the table entry the pointer of
    that name refers to; the [PageManager] behind [m_page_mgr] is passed
    to the functions. *)
Record PageInfo : Type := mkPageInfo {
  m_header : Z;
  m_compressor : option Compressor;
  pi_time_range : TimeRange
}.

(** [PageManager::get_page_info_on_disk], with its
    assertion that [index] is below the page count. *)
Definition get_page_info_on_disk (index : Z) (pm : PageManager)
  : option page_info_on_disk :=
  if index <? page_count pm then m_page_info pm !! Z.to_nat index else None.

(** [PageManager::calc_first_page_info_index]:
    [std::ceil((page_count * sizeof(page_info_on_disk) + sizeof(tsdb_header))
               / (double)g_page_size)],
    converted to [PageCount].  The quotient is taken in [double]; for
    byte counts below 2^53 its ceiling is the integer ceiling. *)
Definition calc_first_page_info_index (page_count : Z) : Z :=
  wrap32 ((page_count * sizeof_page_info_on_disk + sizeof_tsdb_header
           + g_page_size - 1) / g_page_size).

(** [PageInfo::get_page], as an offset from [first_page]:
    [first_page + (idx * g_page_size) + m_header->m_offset].  [idx] is a
    [PageCount] and the product is computed in 32 bits (no cast to
    [TsdbSize] here), so it wraps at 2^32; the two additions are pointer
    arithmetic. *)
Definition get_page (h : page_info_on_disk) : Z :=
  wrap32 (m_page_index h * g_page_size) + m_offset h.

(** [PageInfo::init_for_disk]: writes the header at [header] and returns
    the [PageInfo].  Its assertions (non-null pointers, [size > 1]) are
    taken to hold. *)
Definition init_for_disk (pm : PageManager) (header : Z) (page_idx size : Z)
    (is_ooo : bool) : PageInfo * PageManager :=
  let range := m_time_range pm in
  let pm' :=
    update_header header
      (fun h => set_size (wrap16 size)
                  (set_offset 0
                     (set_page_index page_idx
                        (set_out_of_order is_ooo (header_init range h))))) pm in
  (mkPageInfo header None (mkTimeRange (tr_to range) (tr_from range)), pm').

(** [PageInfo::init_from_disk] *)
Definition init_from_disk (pm : PageManager) (header : Z) (h : page_info_on_disk)
  : PageInfo :=
  let start := tr_from (m_time_range pm) in
  mkPageInfo header None
    (mkTimeRange (m_tstamp_from h + start) (m_tstamp_to h + start)).

(** [PageInfo::setup_compressor]; the pool is taken to deliver the
    compressor. *)
Definition setup_compressor (range : TimeRange) (compressor_version : Z)
    (info : PageInfo) (pm : PageManager) : PageInfo :=
  match m_page_info pm !! Z.to_nat (m_header info) with
  | None => info
  | Some h =>
      let version := if is_out_of_order h then 0 else compressor_version in
      mkPageInfo (m_header info)
        (Some (compressor_init version (tr_from range) (get_page h) (m_size h)))
        (pi_time_range info)
  end.

(** [PageInfo::add_data_point] *)
Definition add_data_point (tstamp : Timestamp) (value : float) (info : PageInfo)
    (pm : PageManager) : bool * PageInfo * PageManager :=
  match m_compressor info with
  | None => (false, info, pm)
  | Some c =>
      let '(success, c') := compress c tstamp value in
      let range := if success then add_time tstamp (pi_time_range info)
                   else pi_time_range info in
      (success, mkPageInfo (m_header info) (Some c') range, pm)
  end.

(** [PageManager::open_mmap]: the result pairs [is_new] with the manager
    whose counters refer to the mapped header.  The calls to the operating
    system are taken to succeed (which they cannot for a file of zero
    pages: the statements below about new files ask for a page); a new
    file is zero-filled by [ftruncate].  The checks of the major and minor
    version only log.  [None] stands for the [std::range_error] thrown on
    a resolution mismatch. *)
Definition open_mmap (range : TimeRange) (id compressor_version page_count : Z)
    (file : file_state) : option (bool * PageManager) :=
  let fresh :=
    mkPageManager id range compressor_version false
      page_count (calc_first_page_info_index page_count) 0 page_count
      (replicate (Z.to_nat page_count) zero_header) in
  match file with
  | Absent => Some (true, fresh)
  | Empty => Some (false, fresh)
  | Existing f =>
      if negb (Bool.eqb g_tstamp_resolution_ms (f_millisecond f)) then None
      else
        Some (false,
              mkPageManager id range (f_compressor_version f) (f_compacted f)
                (f_page_count f) (f_page_index f) (f_header_index f)
                (f_actual_pg_cnt f) (f_page_info f))
  end.

(** [PageManager::init_headers] *)
Definition init_headers (pm : PageManager) : PageManager :=
  set_page_info (replicate (Z.to_nat (page_count pm)) zero_header) pm.

(** The loop of the constructor,
    [for (id--; id >= first; id--)
       { info = get_page_info_on_disk(id); if (info->m_page_index != 0) break; }],
    entered after [id--]. *)
Fixpoint recover_scan (fuel : nat) (first id : Z) (pm : PageManager) : scan_result :=
  if first <=? id then
    match fuel with
    | O => OutOfFuel
    | S fuel' =>
        match get_page_info_on_disk id pm with
        | None => AssertFailed
        | Some info =>
            if negb (m_page_index info =? 0) then Stopped id
            else recover_scan fuel' first (wrap32 (id - 1)) pm
        end
    end
  else Stopped id.

(** The [else] branch of the constructor (lines 385-404). *)
Definition recover (pm : PageManager) : option PageManager :=
  let id := page_index pm in
  let first := calc_first_page_info_index (page_count pm) in
  match recover_scan (Z.to_nat id + 1) first (wrap32 (id - 1)) pm with
  | Stopped id' =>
      let id'' := wrap32 (id' + 1) in
      if negb (id'' =? page_index pm)
      then Some (set_counters id'' (header_index pm) pm)
      else Some pm
  | AssertFailed => None
  | OutOfFuel => None
  end.

(** [PageManager::PageManager]; [compressor_version] and [page_count] are
    the values read from the configuration. *)
Definition PageManager_new (range : TimeRange) (id compressor_version page_count : Z)
    (file : file_state) : option PageManager :=
  match open_mmap range id compressor_version page_count file with
  | None => None
  | Some (is_new, pm) => if is_new then Some (init_headers pm) else recover pm
  end.

(** [PageManager::get_free_page_on_disk].  [pool_delivers] tells whether
    [MemoryManager::alloc_recyclable] returned a [PageInfo]. *)
Definition get_free_page_on_disk (pool_delivers ooo : bool) (pm : PageManager)
  : option PageInfo * PageManager :=
  if negb pool_delivers then (None, pm)
  else if (page_index pm <? actual_pg_cnt pm) && (header_index pm <? page_count pm)
  then
    let id := header_index pm in
    let page_idx := page_index pm in
    let '(info, pm1) := init_for_disk pm id page_idx g_page_size ooo in
    let info' :=
      setup_compressor (m_time_range pm)
        (if ooo then 0 else m_compressor_version pm) info pm1 in
    (Some info',
     set_counters (wrap32 (page_index pm1 + 1)) (wrap32 (header_index pm1 + 1)) pm1)
  else (None, pm).

(** [PageManager::get_free_page_for_compaction] *)
Definition get_free_page_for_compaction (pool_delivers : bool) (pm : PageManager)
  : option PageInfo * PageManager :=
  if negb pool_delivers then (None, pm)
  else if (page_index pm <? actual_pg_cnt pm) && (header_index pm <? page_count pm)
  then
    let id := header_index pm in
    let page_idx := page_index pm in
    let '(info, pm1) := init_for_disk pm id page_idx g_page_size false in
    let pm2 :=
      set_counters (wrap32 (page_index pm1 + 1)) (wrap32 (header_index pm1 + 1)) pm1 in
    let pm3 :=
      if 0 <? id then
        match get_page_info_on_disk (id - 1) pm2 with
        | None => pm2
        | Some header =>
            let offset := wrap16 (m_offset header + m_size header) in
            if 12 <=? g_page_size - offset then
              update_header (m_header info)
                (fun h => set_size (wrap16 (g_page_size - offset))
                            (set_offset offset
                               (set_page_index (m_page_index header) h))) pm2
            else
              update_header (m_header info)
                (set_page_index (wrap32 (m_page_index header + 1))) pm2
        end
      else pm2 in
    (Some (setup_compressor (m_time_range pm) (m_compressor_version pm) info pm3), pm3)
  else (None, pm).

(** [PageManager::get_the_page_on_disk] *)
Definition get_the_page_on_disk (header_index : Z) (pm : PageManager)
  : option PageInfo :=
  if page_count pm <=? header_index then None
  else
    match get_page_info_on_disk header_index pm with
    | None => None
    | Some h => Some (init_from_disk pm header_index h)
    end.

(** [PageInfo::get_file_id] *)
Definition get_file_id (pm : PageManager) : Z := m_id pm.

(** The conversion of a 32-bit unsigned value to [int]. *)
Definition to_int (z : Z) : Z := if z <? 2 ^ 31 then z else z - 2 ^ 32.

(** [PageInfo::get_page_order]:
    [(get_file_id() * m_page_mgr->get_page_count()) + m_header->m_page_index],
    computed in [PageCount] and returned as [int]. *)
Definition get_page_order (h : page_info_on_disk) (pm : PageManager) : Z :=
  to_int (wrap32 (wrap32 (get_file_id pm * page_count pm) + m_page_index h)).

Definition set_actual_pg_cnt (v : Z) (pm : PageManager) : PageManager :=
  mkPageManager (m_id pm) (m_time_range pm) (m_compressor_version pm) (m_compacted pm)
    (page_count pm) (page_index pm) (header_index pm) v (m_page_info pm).

(** [PageManager::persist_compacted_flag]: [m_compacted] and the flag of
    the mapped file header, which [file_of] below reads from [m_compacted]. *)
Definition persist_compacted_flag (compacted : bool) (pm : PageManager) : PageManager :=
  mkPageManager (m_id pm) (m_time_range pm) (m_compressor_version pm) compacted
    (page_count pm) (page_index pm) (header_index pm) (actual_pg_cnt pm)
    (m_page_info pm).

(** [PageManager::shrink_to_fit].  [None] stands for the assertion of
    [get_page_info_on_disk].  [m_total_size] and the [resize] of the file
    and of its mapping are requests to the operating system and not part
    of this state. *)
Definition shrink_to_fit (pm : PageManager) : option PageManager :=
  let id := wrap32 (header_index pm - 1) in
  match get_page_info_on_disk id pm with
  | None => None
  | Some header =>
      let last := wrap32 (m_page_index header + 1) in
      Some (persist_compacted_flag true (set_actual_pg_cnt last pm))
  end.

(** ** Specification-side vocabulary *)

(** The content of the data file once everything written through the
    mapping has reached it. *)
Definition file_of (pm : PageManager) : tsdb_file :=
  mkTsdbFile (page_count pm) (page_index pm) (header_index pm) (actual_pg_cnt pm)
    (m_compressor_version pm) (m_compacted pm) g_tstamp_resolution_ms
    (m_page_info pm).

(** A crash that lost the write of header [id]: the entry is still zero. *)
Definition lose_header (id : Z) (f : tsdb_file) : tsdb_file :=
  mkTsdbFile (f_page_count f) (f_page_index f) (f_header_index f) (f_actual_pg_cnt f)
    (f_compressor_version f) (f_compacted f) (f_millisecond f)
    (<[Z.to_nat id := zero_header]> (f_page_info f)).

(** Invariant 2 of the page manager. *)
Definition counters_ok (pm : PageManager) : Prop :=
  header_index pm <= page_count pm /\ page_index pm <= actual_pg_cnt pm.

(** The counters are 32-bit values and the table has [page_count] entries. *)
Definition well_formed (pm : PageManager) : Prop :=
  0 <= page_count pm < 2 ^ 32 /\
  0 <= actual_pg_cnt pm < 2 ^ 32 /\
  0 <= page_index pm < 2 ^ 32 /\
  0 <= header_index pm < 2 ^ 32 /\
  length (m_page_info pm) = Z.to_nat (page_count pm).

(** The entry a successful [init_for_disk] leaves at [header]. *)
Definition minted (pm : PageManager) (page_idx size : Z) (is_ooo : bool)
    (h : page_info_on_disk) : page_info_on_disk :=
  set_size (wrap16 size)
    (set_offset 0
       (set_page_index page_idx
          (set_out_of_order is_ooo (header_init (m_time_range pm) h)))).

(** A sequence of calls of [get_free_page_on_disk]; each element says
    whether the pool delivers and whether the page is out of order. *)
Fixpoint allocate_all (calls : list (bool * bool)) (pm : PageManager) : PageManager :=
  match calls with
  | [] => pm
  | (pool_delivers, ooo) :: rest =>
      allocate_all rest (snd (get_free_page_on_disk pool_delivers ooo pm))
  end.

(** The layout [get_free_page_on_disk] builds on a new file: header [k]
    owns the whole physical page [first + k]. *)
Definition dense (pm : PageManager) : Prop :=
  let first := calc_first_page_info_index (page_count pm) in
  well_formed pm /\
  page_index pm = first + header_index pm /\
  page_index pm <= actual_pg_cnt pm /\
  forall k h, 0 <= k < header_index pm ->
    m_page_info pm !! Z.to_nat k = Some h ->
    m_page_index h = first + k /\ m_offset h = 0 /\ m_size h = g_page_size.

(** ** Allocation *)

Lemma wrap32_small z : 0 <= z < 2 ^ 32 -> wrap32 z = z.
Proof. intros. unfold wrap32. apply Z.mod_small. done. Qed.

Lemma wrap16_small z : 0 <= z < 2 ^ 16 -> wrap16 z = z.
Proof. intros. unfold wrap16. apply Z.mod_small. done. Qed.

Lemma guard_true pm :
  page_index pm < actual_pg_cnt pm -> header_index pm < page_count pm ->
  (page_index pm <? actual_pg_cnt pm) && (header_index pm <? page_count pm) = true.
Proof.
  intros. destruct (Z.ltb_spec (page_index pm) (actual_pg_cnt pm)); [|lia].
  destruct (Z.ltb_spec (header_index pm) (page_count pm)); [done|lia].
Qed.

Lemma guard_false pm :
  ~ (page_index pm < actual_pg_cnt pm /\ header_index pm < page_count pm) ->
  (page_index pm <? actual_pg_cnt pm) && (header_index pm <? page_count pm) = false.
Proof.
  intros. destruct (Z.ltb_spec (page_index pm) (actual_pg_cnt pm));
    destruct (Z.ltb_spec (header_index pm) (page_count pm)); cbn; try done; lia.
Qed.

Lemma lookup_header_in_range pm (id : Z) :
  well_formed pm -> 0 <= id < page_count pm ->
  exists h, m_page_info pm !! Z.to_nat id = Some h.
Proof.
  intros (_ & _ & _ & _ & Hlen) Hid.
  apply lookup_lt_is_Some. lia.
Qed.

(** A successful [get_free_page_on_disk], step by step. *)
Lemma get_free_page_on_disk_success ooo pm :
  well_formed pm ->
  page_index pm < actual_pg_cnt pm -> header_index pm < page_count pm ->
  exists info pm' h0,
    get_free_page_on_disk true ooo pm = (Some info, pm') /\
    m_page_info pm !! Z.to_nat (header_index pm) = Some h0 /\
    m_header info = header_index pm /\
    is_Some (m_compressor info) /\
    page_index pm' = page_index pm + 1 /\
    header_index pm' = header_index pm + 1 /\
    page_count pm' = page_count pm /\
    actual_pg_cnt pm' = actual_pg_cnt pm /\
    m_page_info pm' =
      <[Z.to_nat (header_index pm) :=
          minted pm (page_index pm) g_page_size ooo h0]> (m_page_info pm) /\
    well_formed pm'.
Proof.
  intros Hwf Hp Hh.
  destruct (lookup_header_in_range pm (header_index pm) Hwf) as [h0 Hh0];
    [destruct Hwf as (? & ? & ? & ? & ?); lia|].
  destruct Hwf as (Hpc & Hac & Hpi & Hhi & Hlen).
  unfold get_free_page_on_disk. cbn [negb].
  rewrite guard_true by done.
  unfold init_for_disk, setup_compressor, update_header.
  cbn [m_header m_page_info set_page_info set_counters page_index header_index
       page_count actual_pg_cnt m_time_range pi_time_range].
  rewrite list_lookup_alter_eq, Hh0. cbn [fmap option_fmap option_map].
  rewrite !wrap32_small by lia.
  eexists _, _, h0. split; [reflexivity|].
  split; [reflexivity|]. split; [reflexivity|]. split; [eexists; reflexivity|].
  unfold well_formed.
  cbn [m_header m_compressor page_index header_index page_count actual_pg_cnt
       m_page_info set_counters set_page_info].
  do 4 (split; [reflexivity|]). split.
  - apply list_eq. intros k.
    destruct (decide (k = Z.to_nat (header_index pm))) as [->|Hne].
    + rewrite list_lookup_alter_eq, list_lookup_insert_eq, Hh0 by lia. reflexivity.
    + rewrite list_lookup_alter_ne, list_lookup_insert_ne by done. reflexivity.
  - rewrite length_alter. repeat split; try lia.
Qed.

Lemma get_free_page_on_disk_failure pool ooo pm :
  ~ (page_index pm < actual_pg_cnt pm /\ header_index pm < page_count pm) ->
  get_free_page_on_disk pool ooo pm = (None, pm).
Proof.
  intros Hg. unfold get_free_page_on_disk.
  destruct pool; [|reflexivity]. cbn [negb]. rewrite guard_false by done. reflexivity.
Qed.

Lemma calc_first_bounds (pc : Z) :
  0 < g_page_size ->
  0 <= pc * sizeof_page_info_on_disk + sizeof_tsdb_header < 2 ^ 32 ->
  let p := calc_first_page_info_index pc in
  g_page_size * (p - 1) < pc * sizeof_page_info_on_disk + sizeof_tsdb_header
    <= g_page_size * p.
Proof.
  intros Hps Hb p. subst p. unfold calc_first_page_info_index.
  set (a := pc * sizeof_page_info_on_disk + sizeof_tsdb_header) in *.
  pose proof (Z.div_mod (a + g_page_size - 1) g_page_size) as Hdm.
  pose proof (Z.mod_pos_bound (a + g_page_size - 1) g_page_size Hps) as Hm.
  assert (0 <= (a + g_page_size - 1) / g_page_size) as Hq0
    by (apply Z.div_pos; lia).
  assert ((a + g_page_size - 1) / g_page_size < 2 ^ 32) as Hq1.
  { apply Z.div_lt_upper_bound; [lia|]. nia. }
  rewrite wrap32_small by lia. lia.
Qed.

Lemma minted_fields pm page_idx ooo h :
  0 <= g_page_size < 2 ^ 16 ->
  m_page_index (minted pm page_idx g_page_size ooo h) = page_idx /\
  m_offset (minted pm page_idx g_page_size ooo h) = 0 /\
  m_size (minted pm page_idx g_page_size ooo h) = g_page_size.
Proof.
  intros Hps. unfold minted. cbn. rewrite wrap16_small by done. done.
Qed.

Lemma fresh_file_well_formed range id v pc :
  0 <= pc < 2 ^ 32 ->
  well_formed
    (init_headers
       (mkPageManager id range v false pc (calc_first_page_info_index pc) 0 pc
          (replicate (Z.to_nat pc) zero_header))).
Proof.
  intros Hpc. unfold well_formed, init_headers. cbn.
  rewrite length_replicate.
  pose proof (Z.mod_pos_bound
    ((pc * sizeof_page_info_on_disk + sizeof_tsdb_header + g_page_size - 1)
       / g_page_size) (2 ^ 32) eq_refl).
  unfold calc_first_page_info_index, wrap32. repeat split; try lia.
Qed.

(** C3.  With the pool delivering the [PageInfo], [get_free_page_on_disk]
    returns a page exactly when [page_index < actual_pg_cnt] and
    [header_index < page_count] hold before the call.  On success both
    counters grow by exactly 1 and the header of the new page, the table
    entry at the old [header_index], has the old [page_index], offset 0
    and size [g_page_size]; otherwise no page is returned and nothing
    changes.  On a new file with 4 pages of 4096 bytes the first page has
    [page_index = ceil((sizeof header + 4 * sizeof page_info) / 4096)] and
    header 0, and two allocations leave [header_index = 2] and
    [page_index] two above its initial value. *)
Theorem get_free_page_on_disk_spec :
  (forall ooo pm,
     well_formed pm -> 0 <= g_page_size < 2 ^ 16 ->
     (page_index pm < actual_pg_cnt pm /\ header_index pm < page_count pm ->
      exists info pm' h,
        get_free_page_on_disk true ooo pm = (Some info, pm') /\
        page_index pm' = page_index pm + 1 /\
        header_index pm' = header_index pm + 1 /\
        m_header info = header_index pm /\
        m_page_info pm' !! Z.to_nat (m_header info) = Some h /\
        m_page_index h = page_index pm /\
        m_offset h = 0 /\
        m_size h = g_page_size) /\
     (~ (page_index pm < actual_pg_cnt pm /\ header_index pm < page_count pm) ->
      get_free_page_on_disk true ooo pm = (None, pm)))
  /\
  (forall range id v ooo1 ooo2,
     g_page_size = 4096 ->
     0 < sizeof_tsdb_header + 4 * sizeof_page_info_on_disk <= 2 * 4096 ->
     exists pm0 info1 pm1 h1 info2 pm2,
       PageManager_new range id v 4 Absent = Some pm0 /\
       header_index pm0 = 0 /\
       4096 * (page_index pm0 - 1)
         < sizeof_tsdb_header + 4 * sizeof_page_info_on_disk
         <= 4096 * page_index pm0 /\
       get_free_page_on_disk true ooo1 pm0 = (Some info1, pm1) /\
       m_header info1 = 0 /\
       m_page_info pm1 !! Z.to_nat 0 = Some h1 /\
       m_page_index h1 = page_index pm0 /\
       get_free_page_on_disk true ooo2 pm1 = (Some info2, pm2) /\
       header_index pm2 = 2 /\
       page_index pm2 = page_index pm0 + 2).
Proof.
  split.
  - intros ooo pm Hwf Hps. split.
    + intros [Hp Hh].
      destruct (get_free_page_on_disk_success ooo pm Hwf Hp Hh)
        as (info & pm' & h0 & Hg & Hh0 & Hi & _ & Hpi & Hhi & _ & _ & Ht & _).
      destruct (minted_fields pm (page_index pm) ooo h0 Hps) as (Hm1 & Hm2 & Hm3).
      exists info, pm', (minted pm (page_index pm) g_page_size ooo h0).
      repeat split; try done.
      rewrite Ht, Hi. apply list_lookup_insert_eq.
      apply lookup_lt_Some in Hh0. exact Hh0.
    + intros Hg. apply get_free_page_on_disk_failure. exact Hg.
  - intros range id v ooo1 ooo2 Hps Hsz.
    set (pm0 := init_headers
                  (mkPageManager id range v false 4 (calc_first_page_info_index 4) 0 4
                     (replicate (Z.to_nat 4) zero_header))).
    assert (well_formed pm0) as Hwf0 by (apply fresh_file_well_formed; lia).
    assert (4096 * (page_index pm0 - 1)
              < sizeof_tsdb_header + 4 * sizeof_page_info_on_disk
              <= 4096 * page_index pm0) as Hceil.
    { pose proof (calc_first_bounds 4) as Hb. cbv zeta in Hb.
      rewrite Hps in Hb. subst pm0. cbn [page_index init_headers set_page_info].
      lia. }
    assert (page_index pm0 <= 2) as Hle by lia.
    destruct (get_free_page_on_disk_success ooo1 pm0 Hwf0)
      as (info1 & pm1 & h01 & Hg1 & Hh01 & Hi1 & _ & Hpi1 & Hhi1 & Hpc1 & Hac1 & Ht1 & Hwf1);
      [subst pm0; cbn in *; lia | subst pm0; cbn; lia |].
    destruct (get_free_page_on_disk_success ooo2 pm1 Hwf1)
      as (info2 & pm2 & h02 & Hg2 & _ & _ & _ & Hpi2 & Hhi2 & _ & _ & _ & _);
      [rewrite Hpi1, Hac1; subst pm0; cbn in *; lia
      |rewrite Hhi1, Hpc1; subst pm0; cbn; lia |].
    exists pm0, info1, pm1, (minted pm0 (page_index pm0) g_page_size ooo1 h01),
      info2, pm2.
    split; [reflexivity|]. split; [reflexivity|]. split; [exact Hceil|].
    split; [exact Hg1|]. split; [exact Hi1|].
    split.
    { rewrite Ht1. apply list_lookup_insert_eq.
      apply lookup_lt_Some in Hh01. exact Hh01. }
    split; [reflexivity|]. split; [exact Hg2|].
    split; [rewrite Hhi2, Hhi1; reflexivity|].
    rewrite Hpi2, Hpi1. lia.
Qed.

(** ** The recovery scan never runs out of its fuel *)

Lemma recover_scan_wrapped fuel first pm :
  page_count pm < 2 ^ 32 ->
  recover_scan (S fuel) first (2 ^ 32 - 1) pm <> OutOfFuel.
Proof.
  intros Hpc. cbn [recover_scan].
  destruct (first <=? 2 ^ 32 - 1); [|discriminate].
  unfold get_page_info_on_disk.
  destruct (Z.ltb_spec (2 ^ 32 - 1) (page_count pm)); [lia|discriminate].
Qed.

Lemma recover_scan_fuel fuel :
  forall first id pm,
  0 <= id < 2 ^ 32 -> page_count pm < 2 ^ 32 ->
  (Z.to_nat id + 2 <= fuel)%nat ->
  recover_scan fuel first id pm <> OutOfFuel.
Proof.
  induction fuel as [|fuel IH]; intros first id pm Hid Hpc Hf; [lia|].
  cbn [recover_scan].
  destruct (first <=? id); [|discriminate].
  destruct (get_page_info_on_disk id pm) as [info|]; [|discriminate].
  destruct (negb (m_page_index info =? 0)); [discriminate|].
  destruct (Z.eq_dec id 0) as [->|Hne].
  - change (wrap32 (0 - 1)) with (2 ^ 32 - 1).
    destruct fuel as [|fuel]; [lia|]. apply recover_scan_wrapped. exact Hpc.
  - rewrite wrap32_small by lia. apply IH; lia.
Qed.

Lemma recover_never_out_of_fuel pm :
  0 <= page_index pm < 2 ^ 32 -> page_count pm < 2 ^ 32 ->
  recover_scan (Z.to_nat (page_index pm) + 1)
    (calc_first_page_info_index (page_count pm))
    (wrap32 (page_index pm - 1)) pm <> OutOfFuel.
Proof.
  intros Hpi Hpc.
  destruct (Z.eq_dec (page_index pm) 0) as [->|Hne].
  - change (wrap32 (0 - 1)) with (2 ^ 32 - 1).
    apply recover_scan_wrapped. exact Hpc.
  - rewrite wrap32_small by lia. apply recover_scan_fuel; lia.
Qed.

(** What the scan computes: it stops at the highest table index [j] in
    [first .. id] whose entry has a non-zero [m_page_index], or at
    [first - 1] when there is none; all entries above [j] are zero. *)
Lemma recover_scan_spec fuel :
  forall first id pm,
  length (m_page_info pm) = Z.to_nat (page_count pm) ->
  1 <= first -> first - 1 <= id < page_count pm -> page_count pm < 2 ^ 32 ->
  (Z.to_nat id + 2 <= fuel)%nat ->
  exists j,
    recover_scan fuel first id pm = Stopped j /\
    first - 1 <= j <= id /\
    (first <= j ->
     exists h, m_page_info pm !! Z.to_nat j = Some h /\ m_page_index h <> 0) /\
    (forall k, j < k <= id ->
     exists h, m_page_info pm !! Z.to_nat k = Some h /\ m_page_index h = 0).
Proof.
  induction fuel as [|fuel IH]; intros first id pm Hlen Hfirst Hid Hpc Hf; [lia|].
  cbn [recover_scan].
  destruct (Z.leb_spec first id) as [Hle|Hgt].
  - unfold get_page_info_on_disk.
    destruct (Z.ltb_spec id (page_count pm)); [|lia].
    destruct (lookup_lt_is_Some_2 (m_page_info pm) (Z.to_nat id)) as [h Hh]; [lia|].
    rewrite Hh.
    destruct (Z.eqb_spec (m_page_index h) 0) as [Hz|Hnz]; cbn [negb].
    + rewrite wrap32_small by lia.
      destruct (IH first (id - 1) pm Hlen Hfirst) as (j & Hj & Hr & Hinit & Hzero);
        [lia | lia | lia |].
      exists j. split; [exact Hj|]. split; [lia|]. split; [exact Hinit|].
      intros k Hk. destruct (Z.eq_dec k id) as [->|Hne].
      * exists h. done.
      * apply Hzero. lia.
    + exists id. split; [reflexivity|]. split; [lia|]. split.
      * intros _. exists h. done.
      * intros k Hk. lia.
  - exists id. split; [reflexivity|]. split; [lia|]. split; [lia|].
    intros k Hk. lia.
Qed.

(** What the recovery of the constructor does to the counters: the new
    [page_index] is one above the highest table index in
    [first .. page_index - 1] that holds an initialized entry, and [first]
    when there is none.  The table index is compared with, and stored
    into, the physical page counter; [header_index] is not touched. *)
Lemma recover_spec pm :
  let first := calc_first_page_info_index (page_count pm) in
  length (m_page_info pm) = Z.to_nat (page_count pm) ->
  page_count pm < 2 ^ 32 ->
  1 <= first <= page_index pm -> page_index pm <= page_count pm ->
  exists pm',
    recover pm = Some pm' /\
    header_index pm' = header_index pm /\
    page_count pm' = page_count pm /\
    actual_pg_cnt pm' = actual_pg_cnt pm /\
    m_page_info pm' = m_page_info pm /\
    first <= page_index pm' <= page_index pm /\
    (first < page_index pm' ->
     exists h, m_page_info pm !! Z.to_nat (page_index pm' - 1) = Some h /\
               m_page_index h <> 0) /\
    (forall k, page_index pm' <= k < page_index pm ->
     exists h, m_page_info pm !! Z.to_nat k = Some h /\ m_page_index h = 0).
Proof.
  intros first Hlen Hpc Hfirst Hpi. unfold recover. fold first.
  rewrite (wrap32_small (page_index pm - 1)) by lia.
  destruct (recover_scan_spec (Z.to_nat (page_index pm) + 1) first
              (page_index pm - 1) pm Hlen) as (j & -> & Hj & Hinit & Hzero);
    [lia | lia | lia | lia |].
  rewrite wrap32_small by lia.
  destruct (Z.eqb_spec (j + 1) (page_index pm)) as [Heq|Hne]; cbn [negb].
  - exists pm. split; [reflexivity|]. do 4 (split; [reflexivity|]).
    split; [lia|]. split.
    + intros Hlt. replace (page_index pm - 1) with j by lia. apply Hinit. lia.
    + intros k Hk. lia.
  - eexists. split; [reflexivity|]. cbn. do 4 (split; [reflexivity|]).
    split; [lia|]. split.
    + intros Hlt. replace (j + 1 - 1) with j by lia. apply Hinit. lia.
    + intros k Hk. apply Hzero. lia.
Qed.

Lemma setup_compressor_header range v info pm :
  m_header (setup_compressor range v info pm) = m_header info.
Proof.
  unfold setup_compressor.
  destruct (m_page_info pm !! Z.to_nat (m_header info)); reflexivity.
Qed.

(** C6.  A successful [get_free_page_for_compaction] with at least one
    header allocated before looks at the previous header: when its
    trailing space [g_page_size - (offset + size)] is at least 12 bytes,
    the new header gets the page index of the previous header and the
    offset [offset + size], and its own [offset + size] stays within the
    page; otherwise the new header is at offset 0 of the page after the
    previous header's page. *)
Theorem compaction_packs_into_trailing_space pm prev :
  well_formed pm ->
  0 <= g_page_size < 2 ^ 16 ->
  page_index pm < actual_pg_cnt pm ->
  header_index pm < page_count pm ->
  0 < header_index pm ->
  m_page_info pm !! Z.to_nat (header_index pm - 1) = Some prev ->
  0 <= m_offset prev -> 0 <= m_size prev ->
  m_offset prev + m_size prev < 2 ^ 16 ->
  exists info pm' h,
    get_free_page_for_compaction true pm = (Some info, pm') /\
    m_header info = header_index pm /\
    m_page_info pm' !! Z.to_nat (m_header info) = Some h /\
    (12 <= g_page_size - (m_offset prev + m_size prev) ->
     m_page_index h = m_page_index prev /\
     m_offset h = m_offset prev + m_size prev /\
     m_offset h + m_size h <= g_page_size) /\
    (g_page_size - (m_offset prev + m_size prev) < 12 ->
     m_page_index h = wrap32 (m_page_index prev + 1) /\
     m_offset h = 0 /\
     m_size h = g_page_size).
Proof.
  intros Hwf Hps Hp Hh Hpos Hprev Ho Hs Hos.
  destruct (lookup_header_in_range pm (header_index pm) Hwf) as [h0 Hh0];
    [destruct Hwf as (? & ? & ? & ? & ?); lia|].
  destruct Hwf as (Hpc & Hac & Hpi & Hhi & Hlen).
  assert (Z.to_nat (header_index pm) <> Z.to_nat (header_index pm - 1)) as Hne by lia.
  unfold get_free_page_for_compaction. cbn [negb].
  rewrite guard_true by done.
  unfold init_for_disk. fold (minted pm (page_index pm) g_page_size false).
  destruct (Z.ltb_spec 0 (header_index pm)); [|lia].
  unfold get_page_info_on_disk, update_header.
  cbn [m_header m_page_info set_page_info set_counters page_index header_index
       page_count actual_pg_cnt m_time_range pi_time_range].
  destruct (Z.ltb_spec (header_index pm - 1) (page_count pm)); [|lia].
  rewrite list_lookup_alter_ne, Hprev by done.
  rewrite (wrap16_small (m_offset prev + m_size prev)) by lia.
  destruct (minted_fields pm (page_index pm) false h0 Hps) as (Hm1 & Hm2 & Hm3).
  destruct (Z.leb_spec 12 (g_page_size - (m_offset prev + m_size prev))) as [Hge|Hlt].
  - eexists _, _, _. split; [reflexivity|].
    rewrite setup_compressor_header. split; [reflexivity|].
    cbn [m_header m_page_info set_page_info].
    split.
    { rewrite !list_lookup_alter_eq, Hh0. reflexivity. }
    split; [|lia]. intros _. cbn.
    rewrite wrap16_small by lia. lia.
  - eexists _, _, _. split; [reflexivity|].
    rewrite setup_compressor_header. split; [reflexivity|].
    cbn [m_header m_page_info set_page_info].
    split.
    { rewrite !list_lookup_alter_eq, Hh0. reflexivity. }
    split; [lia|]. intros _. cbn.
    rewrite wrap16_small by lia. done.
Qed.

Lemma wrap32_succ_le x limit : 0 <= x -> x < limit -> wrap32 (x + 1) <= limit.
Proof.
  intros H0 Hlt. unfold wrap32.
  pose proof (Z.mod_le (x + 1) (2 ^ 32)). lia.
Qed.

Lemma calc_first_le_page_count pc :
  1 <= pc < 2 ^ 32 ->
  0 < sizeof_tsdb_header -> 0 <= sizeof_page_info_on_disk ->
  sizeof_tsdb_header + sizeof_page_info_on_disk <= g_page_size ->
  1 <= calc_first_page_info_index pc <= pc.
Proof.
  intros Hpc HH HS Hfit. unfold calc_first_page_info_index.
  set (a := pc * sizeof_page_info_on_disk + sizeof_tsdb_header).
  assert (1 <= a <= pc * g_page_size) as Ha by (subst a; nia).
  assert (1 <= (a + g_page_size - 1) / g_page_size <= pc) as Hq.
  { split.
    - apply Z.div_le_lower_bound; lia.
    - apply Z.lt_succ_r. apply Z.div_lt_upper_bound; nia. }
  rewrite wrap32_small by lia. exact Hq.
Qed.

(** C7.  [header_index <= page_count] and [page_index <= actual_pg_cnt]
    hold for a newly created file (with at least one page, and a page
    size that holds the file header and one page-info record), and both
    allocation functions preserve them, whether they return a page or
    not. *)
Theorem counters_stay_within_bounds :
  (forall range id v pc file,
     file = Absent \/ file = Empty ->
     1 <= pc < 2 ^ 32 ->
     0 < sizeof_tsdb_header -> 0 <= sizeof_page_info_on_disk ->
     sizeof_tsdb_header + sizeof_page_info_on_disk <= g_page_size ->
     exists pm, PageManager_new range id v pc file = Some pm /\ counters_ok pm)
  /\
  (forall pool ooo pm,
     0 <= page_index pm -> 0 <= header_index pm ->
     counters_ok pm -> counters_ok (snd (get_free_page_on_disk pool ooo pm)))
  /\
  (forall pool pm,
     0 <= page_index pm -> 0 <= header_index pm ->
     counters_ok pm -> counters_ok (snd (get_free_page_for_compaction pool pm))).
Proof.
  split; [|split].
  - intros range id v pc file Hfile Hpc HH HS Hfit.
    pose proof (calc_first_le_page_count pc Hpc HH HS Hfit) as Hfirst.
    destruct Hfile as [-> | ->].
    + eexists. split; [reflexivity|].
      unfold counters_ok. cbn. lia.
    + unfold PageManager_new, open_mmap, recover.
      cbn [page_index page_count header_index].
      set (first := calc_first_page_info_index pc) in *.
      assert (wrap32 (first - 1) = first - 1) as ->.
      { apply wrap32_small. lia. }
      assert (recover_scan (Z.to_nat first + 1) first (first - 1)
                (mkPageManager id range v false pc first 0 pc
                   (replicate (Z.to_nat pc) zero_header)) = Stopped (first - 1)) as ->.
      { cbn [Nat.add recover_scan]. replace (Z.to_nat first + 1)%nat
          with (S (Z.to_nat first)) by lia. cbn [recover_scan].
        destruct (Z.leb_spec first (first - 1)); [lia|]. reflexivity. }
      replace (first - 1 + 1) with first by lia.
      rewrite wrap32_small by lia. rewrite Z.eqb_refl. cbn [negb].
      eexists. split; [reflexivity|]. unfold counters_ok. cbn. lia.
  - intros pool ooo pm Hpi Hhi [Hh Hp]. unfold get_free_page_on_disk.
    destruct pool; cbn [negb]; [|done].
    destruct (Z.ltb_spec (page_index pm) (actual_pg_cnt pm));
      destruct (Z.ltb_spec (header_index pm) (page_count pm));
      cbn [andb]; try done.
    unfold counters_ok. cbn. split; apply wrap32_succ_le; done.
  - intros pool pm Hpi Hhi [Hh Hp]. unfold get_free_page_for_compaction.
    destruct pool; cbn [negb]; [|done].
    destruct (Z.ltb_spec (page_index pm) (actual_pg_cnt pm));
      destruct (Z.ltb_spec (header_index pm) (page_count pm));
      cbn [andb]; try done.
    cbn [init_for_disk snd].
    assert (forall f k pm0, counters_ok pm0 -> counters_ok (update_header k f pm0))
      as Hupd by (intros f k pm0 Hok; exact Hok).
    assert (counters_ok
              (set_counters
                 (wrap32 (page_index (update_header (header_index pm)
                    (minted pm (page_index pm) g_page_size false) pm) + 1))
                 (wrap32 (header_index (update_header (header_index pm)
                    (minted pm (page_index pm) g_page_size false) pm) + 1))
                 (update_header (header_index pm)
                    (minted pm (page_index pm) g_page_size false) pm))) as Hok2.
    { unfold counters_ok. cbn. split; apply wrap32_succ_le; done. }
    unfold init_for_disk. fold (minted pm (page_index pm) g_page_size false).
    cbn [snd m_header].
    destruct (0 <? header_index pm); [|exact Hok2].
    destruct (get_page_info_on_disk _ _) as [header|]; [|exact Hok2].
    destruct (12 <=? _); apply Hupd; exact Hok2.
Qed.

(** C10.  A [PageInfo] without a compressor, such as the read-view that
    [init_from_disk] and [get_the_page_on_disk] produce, refuses the
    point: [add_data_point] returns [false] and neither the mapped
    headers nor the in-memory time range change. *)
Theorem add_data_point_without_compressor :
  (forall tstamp value info pm,
     m_compressor info = None ->
     add_data_point tstamp value info pm = (false, info, pm))
  /\
  (forall tstamp value pm header h,
     add_data_point tstamp value (init_from_disk pm header h) pm =
     (false, init_from_disk pm header h, pm))
  /\
  (forall tstamp value pm header_index info,
     get_the_page_on_disk header_index pm = Some info ->
     add_data_point tstamp value info pm = (false, info, pm) /\
     pi_time_range (snd (fst (add_data_point tstamp value info pm)))
       = pi_time_range info /\
     m_page_info (snd (add_data_point tstamp value info pm)) = m_page_info pm).
Proof.
  assert (forall tstamp value info pm,
            m_compressor info = None ->
            add_data_point tstamp value info pm = (false, info, pm)) as Hnone.
  { intros tstamp value info pm Hc. unfold add_data_point. rewrite Hc. reflexivity. }
  split; [exact Hnone|]. split.
  - intros. apply Hnone. reflexivity.
  - intros tstamp value pm hidx info Hget.
    assert (m_compressor info = None) as Hc.
    { unfold get_the_page_on_disk in Hget.
      destruct (page_count pm <=? hidx); [discriminate|].
      destruct (get_page_info_on_disk hidx pm); [|discriminate].
      injection Hget as <-. reflexivity. }
    rewrite (Hnone _ _ _ _ Hc). done.
Qed.

(** ** Further properties of the page manager *)

Lemma get_free_page_for_compaction_failure pool pm :
  ~ (page_index pm < actual_pg_cnt pm /\ header_index pm < page_count pm) ->
  get_free_page_for_compaction pool pm = (None, pm).
Proof.
  intros Hg. unfold get_free_page_for_compaction.
  destruct pool; [|reflexivity]. cbn [negb]. rewrite guard_false by done. reflexivity.
Qed.

Lemma dense_new_file range id v pc :
  1 <= pc < 2 ^ 32 ->
  0 < sizeof_tsdb_header -> 0 <= sizeof_page_info_on_disk ->
  sizeof_tsdb_header + sizeof_page_info_on_disk <= g_page_size ->
  exists pm0,
    PageManager_new range id v pc Absent = Some pm0 /\
    dense pm0 /\ page_count pm0 = pc /\ actual_pg_cnt pm0 = pc.
Proof.
  intros Hpc HH HS Hfit. eexists. split; [reflexivity|].
  pose proof (calc_first_le_page_count pc Hpc HH HS Hfit) as Hfirst.
  split; [|split; reflexivity]. unfold dense.
  split; [apply fresh_file_well_formed; lia|].
  cbn [init_headers set_page_info page_count page_index header_index actual_pg_cnt
       m_page_info].
  split; [lia|]. split; [lia|]. intros k h Hk. lia.
Qed.

Lemma dense_step pool ooo pm :
  0 <= g_page_size < 2 ^ 16 -> dense pm ->
  dense (snd (get_free_page_on_disk pool ooo pm)) /\
  page_count (snd (get_free_page_on_disk pool ooo pm)) = page_count pm /\
  actual_pg_cnt (snd (get_free_page_on_disk pool ooo pm)) = actual_pg_cnt pm.
Proof.
  intros Hps Hd.
  destruct pool; [|done].
  destruct (decide (page_index pm < actual_pg_cnt pm /\ header_index pm < page_count pm))
    as [[Hp Hh]|Hno]; [|rewrite get_free_page_on_disk_failure by done; done].
  destruct Hd as (Hwf & Hpi & Hle & Hall).
  destruct (get_free_page_on_disk_success ooo pm Hwf Hp Hh)
    as (info & pm' & h0 & Hg & Hh0 & _ & _ & Hpi' & Hhi' & Hpc' & Hac' & Ht & Hwf').
  rewrite Hg. cbn [snd]. split; [|done].
  unfold dense. rewrite Hpc', Hpi', Hhi', Hac'.
  split; [exact Hwf'|]. split; [lia|]. split; [lia|].
  intros k h Hk Hlk. rewrite Ht in Hlk.
  destruct Hwf as (_ & _ & _ & Hhi & _).
  destruct (Z.eq_dec k (header_index pm)) as [->|Hne].
  - rewrite list_lookup_insert_eq in Hlk by (apply lookup_lt_Some in Hh0; exact Hh0).
    injection Hlk as <-.
    destruct (minted_fields pm (page_index pm) ooo h0 Hps) as (Hm1 & Hm2 & Hm3).
    rewrite Hm1, Hm2, Hm3. done.
  - rewrite list_lookup_insert_ne in Hlk by lia. apply Hall; [lia|exact Hlk].
Qed.

Lemma dense_allocate_all calls :
  forall pm,
  0 <= g_page_size < 2 ^ 16 -> dense pm ->
  dense (allocate_all calls pm) /\
  page_count (allocate_all calls pm) = page_count pm /\
  actual_pg_cnt (allocate_all calls pm) = actual_pg_cnt pm.
Proof.
  induction calls as [|[pool ooo] rest IH]; intros pm Hps Hd; [done|].
  cbn [allocate_all].
  destruct (dense_step pool ooo pm Hps Hd) as (Hd1 & Hpc1 & Hac1).
  destruct (IH _ Hps Hd1) as (Hd2 & Hpc2 & Hac2).
  split; [exact Hd2|]. split; congruence.
Qed.

(** X6.  Whatever sequence of [get_free_page_on_disk] calls follows the
    creation of a file of less than 4 GiB, [page_index = first +
    header_index], and every header [k] in use (there is one for each [k]
    below [header_index]) owns the whole physical page [first + k]: its
    page index is [first + k], its offset 0 and its size [g_page_size],
    and its byte window starts at [(first + k) * g_page_size], after the
    page-info table, and ends inside the file.  Hence the windows of two
    different headers in use do not overlap. *)
Theorem pages_of_a_new_file_do_not_overlap range id v pc calls pm0 :
  1 <= pc < 2 ^ 32 ->
  0 < sizeof_tsdb_header -> 0 <= sizeof_page_info_on_disk ->
  sizeof_tsdb_header + sizeof_page_info_on_disk <= g_page_size < 2 ^ 16 ->
  pc * g_page_size <= 2 ^ 32 ->
  PageManager_new range id v pc Absent = Some pm0 ->
  let pm := allocate_all calls pm0 in
  let first := calc_first_page_info_index pc in
  page_index pm = first + header_index pm /\
  first + header_index pm <= pc /\
  (forall k, 0 <= k < header_index pm ->
     exists h,
       m_page_info pm !! Z.to_nat k = Some h /\
       m_page_index h = first + k /\ m_offset h = 0 /\ m_size h = g_page_size /\
       get_page h = (first + k) * g_page_size /\
       first * g_page_size <= get_page h /\
       get_page h + m_size h <= pc * g_page_size) /\
  (forall j k hj hk,
     0 <= j < k -> k < header_index pm ->
     m_page_info pm !! Z.to_nat j = Some hj ->
     m_page_info pm !! Z.to_nat k = Some hk ->
     get_page hj + m_size hj <= get_page hk).
Proof.
  intros Hpc HH HS Hfit Hsmall Hnew pm first.
  destruct (dense_new_file range id v pc Hpc HH HS) as (pm0' & Hnew' & Hd0 & Hpc0 & Hac0);
    [lia|].
  rewrite Hnew in Hnew'. injection Hnew' as <-.
  destruct (dense_allocate_all calls pm0) as (Hd & Hpcn & Hacn); [lia | exact Hd0 |].
  fold pm in Hd, Hpcn, Hacn.
  destruct Hd as (Hwf & Hpi & Hle & Hall).
  rewrite Hpcn, Hpc0 in Hpi, Hall. fold first in Hpi, Hall.
  rewrite Hacn, Hac0 in Hle.
  assert (1 <= first <= pc) as Hfirst
    by (apply calc_first_le_page_count; try done; lia).
  assert (forall k h, 0 <= k < header_index pm ->
            m_page_info pm !! Z.to_nat k = Some h ->
            get_page h = (first + k) * g_page_size /\ m_size h = g_page_size) as Hwin.
  { intros k h Hk Hh. destruct (Hall k h Hk Hh) as (H1 & H2 & H3).
    unfold get_page. rewrite H1, H2, H3.
    rewrite wrap32_small by nia. lia. }
  split; [exact Hpi|]. split; [lia|]. split.
  - intros k Hk.
    destruct (lookup_header_in_range pm k Hwf) as [h Hh]; [rewrite Hpcn, Hpc0; lia|].
    destruct (Hall k h Hk Hh) as (H1 & H2 & H3).
    destruct (Hwin k h Hk Hh) as (Hg & _).
    exists h. rewrite Hg, H3. repeat split; try done; nia.
  - intros j k hj hk Hjk Hk Hj Hkk.
    destruct (Hwin j hj) as (Hgj & Hsj); [lia | exact Hj |].
    destruct (Hwin k hk) as (Hgk & _); [lia | exact Hkk |].
    rewrite Hgj, Hsj, Hgk. nia.
Qed.

Lemma shrink_to_fit_result pm h :
  well_formed pm -> 0 < header_index pm -> header_index pm <= page_count pm ->
  m_page_info pm !! Z.to_nat (header_index pm - 1) = Some h ->
  0 <= m_page_index h < 2 ^ 32 - 1 ->
  shrink_to_fit pm =
  Some (persist_compacted_flag true (set_actual_pg_cnt (m_page_index h + 1) pm)).
Proof.
  intros (Hpc & Hac & Hpi & Hhi & Hlen) Hpos Hle Hh Hidx.
  unfold shrink_to_fit, get_page_info_on_disk.
  rewrite (wrap32_small (header_index pm - 1)) by lia.
  destruct (Z.ltb_spec (header_index pm - 1) (page_count pm)); [|lia].
  rewrite Hh. rewrite wrap32_small by lia. reflexivity.
Qed.

(** X7.  [PageManager::shrink_to_fit] on a file without a header in use
    trips the assertion of [get_page_info_on_disk] (it asks for header
    2^32 - 1).  With a header in use, whose last one lies on a page below
    [page_index], it sets [actual_pg_cnt] to the page after that header's
    page and the compacted flag, leaves the other counters and the table
    alone, and closes the file for allocation: from then on neither
    allocator returns a page. *)
Theorem shrink_to_fit_closes_the_file :
  (forall pm,
     header_index pm = 0 -> page_count pm < 2 ^ 32 -> shrink_to_fit pm = None)
  /\
  (forall pm h,
     well_formed pm -> 0 < header_index pm -> header_index pm <= page_count pm ->
     m_page_info pm !! Z.to_nat (header_index pm - 1) = Some h ->
     0 <= m_page_index h < page_index pm ->
     exists pm',
       shrink_to_fit pm = Some pm' /\
       actual_pg_cnt pm' = m_page_index h + 1 /\
       m_compacted pm' = true /\
       page_index pm' = page_index pm /\
       header_index pm' = header_index pm /\
       page_count pm' = page_count pm /\
       m_page_info pm' = m_page_info pm /\
       (forall pool ooo, get_free_page_on_disk pool ooo pm' = (None, pm')) /\
       (forall pool, get_free_page_for_compaction pool pm' = (None, pm'))).
Proof.
  split.
  - intros pm Hz Hpc. unfold shrink_to_fit, get_page_info_on_disk. rewrite Hz.
    change (wrap32 (0 - 1)) with (2 ^ 32 - 1).
    destruct (Z.ltb_spec (2 ^ 32 - 1) (page_count pm)); [lia|reflexivity].
  - intros pm h Hwf Hpos Hle Hh Hidx.
    assert (0 <= m_page_index h < 2 ^ 32 - 1) as Hb
      by (destruct Hwf as (_ & _ & ? & _); lia).
    eexists. split; [apply (shrink_to_fit_result pm h); done|].
    cbn [persist_compacted_flag set_actual_pg_cnt actual_pg_cnt m_compacted page_index
         header_index page_count m_page_info].
    do 6 (split; [reflexivity|]). split.
    + intros pool ooo. apply get_free_page_on_disk_failure. cbn. lia.
    + intros pool. apply get_free_page_for_compaction_failure. cbn. lia.
Qed.

Lemma to_int_small z : 0 <= z < 2 ^ 31 -> to_int z = z.
Proof. intros Hz. unfold to_int. destruct (Z.ltb_spec z (2 ^ 31)); lia. Qed.

Lemma get_page_order_small h pm :
  0 <= m_id pm -> 0 <= m_page_index h < page_count pm ->
  (m_id pm + 1) * page_count pm <= 2 ^ 31 ->
  get_page_order h pm = m_id pm * page_count pm + m_page_index h.
Proof.
  intros Hid Hidx Hb. unfold get_page_order, get_file_id.
  assert (0 <= m_id pm * page_count pm) by nia.
  assert (m_id pm * page_count pm + m_page_index h < 2 ^ 31) by nia.
  rewrite (wrap32_small (m_id pm * page_count pm)) by lia.
  rewrite wrap32_small by lia. apply to_int_small. lia.
Qed.

(** X8.  [get_page_order] sorts pages by data file first and physical
    page second: for two pages of files with the same page count, with
    [(file id + 1) * page_count] within the range of [int], one order is
    below the other exactly when its file id is smaller, or the file is the
    same and its page index is smaller. *)
Theorem get_page_order_sorts_by_file_then_page pm1 pm2 h1 h2 :
  page_count pm1 = page_count pm2 ->
  0 <= m_id pm1 -> 0 <= m_id pm2 ->
  0 <= m_page_index h1 < page_count pm1 ->
  0 <= m_page_index h2 < page_count pm2 ->
  (m_id pm1 + 1) * page_count pm1 <= 2 ^ 31 ->
  (m_id pm2 + 1) * page_count pm2 <= 2 ^ 31 ->
  (get_page_order h1 pm1 < get_page_order h2 pm2 <->
   m_id pm1 < m_id pm2 \/
   (m_id pm1 = m_id pm2 /\ m_page_index h1 < m_page_index h2)).
Proof.
  intros Hpc Hid1 Hid2 Hi1 Hi2 Hb1 Hb2.
  rewrite !get_page_order_small by done. rewrite <- Hpc in *.
  set (pc := page_count pm1) in *.
  split.
  - intros Hlt. destruct (Z.lt_trichotomy (m_id pm1) (m_id pm2)) as [Hl|[He|Hg]].
    + left. exact Hl.
    + right. split; [exact He|]. rewrite He in Hlt. lia.
    + exfalso. assert ((m_id pm2 + 1) * pc <= m_id pm1 * pc) by nia. lia.
  - intros [Hl|[He Hl]].
    + assert ((m_id pm1 + 1) * pc <= m_id pm2 * pc) by nia. lia.
    + rewrite He. lia.
Qed.

Lemma set_out_of_order_round_trip ooo h :
  is_out_of_order (set_out_of_order ooo h) = ooo.
Proof.
  unfold is_out_of_order, set_out_of_order. cbn [m_flags].
  destruct ooo.
  - rewrite Z.lor_spec. apply orb_true_r.
  - rewrite Z.land_spec. apply andb_false_r.
Qed.

(** X9.  The page [get_free_page_on_disk] returns carries a compressor
    initialized over the page it was given: [g_page_size] bytes at the
    byte offset [get_page] computes for page [page_index], which is
    [page_index * g_page_size] reduced modulo 2^32, and that is
    [page_index * g_page_size] itself in a file of at most 4 GiB; it
    starts at the beginning of the file's time range.  The out-of-order
    flag written to the header is the one read back, so an out-of-order
    page always gets version 0 and any other page the version of the
    manager.  Its own time range is the inverted range of the file. *)
Theorem allocated_page_compressor_covers_its_page ooo pm :
  well_formed pm -> 0 <= g_page_size < 2 ^ 16 ->
  page_index pm < actual_pg_cnt pm -> header_index pm < page_count pm ->
  fst (get_free_page_on_disk true ooo pm) =
  Some (mkPageInfo (header_index pm)
          (Some (compressor_init (if ooo then 0 else m_compressor_version pm)
                   (tr_from (m_time_range pm))
                   (wrap32 (page_index pm * g_page_size)) g_page_size))
          (mkTimeRange (tr_to (m_time_range pm)) (tr_from (m_time_range pm)))) /\
  (actual_pg_cnt pm * g_page_size <= 2 ^ 32 ->
   wrap32 (page_index pm * g_page_size) = page_index pm * g_page_size).
Proof.
  intros Hwf Hps Hp Hh.
  split;
    [|intros Hsmall; destruct Hwf as (_ & _ & ? & _); apply wrap32_small; nia].
  destruct (lookup_header_in_range pm (header_index pm) Hwf) as [h0 Hh0];
    [destruct Hwf as (? & ? & ? & ? & ?); lia|].
  unfold get_free_page_on_disk. cbn [negb]. rewrite guard_true by done.
  unfold init_for_disk, setup_compressor, update_header.
  cbn [m_header m_page_info set_page_info set_counters fst pi_time_range].
  rewrite list_lookup_alter_eq, Hh0. cbn [fmap option_fmap option_map].
  fold (minted pm (page_index pm) g_page_size ooo h0).
  destruct (minted_fields pm (page_index pm) ooo h0 Hps) as (Hm1 & Hm2 & Hm3).
  unfold get_page. rewrite Hm1, Hm2, Hm3, Z.add_0_r.
  assert (is_out_of_order (minted pm (page_index pm) g_page_size ooo h0) = ooo) as ->.
  { unfold minted.
    change (is_out_of_order (set_size ?a (set_offset ?b (set_page_index ?c ?x))))
      with (is_out_of_order x).
    apply set_out_of_order_round_trip. }
  destruct ooo; reflexivity.
Qed.


(** X11.  Opening an existing file takes the page count, the compressor
    version and the compacted flag from the file, not from the
    configuration, keeps [header_index], [actual_pg_cnt] and the page-info
    table, and never raises [page_index]; a file written with the other
    timestamp resolution is refused. *)
Theorem reopening_an_existing_file :
  (forall range id v pc f,
     f_millisecond f <> g_tstamp_resolution_ms ->
     PageManager_new range id v pc (Existing f) = None)
  /\
  (forall range id v pc pm,
     well_formed pm ->
     1 <= calc_first_page_info_index (page_count pm) <= page_index pm ->
     page_index pm <= page_count pm ->
     exists pm',
       PageManager_new range id v pc (Existing (file_of pm)) = Some pm' /\
       m_id pm' = id /\ m_time_range pm' = range /\
       page_count pm' = page_count pm /\
       m_compressor_version pm' = m_compressor_version pm /\
       m_compacted pm' = m_compacted pm /\
       header_index pm' = header_index pm /\
       actual_pg_cnt pm' = actual_pg_cnt pm /\
       m_page_info pm' = m_page_info pm /\
       calc_first_page_info_index (page_count pm) <= page_index pm' <= page_index pm).
Proof.
  split.
  - intros range id v pc f Hne. unfold PageManager_new, open_mmap.
    destruct g_tstamp_resolution_ms, (f_millisecond f); done.
  - intros range id v pc pm (Hpc & Hac & Hpi & Hhi & Hlen) Hfirst Hle.
    unfold PageManager_new, open_mmap, file_of.
    cbn [f_millisecond f_compressor_version f_compacted f_page_count f_page_index
         f_header_index f_actual_pg_cnt f_page_info].
    rewrite Bool.eqb_reflx. cbn [negb].
    set (pm1 := mkPageManager id range (m_compressor_version pm) (m_compacted pm)
                  (page_count pm) (page_index pm) (header_index pm) (actual_pg_cnt pm)
                  (m_page_info pm)).
    destruct (recover_spec pm1)
      as (pm' & Hrec & Hhi' & Hpc' & Hac' & Ht' & Hpi' & _); try (cbn; done || lia).
    exists pm'. split; [exact Hrec|].
    assert (m_id pm' = id /\ m_time_range pm' = range /\
            m_compressor_version pm' = m_compressor_version pm /\
            m_compacted pm' = m_compacted pm) as (? & ? & ? & ?).
    { unfold recover in Hrec. destruct (recover_scan _ _ _ _); try discriminate.
      destruct (negb _); injection Hrec as <-; done. }
    repeat split; try done; cbn in *; lia.
Qed.

(** X12.  [shrink_to_fit] does not keep [page_index <= actual_pg_cnt].
    [get_free_page_for_compaction] raises [page_index] also when it packs
    the new header into the page of the previous one; [shrink_to_fit]
    then sets [actual_pg_cnt] to the page after the last header's page,
    which is below [page_index]. *)
Theorem shrink_to_fit_after_packing_leaves_page_index_above pm prev :
  well_formed pm ->
  0 <= g_page_size < 2 ^ 16 ->
  page_index pm < actual_pg_cnt pm ->
  header_index pm < page_count pm ->
  0 < header_index pm ->
  m_page_info pm !! Z.to_nat (header_index pm - 1) = Some prev ->
  0 <= m_offset prev -> 0 <= m_size prev ->
  12 <= g_page_size - (m_offset prev + m_size prev) ->
  0 <= m_page_index prev < page_index pm ->
  exists info pm1 pm2,
    get_free_page_for_compaction true pm = (Some info, pm1) /\
    shrink_to_fit pm1 = Some pm2 /\
    page_index pm2 = page_index pm + 1 /\
    actual_pg_cnt pm2 = m_page_index prev + 1 /\
    ~ counters_ok pm2.
Proof.
  intros Hwf Hps Hp Hh Hpos Hprev Ho Hs Hsp Hidx.
  destruct (lookup_header_in_range pm (header_index pm) Hwf) as [h0 Hh0];
    [destruct Hwf as (? & ? & ? & ? & ?); lia|].
  destruct Hwf as (Hpc & Hac & Hpi & Hhi & Hlen).
  assert (Z.to_nat (header_index pm) <> Z.to_nat (header_index pm - 1)) as Hne by lia.
  unfold get_free_page_for_compaction. cbn [negb].
  rewrite guard_true by done.
  unfold init_for_disk. fold (minted pm (page_index pm) g_page_size false).
  destruct (Z.ltb_spec 0 (header_index pm)); [|lia].
  unfold get_page_info_on_disk, update_header.
  cbn [m_header m_page_info set_page_info set_counters page_index header_index
       page_count actual_pg_cnt m_time_range pi_time_range].
  destruct (Z.ltb_spec (header_index pm - 1) (page_count pm)); [|lia].
  rewrite list_lookup_alter_ne, Hprev by done.
  rewrite (wrap16_small (m_offset prev + m_size prev)) by lia.
  destruct (Z.leb_spec 12 (g_page_size - (m_offset prev + m_size prev))); [|lia].
  rewrite !wrap32_small by lia.
  eexists _, _, _. split; [reflexivity|].
  unfold shrink_to_fit, get_page_info_on_disk.
  cbn [m_page_info set_page_info set_counters header_index page_count].
  replace (header_index pm + 1 - 1) with (header_index pm) by lia.
  rewrite (wrap32_small (header_index pm)) by lia.
  destruct (Z.ltb_spec (header_index pm) (page_count pm)); [|lia].
  rewrite !list_lookup_alter_eq, Hh0. cbn [fmap option_fmap option_map].
  cbn [m_page_index set_size set_offset set_page_index].
  rewrite wrap32_small by lia.
  split; [reflexivity|].
  unfold counters_ok.
  cbn [persist_compacted_flag set_actual_pg_cnt set_page_info set_counters page_index
       actual_pg_cnt header_index page_count].
  split; [reflexivity|]. split; [reflexivity|]. lia.
Qed.

End WithEnvironment.

(** C2 (the code departs from the claim).  A file with 4 pages of 4096
    bytes, a 40-byte file header and 20-byte page-info records has its
    first data page at index 1 ([fresh]).  After three allocations the
    headers 0, 1 and 2 own the pages 1, 2 and 3, [page_index = 4] and
    [header_index = 3] ([used]).

    - Reopening the intact file ([reopened_intact]) already changes
      [page_index] to 3, although no allocated header is uninitialized.
    - When the third header was lost and is still zero ([reopened_lost]),
      reopening sets [page_index] to 2, not to 3, and leaves
      [header_index] at 3: the next allocation does not reuse the third
      slot but takes header 3 and page 2, the page header 1 owns.

    The scan reads the table entries [page_index - 1] down to the first
    data page index: it indexes the page-info table, which allocation
    fills by [header_index], with physical page indices (see
    [recover_spec]).  Each line below gives [page_index], [header_index]
    and the [m_page_index] fields of the table. *)
Theorem recovery_indexes_headers_by_page_index :
  let open := PageManager_new 4096 40 20 false hour 0 1 4 in
  let alloc := get_free_page_on_disk 4096 clear_header unit unit_compressor_init
                 true false in
  let counters := fun pm =>
    (page_index pm, header_index pm, map m_page_index (m_page_info pm)) in
  let fresh := open Absent in
  let used := option_map (fun pm => snd (alloc (snd (alloc (snd (alloc pm))))))
                fresh in
  let reopened_intact :=
    match used with
    | Some pm => open (Existing (file_of false pm))
    | None => None
    end in
  let reopened_lost :=
    match used with
    | Some pm => open (Existing (lose_header 2 (file_of false pm)))
    | None => None
    end in
  option_map counters fresh = Some (1, 0, [0; 0; 0; 0]) /\
  option_map counters used = Some (4, 3, [1; 2; 3; 0]) /\
  option_map counters reopened_intact = Some (3, 3, [1; 2; 3; 0]) /\
  option_map counters reopened_lost = Some (2, 3, [1; 2; 0; 0]) /\
  option_map
    (fun pm => (option_map (m_header unit) (fst (alloc pm)), counters (snd (alloc pm))))
    reopened_lost
  = Some (Some 3, (3, 4, [1; 2; 0; 2])).
Proof.
  cbv zeta. repeat split; vm_compute; reflexivity.
Qed.

Lemma one_short_page_well_formed : well_formed one_short_page.
Proof. unfold well_formed. cbn. repeat split; try done. Qed.

Lemma get_free_page_on_disk_spec_witness :
  exists pm0 info1 pm1 h1 info2 pm2,
    PageManager_new 4096 40 20 false hour 0 1 4 Absent = Some pm0 /\
    header_index pm0 = 0 /\
    4096 * (page_index pm0 - 1) < 40 + 4 * 20 <= 4096 * page_index pm0 /\
    get_free_page_on_disk 4096 clear_header unit unit_compressor_init true false pm0
      = (Some info1, pm1) /\
    m_header unit info1 = 0 /\
    m_page_info pm1 !! Z.to_nat 0 = Some h1 /\
    m_page_index h1 = page_index pm0 /\
    get_free_page_on_disk 4096 clear_header unit unit_compressor_init true true pm1
      = (Some info2, pm2) /\
    header_index pm2 = 2 /\
    page_index pm2 = page_index pm0 + 2.
Proof.
  apply (proj2 (get_free_page_on_disk_spec 4096 40 20 false clear_header unit
                  unit_compressor_init) hour 0 1 false true).
  - reflexivity.
  - lia.
Defined.

Lemma compaction_packs_into_trailing_space_witness :
  exists info pm' h,
    get_free_page_for_compaction 4096 clear_header unit unit_compressor_init true
      one_short_page = (Some info, pm') /\
    m_header unit info = header_index one_short_page /\
    m_page_info pm' !! Z.to_nat (m_header unit info) = Some h /\
    (12 <= 4096 - (m_offset header_800 + m_size header_800) ->
     m_page_index h = m_page_index header_800 /\
     m_offset h = m_offset header_800 + m_size header_800 /\
     m_offset h + m_size h <= 4096) /\
    (4096 - (m_offset header_800 + m_size header_800) < 12 ->
     m_page_index h = wrap32 (m_page_index header_800 + 1) /\
     m_offset h = 0 /\
     m_size h = 4096).
Proof.
  apply (compaction_packs_into_trailing_space 4096 clear_header unit
           unit_compressor_init one_short_page header_800).
  - exact one_short_page_well_formed.
  - split; [discriminate|reflexivity].
  - reflexivity.
  - reflexivity.
  - reflexivity.
  - reflexivity.
  - discriminate.
  - discriminate.
  - reflexivity.
Defined.

Lemma counters_stay_within_bounds_witness :
  (exists pm,
     PageManager_new 4096 40 20 false hour 0 1 4 Absent = Some pm /\ counters_ok pm)
  /\
  counters_ok
    (snd (get_free_page_for_compaction 4096 clear_header unit unit_compressor_init
            true one_short_page)).
Proof.
  pose proof (counters_stay_within_bounds 4096 40 20 false clear_header unit
                unit_compressor_init) as (Hnew & _ & Hcomp).
  split.
  - apply Hnew; [left; reflexivity | split; [discriminate|reflexivity]
                | reflexivity | discriminate | discriminate].
  - apply Hcomp; [discriminate | discriminate | split; discriminate].
Defined.

Lemma add_data_point_without_compressor_witness :
  add_data_point unit unit_compress 1000 1%float
    (init_from_disk unit one_short_page 0 header_800) one_short_page =
  (false, init_from_disk unit one_short_page 0 header_800, one_short_page).
Proof.
  apply (proj2 (proj2 (add_data_point_without_compressor unit unit_compress))
           1000 1%float one_short_page 0).
  reflexivity.
Defined.

Lemma pages_of_a_new_file_do_not_overlap_witness :
  let pm := allocate_all 4096 clear_header unit unit_compressor_init
              [(true, false); (false, false); (true, true)]
              (mkPageManager 0 hour 1 false 4 1 0 4
                 [zero_header; zero_header; zero_header; zero_header]) in
  let first := calc_first_page_info_index 4096 40 20 4 in
  let h0 := mkPageInfoOnDisk 1 0 4096 0 0 0 0 0 in
  let h1 := mkPageInfoOnDisk 2 0 4096 0 0 2 0 0 in
  page_index pm = first + header_index pm /\
  first + header_index pm <= 4 /\
  (exists h,
     m_page_info pm !! Z.to_nat 1 = Some h /\
     m_page_index h = first + 1 /\ m_offset h = 0 /\ m_size h = 4096 /\
     get_page 4096 h = (first + 1) * 4096 /\
     first * 4096 <= get_page 4096 h /\
     get_page 4096 h + m_size h <= 4 * 4096) /\
  get_page 4096 h0 + m_size h0 <= get_page 4096 h1.
Proof.
  intros pm first h0 h1.
  destruct (pages_of_a_new_file_do_not_overlap 4096 40 20 false clear_header unit
              unit_compressor_init hour 0 1 4
              [(true, false); (false, false); (true, true)]
              (mkPageManager 0 hour 1 false 4 1 0 4
                 [zero_header; zero_header; zero_header; zero_header]))
    as (Hidx & Hle & Hown & Hwin).
  - split; [discriminate|reflexivity].
  - reflexivity.
  - discriminate.
  - split; [discriminate|reflexivity].
  - discriminate.
  - vm_compute. reflexivity.
  - split; [exact Hidx|]. split; [exact Hle|]. split.
    + apply (Hown 1). split; [discriminate|]. vm_compute. reflexivity.
    + apply (Hwin 0 1 h0 h1).
      * split; [discriminate|reflexivity].
      * vm_compute. reflexivity.
      * vm_compute. reflexivity.
      * vm_compute. reflexivity.
Defined.

Lemma shrink_to_fit_closes_the_file_witness :
  exists pm',
    shrink_to_fit one_short_page = Some pm' /\
    actual_pg_cnt pm' = m_page_index header_800 + 1 /\
    m_compacted pm' = true /\
    page_index pm' = page_index one_short_page /\
    header_index pm' = header_index one_short_page /\
    page_count pm' = page_count one_short_page /\
    m_page_info pm' = m_page_info one_short_page /\
    (forall pool ooo,
       get_free_page_on_disk 4096 clear_header unit unit_compressor_init pool ooo pm'
       = (None, pm')) /\
    (forall pool,
       get_free_page_for_compaction 4096 clear_header unit unit_compressor_init pool pm'
       = (None, pm')).
Proof.
  apply (proj2 (shrink_to_fit_closes_the_file 4096 clear_header unit unit_compressor_init)
           one_short_page header_800).
  - exact one_short_page_well_formed.
  - reflexivity.
  - discriminate.
  - reflexivity.
  - split; [discriminate|reflexivity].
Defined.

Lemma get_page_order_sorts_by_file_then_page_witness :
  let second_file := mkPageManager 1 hour 1 false 4 2 1 4
                       [header_800; zero_header; zero_header; zero_header] in
  let h3 := mkPageInfoOnDisk 3 0 4096 0 0 0 0 0 in
  get_page_order h3 one_short_page < get_page_order header_800 second_file <->
  m_id one_short_page < m_id second_file \/
  (m_id one_short_page = m_id second_file /\ m_page_index h3 < m_page_index header_800).
Proof.
  intros second_file h3.
  apply (get_page_order_sorts_by_file_then_page one_short_page second_file h3 header_800).
  - reflexivity.
  - discriminate.
  - discriminate.
  - split; [discriminate|reflexivity].
  - split; [discriminate|reflexivity].
  - discriminate.
  - discriminate.
Defined.

Lemma allocated_page_compressor_covers_its_page_witness :
  fst (get_free_page_on_disk 4096 clear_header unit unit_compressor_init true true
         one_short_page) =
  Some (mkPageInfo unit 1
          (Some (unit_compressor_init 0 0 (wrap32 (2 * 4096)) 4096))
          (mkTimeRange 3600 0)) /\
  (actual_pg_cnt one_short_page * 4096 <= 2 ^ 32 ->
   wrap32 (page_index one_short_page * 4096) = page_index one_short_page * 4096).
Proof.
  apply (allocated_page_compressor_covers_its_page 4096 clear_header unit
           unit_compressor_init true one_short_page).
  - exact one_short_page_well_formed.
  - split; [discriminate|reflexivity].
  - reflexivity.
  - reflexivity.
Defined.


Lemma reopening_an_existing_file_witness :
  exists pm',
    PageManager_new 4096 40 20 false hour 7 0 8 (Existing (file_of false one_short_page))
    = Some pm' /\
    m_id pm' = 7 /\ m_time_range pm' = hour /\
    page_count pm' = page_count one_short_page /\
    m_compressor_version pm' = m_compressor_version one_short_page /\
    m_compacted pm' = m_compacted one_short_page /\
    header_index pm' = header_index one_short_page /\
    actual_pg_cnt pm' = actual_pg_cnt one_short_page /\
    m_page_info pm' = m_page_info one_short_page /\
    calc_first_page_info_index 4096 40 20 (page_count one_short_page)
      <= page_index pm' <= page_index one_short_page.
Proof.
  apply (proj2 (reopening_an_existing_file 4096 40 20 false) hour 7 0 8 one_short_page).
  - exact one_short_page_well_formed.
  - split; [discriminate|]. vm_compute. discriminate.
  - discriminate.
Defined.

Lemma shrink_to_fit_after_packing_leaves_page_index_above_witness :
  exists info pm1 pm2,
    get_free_page_for_compaction 4096 clear_header unit unit_compressor_init true
      one_short_page = (Some info, pm1) /\
    shrink_to_fit pm1 = Some pm2 /\
    page_index pm2 = page_index one_short_page + 1 /\
    actual_pg_cnt pm2 = m_page_index header_800 + 1 /\
    ~ counters_ok pm2.
Proof.
  apply (shrink_to_fit_after_packing_leaves_page_index_above 4096 clear_header unit
           unit_compressor_init one_short_page header_800).
  - exact one_short_page_well_formed.
  - split; [discriminate|reflexivity].
  - reflexivity.
  - reflexivity.
  - reflexivity.
  - reflexivity.
  - discriminate.
  - discriminate.
  - discriminate.
  - split; [discriminate|reflexivity].
Defined.

End Page.

(* ===================================================================== *)
(** * src/utils/config.cpp *)
(* ===================================================================== *)

Module Config.

(** Modelled from the spec: class [Property] is declared in config.h; a
    property is a named value that can be read back as a string
    ([as_str]) and replaced ([set_value]). *)
Record Property : Type := mkProperty {
  p_name : string;
  p_value : string
}.

Definition as_str (p : Property) : string := p_value p.

Definition Property_set_value (value : string) (p : Property) : Property :=
  mkProperty (p_name p) value.

(** The two static maps of [Config].  Every [shared_ptr<Property>] stored
    in them is created by [new Property] at the place of insertion and is
    not shared between the maps, so a map of values stands for them. *)
Record Config : Type := mkConfig {
  m_properties : gmap string Property;
  m_overrides : gmap string Property
}.

(** [Config::reload] either returns or lets the exception of a config
    file that cannot be opened escape; the properties are cleared by
    then. *)
Inductive reload_result : Type :=
| Reloaded (cfg : Config)
| Failed (cfg : Config).

(** [Config::get_property] *)
Definition get_property (name : string) (props : gmap string Property)
  : option Property :=
  props !! name.

(** [Config::set_value_no_lock] *)
Definition set_value_no_lock (name value : string) (props : gmap string Property)
  : gmap string Property :=
  match get_property name props with
  | None => <[name := mkProperty name value]> props
  | Some property => <[name := Property_set_value value property]> props
  end.

(** [Config::add_override] *)
Definition add_override (name value : string) (cfg : Config) : Config :=
  match m_overrides cfg !! name with
  | None =>
      mkConfig (m_properties cfg) (<[name := mkProperty name value]> (m_overrides cfg))
  | Some p =>
      mkConfig (m_properties cfg)
        (<[name := Property_set_value value p]> (m_overrides cfg))
  end.

(** The loop [for (auto const& override: m_overrides)
      set_value_no_lock(override.first, override.second->as_str());] *)
Definition apply_overrides (overrides : list (string * Property))
    (props : gmap string Property) : gmap string Property :=
  foldl (fun acc kv => set_value_no_lock kv.1 (as_str kv.2) acc) props overrides.

(** [Config::get_override] *)
Definition get_override (name : string) (overrides : gmap string Property)
  : option Property :=
  overrides !! name.

(** The test [ptr != nullptr] of a [shared_ptr]. *)
Definition not_null {A : Type} (ptr : option A) : bool :=
  match ptr with
  | Some _ => true
  | None => false
  end.

(** [Config::exists] *)
Definition exists_ (name : string) (cfg : Config) : bool :=
  not_null (get_property name (m_properties cfg))
  || not_null (get_override name (m_overrides cfg)).

(** [EMPTY_STD_STRING] is declared outside of config.cpp: the empty
    [std::string]. *)
Definition EMPTY_STD_STRING : string := EmptyString.

(** [Config::get_str(name)] *)
Definition get_str (name : string) (cfg : Config) : string :=
  match get_property name (m_properties cfg) with
  | None => EMPTY_STD_STRING
  | Some property => as_str property
  end.

(** [Config::get_str(name, def_value)] *)
Definition get_str_def (name def_value : string) (cfg : Config) : string :=
  match get_property name (m_properties cfg) with
  | None => def_value
  | Some property => as_str property
  end.

(** [Config::set_value] *)
Definition set_value (name value : string) (cfg : Config) : Config :=
  mkConfig (set_value_no_lock name value (m_properties cfg)) (m_overrides cfg).

(** [std::string::find_last_of(c)]; [None] stands for [npos]. *)
Fixpoint find_last_of (s : string) (c : ascii) : option nat :=
  match s with
  | EmptyString => None
  | String c' rest =>
      match find_last_of rest c with
      | Some pos => Some (S pos)
      | None => if Ascii.eqb c' c then Some O else None
      end
  end.

(** [std::string::substr(pos, len)] for [pos] within the string. *)
Definition substr (pos len : nat) (s : string) : string := String.substring pos len s.

(** An instance of the two helpers of utils.h for the scenarios: a line
    starts with a character; a line is cut at the first delimiter. *)
Definition first_char_is (line : string) (c : ascii) : bool :=
  match line with
  | String c' _ => Ascii.eqb c' c
  | EmptyString => false
  end.

Fixpoint cut_at (line : string) (delim : ascii) : option (string * string) :=
  match line with
  | EmptyString => None
  | String c rest =>
      if Ascii.eqb c delim then Some (EmptyString, rest)
      else match cut_at rest delim with
           | None => None
           | Some (k, v) => Some (String c k, v)
           end
  end.

Section WithHelpers.

(** [starts_with] and [tokenize] are declared outside of config.cpp;
    [tokenize(line, kv, delim)] returns whether it filled [kv]. *)
Variable starts_with : string -> ascii -> bool.
Variable tokenize : string -> ascii -> option (string * string).

(** The [while (std::getline(file, line))] loop of [reload]. *)
Fixpoint load_lines (lines : list string) (props : gmap string Property)
  : gmap string Property :=
  match lines with
  | [] => props
  | line :: rest =>
      if starts_with line ";"%char then load_lines rest props
      else if starts_with line "#"%char then load_lines rest props
      else
        match tokenize line "="%char with
        | None => load_lines rest props
        | Some (key, value) => load_lines rest (set_value_no_lock key value props)
        end
  end.

(** [Config::reload].  [file] is [None] when the config file cannot be
    opened, and the list of its lines otherwise. *)
Definition reload (file : option (list string)) (cfg : Config) : reload_result :=
  let cleared := (∅ : gmap string Property) in
  match file with
  | None => Failed (mkConfig cleared (m_overrides cfg))
  | Some lines =>
      let loaded := load_lines lines cleared in
      Reloaded
        (mkConfig (apply_overrides (map_to_list (m_overrides cfg)) loaded)
           (m_overrides cfg))
  end.

(** Several reloads in a row, each finding its own file content; [None]
    when one of them fails. *)
Fixpoint reload_all (files : list (list string)) (cfg : Config) : option Config :=
  match files with
  | [] => Some cfg
  | lines :: rest =>
      match reload (Some lines) cfg with
      | Reloaded cfg' => reload_all rest cfg'
      | Failed _ => None
      end
  end.

(** The names of the three settings behind the directories and the
    working directory are declared outside of config.cpp. *)
Variable CFG_TSDB_DATA_DIR : string.
Variable CFG_TICKTOCK_HOME : string.
Variable CFG_LOG_FILE : string.
Variable g_working_dir : string.

(** [Config::get_data_dir] *)
Definition get_data_dir (cfg : Config) : string :=
  if exists_ CFG_TSDB_DATA_DIR cfg then get_str CFG_TSDB_DATA_DIR cfg
  else if exists_ CFG_TICKTOCK_HOME cfg then get_str CFG_TICKTOCK_HOME cfg +:+ "/data"
  else g_working_dir +:+ "/data".

(** [Config::get_log_dir] *)
Definition get_log_dir (cfg : Config) : string :=
  if exists_ CFG_LOG_FILE cfg then
    let log_file := get_str CFG_LOG_FILE cfg in
    match find_last_of log_file "/"%char with
    | None => g_working_dir
    | Some pos => substr 0 pos log_file
    end
  else if exists_ CFG_TICKTOCK_HOME cfg then get_str CFG_TICKTOCK_HOME cfg +:+ "/log"
  else g_working_dir +:+ "/log".

(** [Config::get_log_file] *)
Definition get_log_file (cfg : Config) : string :=
  if exists_ CFG_LOG_FILE cfg then get_str CFG_LOG_FILE cfg
  else get_log_dir cfg +:+ "/ticktock.log".

(** What a line of the config file assigns, if anything: the three
    [continue]s of the loop of [reload]. *)
Definition assigns (line : string) : option (string * string) :=
  if starts_with line ";"%char then None
  else if starts_with line "#"%char then None
  else tokenize line "="%char.

Definition assigned_key (line : string) : option string := fst <$> assigns line.

(** ** Overrides win *)

Lemma set_value_no_lock_same name value (props : gmap string Property) :
  exists q, set_value_no_lock name value props !! name = Some q /\ as_str q = value.
Proof.
  unfold set_value_no_lock, get_property.
  destruct (props !! name) as [p|]; rewrite lookup_insert_eq; eauto.
Qed.

Lemma set_value_no_lock_other name name' value (props : gmap string Property) :
  name <> name' ->
  set_value_no_lock name value props !! name' = props !! name'.
Proof.
  intros Hne. unfold set_value_no_lock, get_property.
  destruct (props !! name) as [p|]; rewrite lookup_insert_ne; done.
Qed.

Lemma apply_overrides_other (l : list (string * Property)) :
  forall (props : gmap string Property) key,
  key ∉ l.*1 -> apply_overrides l props !! key = props !! key.
Proof.
  induction l as [|[k p] l IH]; intros props key Hnot; [reflexivity|].
  cbn in Hnot. apply not_elem_of_cons in Hnot as [Hne Hnot].
  unfold apply_overrides in *. cbn [foldl fst snd].
  rewrite IH by done. apply set_value_no_lock_other. congruence.
Qed.

Lemma apply_overrides_wins (l : list (string * Property)) :
  forall (props : gmap string Property) key p,
  NoDup (l.*1) -> (key, p) ∈ l ->
  exists q, apply_overrides l props !! key = Some q /\ as_str q = as_str p.
Proof.
  induction l as [|[k p0] l IH]; intros props key p Hnd Hin.
  - apply elem_of_nil in Hin. done.
  - cbn in Hnd. apply NoDup_cons in Hnd as [Hk Hnd].
    apply elem_of_cons in Hin as [Heq|Hin].
    + injection Heq as -> ->.
      destruct (set_value_no_lock_same k (as_str p0) props) as (q & Hq & Hv).
      exists q. split; [|exact Hv].
      unfold apply_overrides. cbn [foldl fst snd].
      fold (apply_overrides l (set_value_no_lock k (as_str p0) props)).
      rewrite apply_overrides_other by done. exact Hq.
    + unfold apply_overrides. cbn [foldl fst snd].
      apply (IH _ key p Hnd Hin).
Qed.

Lemma reload_keeps_overrides lines cfg :
  exists cfg', reload (Some lines) cfg = Reloaded cfg' /\
               m_overrides cfg' = m_overrides cfg.
Proof. eexists. split; reflexivity. Qed.

Lemma reload_override_wins lines cfg key p :
  m_overrides cfg !! key = Some p ->
  exists cfg' q,
    reload (Some lines) cfg = Reloaded cfg' /\
    m_overrides cfg' = m_overrides cfg /\
    m_properties cfg' !! key = Some q /\
    as_str q = as_str p.
Proof.
  intros Hov.
  destruct (apply_overrides_wins (map_to_list (m_overrides cfg))
              (load_lines lines ∅) key p) as (q & Hq & Hv).
  - apply NoDup_fst_map_to_list.
  - apply elem_of_map_to_list. exact Hov.
  - eexists _, q. split; [reflexivity|]. split; [reflexivity|]. split; done.
Qed.

Lemma add_override_registers name value cfg :
  exists p, m_overrides (add_override name value cfg) !! name = Some p /\
            as_str p = value.
Proof.
  unfold add_override.
  destruct (m_overrides cfg !! name) as [p|]; cbn; rewrite lookup_insert_eq; eauto.
Qed.

Lemma reload_all_override_wins files :
  forall cfg key p,
  files <> [] ->
  m_overrides cfg !! key = Some p ->
  exists cfg' q,
    reload_all files cfg = Some cfg' /\
    m_overrides cfg' = m_overrides cfg /\
    m_properties cfg' !! key = Some q /\
    as_str q = as_str p.
Proof.
  induction files as [|lines rest IH]; intros cfg key p Hne Hov; [done|].
  destruct (reload_override_wins lines cfg key p Hov) as (cfg1 & q1 & Hr & Ho & Hq & Hv).
  cbn [reload_all]. rewrite Hr.
  destruct rest as [|lines' rest'].
  - exists cfg1, q1. done.
  - destruct (IH cfg1 key p) as (cfg2 & q2 & Hr2 & Ho2 & Hq2 & Hv2);
      [done | rewrite Ho; exact Hov |].
    exists cfg2, q2. rewrite Ho2, Ho. done.
Qed.

(** C8.  A key registered with [add_override] is stored, after every
    successful [reload], with the value of the override, whatever the
    lines of the config file assign to it; [reload] leaves the overrides
    as they are, so this holds after the first reload and after every
    later one. *)
Theorem overrides_survive_reloads :
  (forall lines cfg key p,
     m_overrides cfg !! key = Some p ->
     exists cfg' q,
       reload (Some lines) cfg = Reloaded cfg' /\
       m_overrides cfg' = m_overrides cfg /\
       m_properties cfg' !! key = Some q /\
       as_str q = as_str p)
  /\
  (forall files cfg name value,
     files <> [] ->
     exists cfg' q,
       reload_all files (add_override name value cfg) = Some cfg' /\
       m_properties cfg' !! name = Some q /\
       as_str q = value).
Proof.
  split.
  - intros lines cfg key p Hov. apply reload_override_wins. exact Hov.
  - intros files cfg name value Hne.
    destruct (add_override_registers name value cfg) as (p & Hp & Hv).
    destruct (reload_all_override_wins files (add_override name value cfg) name p Hne Hp)
      as (cfg' & q & Hr & _ & Hq & Hvq).
    exists cfg', q. split; [exact Hr|]. split; [exact Hq|]. congruence.
Qed.

(** ** Further properties of the configuration *)

(** X13.  [set_value] followed by [get_str] (with or without a default)
    reads the value back and makes the name exist; the overrides and every
    other name are left as they were. *)
Theorem set_value_then_get_str name value cfg :
  get_str name (set_value name value cfg) = value /\
  (forall def_value, get_str_def name def_value (set_value name value cfg) = value) /\
  exists_ name (set_value name value cfg) = true /\
  m_overrides (set_value name value cfg) = m_overrides cfg /\
  (forall other, other <> name ->
     get_str other (set_value name value cfg) = get_str other cfg /\
     exists_ other (set_value name value cfg) = exists_ other cfg).
Proof.
  destruct (set_value_no_lock_same name value (m_properties cfg)) as (q & Hq & Hv).
  unfold get_str, get_str_def, exists_, set_value, get_property.
  cbn [m_properties m_overrides]. rewrite Hq.
  split; [exact Hv|]. split; [intros; exact Hv|]. split; [reflexivity|].
  split; [reflexivity|]. intros other Hne.
  rewrite set_value_no_lock_other by done. done.
Qed.

(** X14.  An override registered with [add_override] makes the name exist
    at once, but [get_str] keeps answering from the properties (the old
    value, or the empty string when there is none) until the next
    [reload]; from then on it answers the override's value. *)
Theorem override_is_read_only_after_reload lines name value cfg :
  exists_ name (add_override name value cfg) = true /\
  get_str name (add_override name value cfg) = get_str name cfg /\
  (get_property name (m_properties cfg) = None ->
   get_str name (add_override name value cfg) = EmptyString) /\
  exists cfg',
    reload (Some lines) (add_override name value cfg) = Reloaded cfg' /\
    get_str name cfg' = value /\
    exists_ name cfg' = true.
Proof.
  destruct (add_override_registers name value cfg) as (p & Hp & Hv).
  assert (m_properties (add_override name value cfg) = m_properties cfg) as Hprops
    by (unfold add_override; destruct (m_overrides cfg !! name); reflexivity).
  split.
  { unfold exists_, get_override. rewrite Hp. apply orb_true_r. }
  split.
  { unfold get_str. rewrite Hprops. reflexivity. }
  split.
  { intros Hnone. unfold get_str. rewrite Hprops, Hnone. reflexivity. }
  destruct (reload_override_wins lines (add_override name value cfg) name p Hp)
    as (cfg' & q & Hr & _ & Hq & Hvq).
  exists cfg'. split; [exact Hr|].
  unfold get_str, exists_, get_property. rewrite Hq. split; [congruence|reflexivity].
Qed.

Lemma load_lines_app lines1 :
  forall lines2 props,
  load_lines (lines1 ++ lines2) props = load_lines lines2 (load_lines lines1 props).
Proof.
  induction lines1 as [|line rest IH]; intros lines2 props; [reflexivity|].
  cbn [app load_lines].
  destruct (starts_with line ";"%char); [apply IH|].
  destruct (starts_with line "#"%char); [apply IH|].
  destruct (tokenize line "="%char) as [[k v]|]; apply IH.
Qed.

Lemma load_lines_assigns line rest props :
  load_lines (line :: rest) props =
  match assigns line with
  | None => load_lines rest props
  | Some (key, value) => load_lines rest (set_value_no_lock key value props)
  end.
Proof.
  cbn [load_lines]. unfold assigns.
  destruct (starts_with line ";"%char); [reflexivity|].
  destruct (starts_with line "#"%char); reflexivity.
Qed.

Lemma load_lines_other lines :
  forall props name,
  Forall (fun line => assigned_key line <> Some name) lines ->
  load_lines lines props !! name = props !! name.
Proof.
  induction lines as [|line rest IH]; intros props name Hall; [reflexivity|].
  inversion Hall as [|? ? Hline Hrest]; subst.
  rewrite load_lines_assigns. unfold assigned_key in Hline.
  destruct (assigns line) as [[k v]|]; [|apply IH; exact Hrest].
  rewrite IH by exact Hrest. apply set_value_no_lock_other.
  intros ->. apply Hline. reflexivity.
Qed.

Lemma not_overridden (overrides : gmap string Property) name :
  overrides !! name = None -> name ∉ (map_to_list overrides).*1.
Proof.
  intros Hnone Hin. apply list_elem_of_fmap in Hin as ([k p] & -> & Hin).
  apply elem_of_map_to_list in Hin. cbn in Hnone. congruence.
Qed.

(** X15.  [reload] forgets what is not in the file: a name that no line
    of the file assigns and that has no override does not exist after the
    reload, whatever value [set_value] gave it before.  When the config
    file cannot be opened the properties are left empty (every [get_str]
    answers the empty string) and the overrides are kept. *)
Theorem reload_forgets_runtime_values :
  (forall lines name value cfg,
     m_overrides cfg !! name = None ->
     Forall (fun line => assigned_key line <> Some name) lines ->
     exists cfg',
       reload (Some lines) (set_value name value cfg) = Reloaded cfg' /\
       get_property name (m_properties cfg') = None /\
       exists_ name cfg' = false /\
       get_str name cfg' = EmptyString)
  /\
  (forall cfg,
     exists cfg',
       reload None cfg = Failed cfg' /\
       m_overrides cfg' = m_overrides cfg /\
       forall name,
         get_str name cfg' = EmptyString /\
         exists_ name cfg' = not_null (get_override name (m_overrides cfg))).
Proof.
  split.
  - intros lines name value cfg Hov Hall.
    eexists. split; [reflexivity|].
    assert (apply_overrides (map_to_list (m_overrides (set_value name value cfg)))
              (load_lines lines ∅) !! name = None) as Hnone.
    { rewrite apply_overrides_other by (apply not_overridden; exact Hov).
      rewrite load_lines_other by exact Hall. apply lookup_empty. }
    unfold exists_, get_str, get_property, get_override.
    cbn [m_properties m_overrides set_value]. cbn [m_overrides set_value] in Hnone.
    rewrite Hnone, Hov. done.
  - intros cfg. eexists. split; [reflexivity|]. split; [reflexivity|].
    intros name. unfold get_str, exists_, get_property. cbn [m_properties m_overrides].
    rewrite lookup_empty. done.
Qed.

(** X16.  Of several lines of the file that assign the same key the
    last one wins, lines that start with [;] or [#] and lines [tokenize]
    rejects assign nothing, and without an override the value of that last
    line is what [get_str] answers after the reload. *)
Theorem last_assignment_in_the_file_wins lines1 line lines2 key value cfg :
  assigns line = Some (key, value) ->
  Forall (fun l => assigned_key l <> Some key) lines2 ->
  m_overrides cfg !! key = None ->
  exists cfg',
    reload (Some (lines1 ++ line :: lines2)) cfg = Reloaded cfg' /\
    get_str key cfg' = value /\
    exists_ key cfg' = true.
Proof.
  intros Hline Hrest Hov. eexists. split; [reflexivity|].
  assert (exists q,
            apply_overrides (map_to_list (m_overrides cfg))
              (load_lines (lines1 ++ line :: lines2) ∅) !! key = Some q /\
            as_str q = value) as (q & Hq & Hv).
  { rewrite apply_overrides_other by (apply not_overridden; exact Hov).
    rewrite load_lines_app, load_lines_assigns, Hline.
    rewrite load_lines_other by exact Hrest.
    apply set_value_no_lock_same. }
  unfold get_str, exists_, get_property. cbn [m_properties]. rewrite Hq. done.
Qed.

Lemma find_last_of_append dir base (c : ascii) :
  find_last_of base c = None ->
  find_last_of (dir +:+ String c base) c = Some (String.length dir).
Proof.
  intros Hbase. induction dir as [|c' dir IH].
  - change (EmptyString +:+ String c base) with (String c base).
    cbn [find_last_of]. rewrite Hbase, Ascii.eqb_refl. reflexivity.
  - change (String c' dir +:+ String c base) with (String c' (dir +:+ String c base)).
    cbn [find_last_of String.length]. rewrite IH. reflexivity.
Qed.

Lemma substr_prefix dir rest :
  substr 0 (String.length dir) (dir +:+ rest) = dir.
Proof.
  unfold substr. induction dir as [|c dir IH].
  - destruct rest; reflexivity.
  - change (String c dir +:+ rest) with (String c (dir +:+ rest)).
    cbn [String.length String.substring]. rewrite IH. reflexivity.
Qed.

(** X17.  With the log file configured as [dir/base] ([base] without a
    slash), [get_log_dir] is [dir] and [get_log_file] is the configured
    path; a configured name without any slash lies in the working
    directory; and when no log file is configured, [get_log_file] is
    [ticktock.log] inside [get_log_dir]. *)
Theorem log_dir_is_the_directory_of_the_log_file :
  (forall cfg p dir base,
     get_property CFG_LOG_FILE (m_properties cfg) = Some p ->
     as_str p = dir +:+ String "/"%char base ->
     find_last_of base "/"%char = None ->
     get_log_dir cfg = dir /\
     get_log_file cfg = dir +:+ String "/"%char base)
  /\
  (forall cfg p,
     get_property CFG_LOG_FILE (m_properties cfg) = Some p ->
     find_last_of (as_str p) "/"%char = None ->
     get_log_dir cfg = g_working_dir /\ get_log_file cfg = as_str p)
  /\
  (forall cfg,
     exists_ CFG_LOG_FILE cfg = false ->
     get_log_file cfg = get_log_dir cfg +:+ "/ticktock.log" /\
     (get_log_dir cfg = get_str CFG_TICKTOCK_HOME cfg +:+ "/log" \/
      get_log_dir cfg = g_working_dir +:+ "/log")).
Proof.
  split; [|split].
  - intros cfg p dir base Hp Hs Hbase.
    unfold get_log_dir, get_log_file, exists_, get_str. rewrite Hp. cbn [not_null orb].
    rewrite Hs, find_last_of_append by exact Hbase.
    rewrite substr_prefix. done.
  - intros cfg p Hp Hnone.
    unfold get_log_dir, get_log_file, exists_, get_str. rewrite Hp. cbn [not_null orb].
    rewrite Hnone. done.
  - intros cfg Hno. unfold get_log_file, get_log_dir. rewrite Hno.
    split; [reflexivity|]. destruct (exists_ CFG_TICKTOCK_HOME cfg); [left|right]; done.
Qed.

(** X18.  [get_data_dir] prefers the configured data directory, then
    [data] under the configured home, then [data] under the working
    directory.  Since [exists] also looks at the overrides and [get_str]
    does not, a data directory that is registered as an override but not
    yet loaded by [reload] yields the empty string. *)
Theorem get_data_dir_precedence :
  (forall cfg p,
     get_property CFG_TSDB_DATA_DIR (m_properties cfg) = Some p ->
     get_data_dir cfg = as_str p)
  /\
  (forall cfg p,
     exists_ CFG_TSDB_DATA_DIR cfg = false ->
     get_property CFG_TICKTOCK_HOME (m_properties cfg) = Some p ->
     get_data_dir cfg = as_str p +:+ "/data")
  /\
  (forall cfg,
     exists_ CFG_TSDB_DATA_DIR cfg = false ->
     exists_ CFG_TICKTOCK_HOME cfg = false ->
     get_data_dir cfg = g_working_dir +:+ "/data")
  /\
  (forall cfg value,
     get_property CFG_TSDB_DATA_DIR (m_properties cfg) = None ->
     get_data_dir (add_override CFG_TSDB_DATA_DIR value cfg) = EmptyString).
Proof.
  split; [|split; [|split]].
  - intros cfg p Hp. unfold get_data_dir, exists_, get_str. rewrite Hp. reflexivity.
  - intros cfg p Hno Hp. unfold get_data_dir. rewrite Hno.
    unfold exists_, get_str. rewrite Hp. reflexivity.
  - intros cfg Hno1 Hno2. unfold get_data_dir. rewrite Hno1, Hno2. reflexivity.
  - intros cfg value Hnone.
    destruct (add_override_registers CFG_TSDB_DATA_DIR value cfg) as (p & Hp & _).
    assert (m_properties (add_override CFG_TSDB_DATA_DIR value cfg) = m_properties cfg)
      as Hprops
      by (unfold add_override; destruct (m_overrides cfg !! CFG_TSDB_DATA_DIR);
          reflexivity).
    unfold get_data_dir, exists_, get_str, get_override.
    rewrite Hprops, Hnone, Hp. reflexivity.
Qed.

End WithHelpers.

Lemma overrides_survive_reloads_witness :
  exists cfg' q,
    reload_all first_char_is cut_at
      [["tsdb.page.count=4"; "# a comment"]; ["tsdb.page.count=16"]]
      (add_override "tsdb.page.count" "8" (mkConfig ∅ ∅)) = Some cfg' /\
    m_properties cfg' !! "tsdb.page.count" = Some q /\
    as_str q = "8".
Proof.
  apply (proj2 (overrides_survive_reloads first_char_is cut_at)).
  discriminate.
Defined.

Lemma reload_forgets_runtime_values_witness :
  exists cfg',
    reload first_char_is cut_at (Some ["http.port=6182"; "# tsdb.page.count=2"])
      (set_value "tsdb.page.count" "8" (mkConfig ∅ ∅)) = Reloaded cfg' /\
    get_property "tsdb.page.count" (m_properties cfg') = None /\
    exists_ "tsdb.page.count" cfg' = false /\
    get_str "tsdb.page.count" cfg' = EmptyString.
Proof.
  apply (proj1 (reload_forgets_runtime_values first_char_is cut_at)).
  - reflexivity.
  - repeat constructor; vm_compute; discriminate.
Defined.

Lemma last_assignment_in_the_file_wins_witness :
  exists cfg',
    reload first_char_is cut_at
      (Some (["tsdb.page.count=4"; "# a comment"]
             ++ "tsdb.page.count=16"
                :: ["; tsdb.page.count=32"; "no delimiter"; "http.port=6182"]))
      (mkConfig ∅ ∅) = Reloaded cfg' /\
    get_str "tsdb.page.count" cfg' = "16" /\
    exists_ "tsdb.page.count" cfg' = true.
Proof.
  apply (last_assignment_in_the_file_wins first_char_is cut_at).
  - vm_compute. reflexivity.
  - repeat constructor; vm_compute; discriminate.
  - reflexivity.
Defined.

Lemma log_dir_is_the_directory_of_the_log_file_witness :
  let cfg := set_value "log.file" "/var/log/tt/ticktock.log" (mkConfig ∅ ∅) in
  get_log_dir "ticktock.home" "log.file" "/opt/tt" cfg = "/var/log/tt" /\
  get_log_file "ticktock.home" "log.file" "/opt/tt" cfg
  = "/var/log/tt" +:+ String "/"%char "ticktock.log".
Proof.
  intros cfg.
  apply (proj1 (log_dir_is_the_directory_of_the_log_file
                  "ticktock.home" "log.file" "/opt/tt")
           cfg (mkProperty "log.file" "/var/log/tt/ticktock.log")
           "/var/log/tt" "ticktock.log").
  - vm_compute. reflexivity.
  - vm_compute. reflexivity.
  - vm_compute. reflexivity.
Defined.

Lemma get_data_dir_precedence_witness :
  get_data_dir "tsdb.data.dir" "ticktock.home" "/opt/tt"
    (add_override "tsdb.data.dir" "/data/tt" (mkConfig ∅ ∅)) = EmptyString.
Proof.
  apply (proj2 (proj2 (proj2 (get_data_dir_precedence
                                "tsdb.data.dir" "ticktock.home" "/opt/tt")))).
  reflexivity.
Defined.

End Config.
